(** * auto-sos: wake word detection and cooldown-gated alert dispatch

    A shallow embedding of the two detector scripts of the repository,

      - [wake_word_detector.py]       (Porcupine keyword spotter), module [Porcupine];
      - [wake_word_detector_vosk.py]  (Vosk continuous recogniser), module [Vosk];

    and of the diagnostic script [test_microphone.py], module [Microphone],
    with the properties of the cooldown gate, the alert dispatcher, the
    pre-flight health check, the listening loop, the device listings and
    the microphone test.

    Modelling conventions.

      - Clock readings ([time.time()]) and [COOLDOWN_SECONDS] are exact
        rationals ([Q]); the rounding of floating point subtraction is not
        modelled.
      - Text is [string] (ASCII text); [str.lower] is its ASCII restriction.
        The matching policy and the statements about typed answers are
        stated for text that satisfies [Py.is_ascii].
      - Every function of the scripts runs in the monad [M]: it threads the
        module-level global [last_detection_time], may raise a Python
        exception, and emits a trace of [event]s: the lines passed to [log]
        and the calls made to the outside world (HTTP, console, audio device,
        recognition engine).
      - What the outside world answers is an argument of the function that
        asks: the reading of the clock, the reply to an HTTP request, the
        frame delivered by the audio stream.
      - [while True] consumes a finite list of [tick]s; when the list is
        used up the run is [Blocked]: it is still inside the loop, waiting
        for the next frame.
      - The banner [print]s of [main] and the lines of
        [list_audio_devices] (device enumeration, diagnostics only) go to
        the console, not through [log], and emit nothing to the trace;
        the [pa.terminate()] that ends the listing is in the trace of
        [main], as its first event.
      - [test_microphone.py] has no global state: its functions run in the
        monad [Microphone.W], whose trace holds the lines printed and the
        calls made.  The volume of a frame, [np.abs(audio_data).mean()],
        is a rational delivered with the frame (a frame holds 1024
        samples, so the mean is a number; it is negative only if the
        absolute value wraps around). *)

From Stdlib Require Import ZArith QArith List Sorted String Ascii Bool Lia Lqa.
Import ListNotations.

Set Implicit Arguments.

(* ================================================================== *)
(** * Python values and control                                        *)
(* ================================================================== *)

Module Py.

(** [int(x)] on a float: truncation toward zero. *)
Definition int (x : Q) : Z := Z.quot (Qnum x) (Zpos (Qden x)).

(** [x < y] on numbers. *)
Definition lt (x y : Q) : bool := negb (Qle_bool y x).

(** The exception classes the scripts distinguish.  [ConnectionError] is
    [requests.exceptions.ConnectionError], itself an [Exception];
    [Exception e] is any other instance of [Exception]; in both [e] is
    [str] of the exception.  [KeyboardInterrupt]
    derives from [BaseException] only, so [except Exception] lets it
    through. *)
Inductive exn : Type :=
| ConnectionError (e : string)
| Exception (e : string)
| KeyboardInterrupt.

(** How a piece of code ends: it returns a value, it raises, or (in a
    finite session) it is still waiting for input. *)
Inductive result (A : Type) : Type :=
| Return (a : A)
| Raise (e : exn)
| Blocked.

Arguments Raise {A} e.
Arguments Blocked {A}.

(** [x in text] on strings. *)
Fixpoint startswith (text x : string) : bool :=
  match x, text with
  | EmptyString, _ => true
  | String c x', String d text' => Ascii.eqb c d && startswith text' x'
  | String _ _, EmptyString => false
  end.

Fixpoint contains (x text : string) : bool :=
  startswith text x ||
  match text with
  | EmptyString => false
  | String _ text' => contains x text'
  end.

(** ASCII text: every code point is below 128. *)
Definition is_ascii_char (c : ascii) : bool := (N_of_ascii c <? 128)%N.

Fixpoint is_ascii (s : string) : bool :=
  match s with
  | EmptyString => true
  | String c s' => is_ascii_char c && is_ascii s'
  end.

(** [str.lower] on ASCII text, where it changes the letters A to Z and
    nothing else.  Text with other code points is outside the model: the
    statements about matching and about typed answers are made for text
    that [is_ascii]. *)
Definition lower_char (c : ascii) : ascii :=
  let n := N_of_ascii c in
  if ((65 <=? n) && (n <=? 90))%N then ascii_of_N (n + 32) else c.

Fixpoint lower (s : string) : string :=
  match s with
  | EmptyString => EmptyString
  | String c s' => String (lower_char c) (lower s')
  end.

(** Truthiness of a string: [if text:]. *)
Definition truthy (s : string) : bool :=
  match s with EmptyString => false | String _ _ => true end.

End Py.

Import Py.

(* ================================================================== *)
(** * Configuration ([config.json])                                    *)
(* ================================================================== *)

(** The keys the scripts read.  Keys read with [.get(key, default)] and the
    key [alertMessage], which is looked up only when an alert is sent, may
    be absent. *)
Record Config : Type := {
  sensitivity      : Q;
  cooldownSeconds  : Q;
  audioDeviceIndex : option Z;
  wakeWords        : option (list string);
  port             : option Z;
  alertMessage     : option string
}.

(* ================================================================== *)
(** * Observable behaviour                                             *)
(* ================================================================== *)

(** The lines given to [log], one constructor per format string. *)
Inductive message : Type :=
  (* send_alert *)
| CooldownActive (elapsed : Z) (cooldown : Q)
    (* "Cooldown active ({elapsed}s / {COOLDOWN_SECONDS}s), skipping alert" *)
| SendingAlert            (* "Sending alert to WhatsApp service..." *)
| AlertSent               (* "Alert sent successfully!" *)
| AlertFailedHTTP (status_code : Z)   (* "Alert failed: HTTP {status_code}" *)
| ResponseText (text : string)        (* "   Response: {response.text}" *)
| CannotConnect           (* "Cannot connect to WhatsApp service. Is it running?" *)
| StartItWith             (* "   Start it with: node whatsapp_service.js" *)
| ErrorSendingAlert (e : string)      (* "Error sending alert: {e}" *)
  (* test_whatsapp_service *)
| ServiceReady            (* "WhatsApp service is connected and ready" *)
| ServiceNotConnected     (* "WhatsApp service is running but not connected to WhatsApp" *)
| ScanQRCode              (* "   Please scan the QR code in the WhatsApp service terminal" *)
| ServiceNotRunning       (* "WhatsApp service is not running!" *)
| StartItFirst            (* "   Please start it first: node whatsapp_service.js" *)
| CouldNotCheck (e : string)          (* "Could not check WhatsApp service[ status]: {e}" *)
  (* main: start-up *)
| CheckingService         (* "Checking WhatsApp service..." *)
| WarningNotReady         (* "WARNING: WhatsApp service is not ready.[ Alerts may fail.]" *)
| PressCtrlC              (* "   Press Ctrl+C to exit, or ... to continue..." *)
| Exiting                 (* "Exiting..." *)
| InitializingEngine      (* "Initializing Porcupine wake word engine..." / "Loading Vosk speech recognition model..." *)
| FirstRunDownload        (* "   (First run will download ~40MB model)" *)
| EngineInitialized (version : string)  (* "Porcupine initialized (v{porcupine.version})" *)
| ModelLoaded             (* "Vosk model loaded successfully" *)
| InfoSampleRate (rate : Z)           (* "   Sample Rate: {porcupine.sample_rate} Hz" *)
| InfoFrameLength (n : Z)             (* "   Frame Length: {porcupine.frame_length}" *)
| InfoSensitivity (s : Q)             (* "   Sensitivity: {SENSITIVITY}" *)
| InfoCooldown (c : Q)                (* "   Cooldown: {COOLDOWN_SECONDS} seconds" *)
| EngineInitFailed (e : string)       (* "Failed to initialize Porcupine: {e}" / "Failed to load Vosk model: {e}" *)
| Remediation (line : nat)            (* the numbered lines of guidance after a failed initialisation *)
| OpeningAudio            (* "Opening audio stream..." *)
| AudioOpened (name : string)         (* "Audio stream opened: {device_info['name']}" *)
| AudioOpenFailed (e : string)        (* "Failed to open audio stream: {e}" *)
  (* main: loop *)
| Rule                    (* "=" * 60 *)
| Listening (words : list string) (more : bool)
    (* "LISTENING FOR WAKE WORD: 'picovoice'" /
       "LISTENING FOR WAKE WORDS: {', '.join(WAKE_WORDS[:5])}{'...' if len(WAKE_WORDS) > 5 else ''}" *)
| InfoProduction          (* "   (For production, replace with custom 'help' model)" *)
| InfoTotalWakeWords (n : nat)        (* "   Total wake words: {len(WAKE_WORDS)}" *)
| PressCtrlCToStop        (* "   Press Ctrl+C to stop" *)
| WakeWordDetected (word : option string)
    (* "WAKE WORD DETECTED!" / "WAKE WORD DETECTED: '{detected_words[0]}'" *)
| Recognized (text : string)          (* "Recognized: '{text}'" *)
  (* main: shutdown *)
| Stopping                (* "Stopping wake word detector..." *)
| CleaningUp              (* "Cleaning up resources..." *)
| ShutdownComplete.       (* "Shutdown complete" *)

(** The calls to the outside world. *)
Inductive call : Type :=
| requests_get (port : Z)                       (* GET  http://localhost:{port}/health, timeout 3 *)
| requests_post (port : Z) (message : string)   (* POST http://localhost:{port}/alert {"message": message}, timeout 10 *)
| input                                         (* input() *)
| pvporcupine_create (sensitivity : Q)          (* pvporcupine.create(keywords=['picovoice'], ...) *)
| vosk_load                                     (* Model(...), KaldiRecognizer(model, 16000), SetWords(False) *)
| pa_open (device : option Z)                   (* pa.open(..., input_device_index=DEVICE_INDEX) and the device lookup *)
| stream_read                                   (* stream.read(n, exception_on_overflow=False) *)
| stream_stop                                   (* stream.stop_stream() *)
| stream_close                                  (* stream.close() *)
| pa_terminate                                  (* pa.terminate() *)
| porcupine_delete.                             (* porcupine.delete() *)

Inductive event : Type :=
| Log (m : message)
| Call (c : call).

(** The module-level mutable state. *)
Record globals : Type := { last_detection_time : Q }.

(** [last_detection_time = 0] at module load. *)
Definition initial : globals := {| last_detection_time := 0 |}.

(* ================================================================== *)
(** * The monad of the scripts                                         *)
(* ================================================================== *)

Definition M (A : Type) : Type := globals -> result A * globals * list event.

Definition ret {A} (a : A) : M A := fun g => (Return a, g, []).

Definition bind {A B} (m : M A) (k : A -> M B) : M B := fun g =>
  match m g with
  | (Return a, g', t) => let '(r, g'', t') := k a g' in (r, g'', t ++ t')
  | (Raise e, g', t) => (Raise e, g', t)
  | (Blocked, g', t) => (Blocked, g', t)
  end.

Declare Scope py_scope.
Delimit Scope py_scope with py.
Notation "x <- m ;; k" := (bind m (fun x => k))
  (at level 61, m at next level, right associativity) : py_scope.
Notation "m ;; k" := (bind m (fun _ => k))
  (at level 61, right associativity) : py_scope.
Open Scope py_scope.

Definition raise {A} (e : exn) : M A := fun g => (Raise e, g, []).

Definition blocked {A} : M A := fun g => (Blocked, g, []).

(** [log(m)]. *)
Definition log (m : message) : M unit := fun g => (Return tt, g, [Log m]).

(** A call to the outside world that ends the way [answer] says. *)
Definition external {A} (c : call) (answer : result A) : M A :=
  fun g => (answer, g, [Call c]).

(** Reading and assigning the global. *)
Definition get_last_detection_time : M Q :=
  fun g => (Return (last_detection_time g), g, []).

Definition set_last_detection_time (t : Q) : M unit :=
  fun _ => (Return tt, {| last_detection_time := t |}, []).

(** [try: body  except ...: handler].  [handler e = None] when no [except]
    clause matches [e]. *)
Definition try_except {A} (body : M A) (handler : exn -> option (M A)) : M A :=
  fun g =>
    match body g with
    | (Raise e, g', t) =>
        match handler e with
        | Some h => let '(r, g'', t') := h g' in (r, g'', t ++ t')
        | None => (Raise e, g', t)
        end
    | done => done
    end.

(** [try: body  finally: cleanup].  The cleanup runs when the body returned
    or raised; an exception of the body is raised again after it. *)
Definition try_finally {A} (body : M A) (cleanup : M unit) : M A :=
  fun g =>
    match body g with
    | (Blocked, g', t) => (Blocked, g', t)
    | (r, g', t) =>
        match cleanup g' with
        | (Return _, g'', t') => (r, g'', t ++ t')
        | (Raise e, g'', t') => (Raise e, g'', t ++ t')
        | (Blocked, g'', t') => (Blocked, g'', t ++ t')
        end
    end.

(** What [requests.post] / [requests.get] do. *)
Inductive reply : Type :=
| Response (status_code : Z) (text : string)
| Raises (e : exn).

Definition answer_of (r : reply) : result (Z * string) :=
  match r with
  | Response status_code text => Return (status_code, text)
  | Raises e => Raise e
  end.

(** The audio side, as the scripts use it. *)
Module PyAudio.

(** [stream.read(n, exception_on_overflow)]: an input overflow raises only
    when the caller asks for it; otherwise the frame is returned. *)
Definition read (exception_on_overflow overflowed : bool) : result unit :=
  if overflowed && exception_on_overflow
  then Raise (Exception "[Errno -9981] Input overflowed")
  else Return tt.

(** The attributes of a Porcupine handle that [main] prints. *)
Record engine : Type := {
  version      : string;
  sample_rate  : Z;
  frame_length : Z
}.

End PyAudio.

(** [config['whatsapp']['alertMessage']]: a [KeyError] when the key is absent. *)
Definition lookup_alertMessage (config : Config) : M string :=
  match alertMessage config with
  | Some m => ret m
  | None => raise (Exception "'alertMessage'")
  end.

(** [config['whatsapp'].get('port', 3000)]. *)
Definition WHATSAPP_PORT (config : Config) : Z :=
  match port config with Some p => p | None => 3000%Z end.

(* ================================================================== *)
(** * The device table                                                 *)
(* ================================================================== *)

Module Devices.

(** An entry of PyAudio's device table, as [get_device_info_by_index]
    returns it: the keys the scripts read. *)
Record info : Type := {
  name              : string;
  defaultSampleRate : Q;
  maxInputChannels  : Z
}.

(** The lines that [list_audio_devices] prints. *)
Inductive line : Type :=
| Header                              (* "Available audio devices:" *)
| Dashes                              (* "-" * 60 *)
| Device (i : nat) (name : string)    (* "  [{i}] {info['name']}" *)
| SampleRate (hz : Z)                 (* "      Sample Rate: {int(info['defaultSampleRate'])} Hz" *)
| Channels (n : Z)                    (* "      Channels: {info['maxInputChannels']}" *)
| Blank.                              (* print() *)

(** [for i in range(n): body(i)], gathering what the body prints. *)
Definition for_range {A} (n : nat) (body : nat -> list A) : list A :=
  flat_map body (seq 0 n).

End Devices.

(* ================================================================== *)
(** * wake_word_detector.py                                            *)
(* ================================================================== *)

Module Porcupine.
Section Script.

Variable config : Config.

Definition SENSITIVITY : Q := sensitivity config.
Definition COOLDOWN_SECONDS : Q := cooldownSeconds config.
Definition DEVICE_INDEX : option Z := audioDeviceIndex config.

(** [send_alert()], run when [time.time()] reads [current_time] and the
    alert service answers the POST with [post]. *)
Definition send_alert (current_time : Q) (post : reply) : M bool :=
  last <- get_last_detection_time ;;
  if Py.lt (current_time - last) COOLDOWN_SECONDS then
    let elapsed := Py.int (current_time - last) in
    log (CooldownActive elapsed COOLDOWN_SECONDS) ;;
    ret false
  else
    try_except
      (log SendingAlert ;;
       message <- lookup_alertMessage config ;;
       response <- external (requests_post (WHATSAPP_PORT config) message)
                            (answer_of post) ;;
       let '(status_code, text) := response in
       if (status_code =? 200)%Z then
         log AlertSent ;;
         set_last_detection_time current_time ;;
         ret true
       else
         log (AlertFailedHTTP status_code) ;;
         log (ResponseText text) ;;
         ret false)
      (fun e =>
         match e with
         | ConnectionError _ =>
             Some (log CannotConnect ;; log StartItWith ;; ret false)
         | Exception e =>
             Some (log (ErrorSendingAlert e) ;; ret false)
         | KeyboardInterrupt => None
         end).


(** [list_audio_devices()] over PyAudio's device table: the lines printed
    ([pa.terminate()] follows). *)
Definition list_audio_devices (table : list Devices.info) : list Devices.line :=
  [Devices.Header; Devices.Dashes] ++
  Devices.for_range (List.length table)
    (fun i =>
       match nth_error table i with
       | Some info =>
           if (Devices.maxInputChannels info >? 0)%Z then
             [Devices.Device i (Devices.name info);
              Devices.SampleRate (Py.int (Devices.defaultSampleRate info));
              Devices.Channels (Devices.maxInputChannels info);
              Devices.Blank]
           else []
       | None => []
       end) ++
  [Devices.Dashes].

(** [test_whatsapp_service()].  [health] is what the GET of [/health]
    followed by [response.json()] and [data.get('whatsappConnected')]
    gives: the truth value of the field, or the exception raised on the
    way. *)
Definition test_whatsapp_service (health : result bool) : M bool :=
  try_except
    (connected <- external (requests_get (WHATSAPP_PORT config)) health ;;
     if connected : bool then
       log ServiceReady ;;
       ret true
     else
       log ServiceNotConnected ;;
       log ScanQRCode ;;
       ret false)
    (fun e =>
       match e with
       | ConnectionError _ =>
           Some (log ServiceNotRunning ;; log StartItFirst ;; ret false)
       | Exception e =>
           Some (log (CouldNotCheck e) ;; ret false)
       | KeyboardInterrupt => None
       end).

(** One turn of [while True].  The audio stream delivers a frame, with or
    without an input overflow behind it, and the engine classifies it; or
    reading or processing raises. *)
Inductive tick : Type :=
| Frame (overflowed : bool) (keyword_index : Z)
        (current_time : Q) (post : reply)
| Fault (e : exn).

Definition iteration (t : tick) : M unit :=
  match t with
  | Fault e => external stream_read (Raise e)
  | Frame overflowed keyword_index current_time post =>
      external stream_read (PyAudio.read false overflowed) ;;
      if (keyword_index >=? 0)%Z then
        log (WakeWordDetected None) ;;
        send_alert current_time post ;;
        ret tt
      else
        ret tt
  end.

Fixpoint listen (ticks : list tick) : M unit :=
  match ticks with
  | [] => blocked
  | t :: ticks' => iteration t ;; listen ticks'
  end.

(** What the world does during one run of [main]. *)
Record session : Type := {
  health   : result bool;            (* the health probe *)
  keyboard : result string;          (* input() *)
  engine   : result PyAudio.engine;  (* pvporcupine.create(...) *)
  audio    : result string;          (* pa.open(...), then the device name *)
  ticks    : list tick
}.

Definition cleanup : M unit :=
  log CleaningUp ;;
  external stream_stop (Return tt) ;;
  external stream_close (Return tt) ;;
  external pa_terminate (Return tt) ;;
  external porcupine_delete (Return tt) ;;
  log ShutdownComplete.

(** From ["Opening audio stream..."] to the end of [main]. *)
Definition open_and_listen (s : session) : M unit :=
  log OpeningAudio ;;
  opened <- try_except
    (name <- external (pa_open DEVICE_INDEX) (audio s) ;;
     log (AudioOpened name) ;;
     ret true)
    (fun e =>
       match e with
       | ConnectionError e | Exception e =>
           Some (log (AudioOpenFailed e) ;;
                 external porcupine_delete (Return tt) ;;
                 external pa_terminate (Return tt) ;;
                 ret false)
       | KeyboardInterrupt => None
       end) ;;
  if opened : bool then
    log Rule ;;
    log (Listening ["picovoice"%string] false) ;;
    log InfoProduction ;;
    log PressCtrlCToStop ;;
    log Rule ;;
    try_finally
      (try_except
         (listen (ticks s))
         (fun e =>
            match e with
            | KeyboardInterrupt => Some (log Stopping)
            | _ => None
            end))
      cleanup
  else
    ret tt.

(** From ["Initializing Porcupine wake word engine..."] to the end. *)
Definition initialize_and_listen (s : session) : M unit :=
  log InitializingEngine ;;
  initialized <- try_except
    (porcupine <- external (pvporcupine_create SENSITIVITY) (engine s) ;;
     log (EngineInitialized (PyAudio.version porcupine)) ;;
     log (InfoSampleRate (PyAudio.sample_rate porcupine)) ;;
     log (InfoFrameLength (PyAudio.frame_length porcupine)) ;;
     log (InfoSensitivity SENSITIVITY) ;;
     log (InfoCooldown COOLDOWN_SECONDS) ;;
     ret true)
    (fun e =>
       match e with
       | ConnectionError e | Exception e =>
           Some (log (EngineInitFailed e) ;;
                 log (Remediation 0) ;;
                 log (Remediation 1) ;;
                 log (Remediation 2) ;;
                 log (Remediation 3) ;;
                 log (Remediation 4) ;;
                 ret false)
       | KeyboardInterrupt => None
       end) ;;
  if initialized : bool then open_and_listen s else ret tt.

(** [list_audio_devices()] as a step of [main].  Its lines (those of
    [list_audio_devices]) go to the console by [print], not through
    [log]; of its calls the trace keeps the one that releases the PyAudio
    instance it made, [pa.terminate()]. *)
Definition listing : M unit :=
  external pa_terminate (Return tt).

(** [main()]. *)
Definition main (s : session) : M unit :=
  listing ;;
  log CheckingService ;;
  service_ready <- test_whatsapp_service (health s) ;;
  proceed <-
    (if negb service_ready then
       log WarningNotReady ;;
       log PressCtrlC ;;
       try_except
         (external input (keyboard s) ;; ret true)
         (fun e =>
            match e with
            | KeyboardInterrupt => Some (log Exiting ;; ret false)
            | _ => None
            end)
     else
       ret true) ;;
  if proceed : bool then initialize_and_listen s else ret tt.

End Script.
End Porcupine.

(* ================================================================== *)
(** * wake_word_detector_vosk.py                                       *)
(* ================================================================== *)

Module Vosk.
Section Script.

Variable config : Config.

(** [[word.lower() for word in config['detection'].get('wakeWords', ['help'])]] *)
Definition WAKE_WORDS : list string :=
  map Py.lower
      (match wakeWords config with
       | Some words => words
       | None => ["help"%string]
       end).
Definition COOLDOWN_SECONDS : Q := cooldownSeconds config.
Definition DEVICE_INDEX : option Z := audioDeviceIndex config.

(** [send_alert()]. *)
Definition send_alert (current_time : Q) (post : reply) : M bool :=
  last <- get_last_detection_time ;;
  if Py.lt (current_time - last) COOLDOWN_SECONDS then
    let elapsed := Py.int (current_time - last) in
    log (CooldownActive elapsed COOLDOWN_SECONDS) ;;
    ret false
  else
    try_except
      (log SendingAlert ;;
       message <- lookup_alertMessage config ;;
       response <- external (requests_post (WHATSAPP_PORT config) message)
                            (answer_of post) ;;
       let '(status_code, _) := response in
       if (status_code =? 200)%Z then
         log AlertSent ;;
         set_last_detection_time current_time ;;
         ret true
       else
         log (AlertFailedHTTP status_code) ;;
         ret false)
      (fun e =>
         match e with
         | ConnectionError _ =>
             Some (log CannotConnect ;; ret false)
         | Exception e =>
             Some (log (ErrorSendingAlert e) ;; ret false)
         | KeyboardInterrupt => None
         end).

(** [list_audio_devices()]: the lines printed. *)
Definition list_audio_devices (table : list Devices.info) : list Devices.line :=
  [Devices.Header; Devices.Dashes] ++
  Devices.for_range (List.length table)
    (fun i =>
       match nth_error table i with
       | Some info =>
           if (Devices.maxInputChannels info >? 0)%Z then
             [Devices.Device i (Devices.name info);
              Devices.SampleRate (Py.int (Devices.defaultSampleRate info));
              Devices.Blank]
           else []
       | None => []
       end) ++
  [Devices.Dashes].

(** [test_whatsapp_service()]. *)
Definition test_whatsapp_service (health : result bool) : M bool :=
  try_except
    (connected <- external (requests_get (WHATSAPP_PORT config)) health ;;
     if connected : bool then
       log ServiceReady ;;
       ret true
     else
       log ServiceNotConnected ;;
       ret false)
    (fun e =>
       match e with
       | ConnectionError _ =>
           Some (log ServiceNotRunning ;; log StartItFirst ;; ret false)
       | Exception e =>
           Some (log (CouldNotCheck e) ;; ret false)
       | KeyboardInterrupt => None
       end).

(** What the recogniser says of the audio fed so far:
    [AcceptWaveform] is false (no utterance boundary yet), or it is true
    and [Result()] is a JSON object that has a ['text'] key or not. *)
Inductive recognition : Type :=
| Partial
| Final (text : option string).

Inductive tick : Type :=
| Frame (overflowed : bool) (heard : recognition)
        (current_time : Q) (post : reply)
| Fault (e : exn).

(** [[word for word in WAKE_WORDS if word in text]] *)
Definition detected_words (text : string) : list string :=
  filter (fun word => Py.contains word text) WAKE_WORDS.

Definition iteration (t : tick) : M unit :=
  match t with
  | Fault e => external stream_read (Raise e)
  | Frame overflowed heard current_time post =>
      external stream_read (PyAudio.read false overflowed) ;;
      match heard with
      | Partial => ret tt
      | Final result =>
          let text :=
            Py.lower (match result with Some t => t | None => EmptyString end) in
          if Py.truthy text then
            log (Recognized text) ;;
            match detected_words text with
            | word :: _ =>
                log (WakeWordDetected (Some word)) ;;
                send_alert current_time post ;;
                ret tt
            | [] => ret tt
            end
          else
            ret tt
      end
  end.

Fixpoint listen (ticks : list tick) : M unit :=
  match ticks with
  | [] => blocked
  | t :: ticks' => iteration t ;; listen ticks'
  end.

Record session : Type := {
  health   : result bool;     (* the health probe *)
  keyboard : result string;   (* input() *)
  engine   : result unit;     (* Model(...), KaldiRecognizer(...), SetWords(False) *)
  audio    : result string;   (* pa.open(...), then the device name *)
  ticks    : list tick
}.

Definition cleanup : M unit :=
  log CleaningUp ;;
  external stream_stop (Return tt) ;;
  external stream_close (Return tt) ;;
  external pa_terminate (Return tt) ;;
  log ShutdownComplete.

(** From ["Opening audio stream..."] to the end of [main]. *)
Definition open_and_listen (s : session) : M unit :=
  log OpeningAudio ;;
  opened <- try_except
    (name <- external (pa_open DEVICE_INDEX) (audio s) ;;
     log (AudioOpened name) ;;
     ret true)
    (fun e =>
       match e with
       | ConnectionError e | Exception e =>
           Some (log (AudioOpenFailed e) ;;
                 external pa_terminate (Return tt) ;;
                 ret false)
       | KeyboardInterrupt => None
       end) ;;
  if opened : bool then
    log Rule ;;
    log (Listening (firstn 5 WAKE_WORDS) (5 <? List.length WAKE_WORDS)%nat) ;;
    log (InfoTotalWakeWords (List.length WAKE_WORDS)) ;;
    log (InfoCooldown COOLDOWN_SECONDS) ;;
    log PressCtrlCToStop ;;
    log Rule ;;
    try_finally
      (try_except
         (listen (ticks s))
         (fun e =>
            match e with
            | KeyboardInterrupt => Some (log Stopping)
            | _ => None
            end))
      cleanup
  else
    ret tt.

(** From ["Loading Vosk speech recognition model..."] to the end. *)
Definition initialize_and_listen (s : session) : M unit :=
  log InitializingEngine ;;
  log FirstRunDownload ;;
  initialized <- try_except
    (external vosk_load (engine s) ;;
     log ModelLoaded ;;
     ret true)
    (fun e =>
       match e with
       | ConnectionError e | Exception e =>
           Some (log (EngineInitFailed e) ;;
                 log (Remediation 0) ;;
                 log (Remediation 1) ;;
                 log (Remediation 2) ;;
                 ret false)
       | KeyboardInterrupt => None
       end) ;;
  if initialized : bool then open_and_listen s else ret tt.

(** [list_audio_devices()] as a step of [main].  Its lines (those of
    [list_audio_devices]) go to the console by [print], not through
    [log]; of its calls the trace keeps the one that releases the PyAudio
    instance it made, [pa.terminate()]. *)
Definition listing : M unit :=
  external pa_terminate (Return tt).

(** [main()]. *)
Definition main (s : session) : M unit :=
  listing ;;
  log CheckingService ;;
  service_ready <- test_whatsapp_service (health s) ;;
  proceed <-
    (if negb service_ready then
       log WarningNotReady ;;
       log PressCtrlC ;;
       try_except
         (external input (keyboard s) ;; ret true)
         (fun e =>
            match e with
            | KeyboardInterrupt => Some (log Exiting ;; ret false)
            | _ => None
            end)
     else
       ret true) ;;
  if proceed : bool then initialize_and_listen s else ret tt.

End Script.
End Vosk.

(* ================================================================== *)
(** * Running a script                                                 *)
(* ================================================================== *)

(** [if __name__ == "__main__": main()].  The interpreter ends with status
    0 when [main] returns and with a non-zero status (folded into 1 here)
    when an exception leaves it; a run that is still listening has not
    ended. *)
Definition exit_status (r : result unit) : option Z :=
  match r with
  | Return _ => Some 0%Z
  | Raise _ => Some 1%Z
  | Blocked => None
  end.

(** Projections of a run. *)
Definition outcome {A} (run : result A * globals * list event) : result A :=
  fst (fst run).
Definition final {A} (run : result A * globals * list event) : globals :=
  snd (fst run).
Definition trace {A} (run : result A * globals * list event) : list event :=
  snd run.

(* ================================================================== *)
(** * Observations on runs                                             *)
(* ================================================================== *)

(** A call of [send_alert] was turned away by the cooldown check: all it
    did was to log the skip line. *)
Definition skipped (run : result bool * globals * list event) : bool :=
  match trace run with
  | [Log (CooldownActive _ _)] => true
  | _ => false
  end.

(** A call of [send_alert] passed the cooldown check and entered the
    [try] block that delivers the alert. *)
Definition attempted (run : result bool * globals * list event) : bool :=
  match trace run with
  | Log SendingAlert :: _ => true
  | _ => false
  end.

(** The number printed first in the skip line, when there is one. *)
Definition reported (run : result bool * globals * list event) : option Z :=
  match trace run with
  | [Log (CooldownActive n _)] => Some n
  | _ => None
  end.

(** Following the specification's words (section 4.3), not the code:
    [remaining = cooldownSeconds - (now - lastAlertTimestamp)], clamped to
    [>= 0]. *)
Definition remaining (cooldown last now : Q) : Q :=
  let r := cooldown - (now - last) in
  if Qle_bool 0 r then r else 0.

Definition is_detection (e : event) : bool :=
  match e with Log (WakeWordDetected _) => true | _ => false end.

(** The first line of every call of [send_alert] is one of these two. *)
Definition is_alert_entry (e : event) : bool :=
  match e with
  | Log (CooldownActive _ _) | Log SendingAlert => true
  | _ => false
  end.

Definition is_failure_report (e : event) : bool :=
  match e with
  | Log (EngineInitFailed _) | Log (AudioOpenFailed _) => true
  | _ => false
  end.

Definition count (p : event -> bool) (t : list event) : nat :=
  List.length (filter p t).

(** [x] occurs in [text]. *)
Definition Substring (x text : string) : Prop :=
  exists before after, text = (before ++ x ++ after)%string.






(** An exception that [except Exception] catches. *)
Definition is_Exception (e : exn) : bool :=
  match e with
  | ConnectionError _ | Exception _ => true
  | KeyboardInterrupt => false
  end.

(** The health probe came to an end inside [test_whatsapp_service]: the
    service is ready, or not ready, or the probe failed with an
    [Exception]. *)
Definition probed (health : result bool) : bool :=
  match health with
  | Return _ => true
  | Raise e => is_Exception e
  | Blocked => false
  end.

(** The alert path over successive detections: [send_alert] is called once
    for each detection, at the clock reading and with the reply of the
    alert service given; the result is the clock readings of the calls that
    returned [True], in order. *)
Fixpoint sent_times (config : Config) (detections : list (Q * reply))
         (g : globals) : list Q :=
  match detections with
  | [] => []
  | (now, post) :: rest =>
      let run := Porcupine.send_alert config now post g in
      match outcome run with
      | Return true => now :: sent_times config rest (final run)
      | _ => sent_times config rest (final run)
      end
  end.

(** Every element of [times] is at least [cooldown] after the one before,
    the first one after [last]. *)
Fixpoint spaced (cooldown last : Q) (times : list Q) : Prop :=
  match times with
  | [] => True
  | t :: times' => cooldown <= t - last /\ spaced cooldown t times'
  end.

(** The same ticks, with the overflow flag of every frame set to [b]. *)
Definition Porcupine_with_overflow (b : bool) (t : Porcupine.tick) : Porcupine.tick :=
  match t with
  | Porcupine.Frame _ k now post => Porcupine.Frame b k now post
  | Porcupine.Fault e => Porcupine.Fault e
  end.

Definition Vosk_with_overflow (b : bool) (t : Vosk.tick) : Vosk.tick :=
  match t with
  | Vosk.Frame _ heard now post => Vosk.Frame b heard now post
  | Vosk.Fault e => Vosk.Fault e
  end.

(** The configuration of the specification's scenarios: a cooldown of 30
    seconds and the wake words ["help"] and ["sos"]. *)
Definition scenario_config : Config := {|
  sensitivity      := 0.5;
  cooldownSeconds  := 30;
  audioDeviceIndex := None;
  wakeWords        := Some ["help"%string; "sos"%string];
  port             := None;
  alertMessage     := Some "Emergency! Help needed."%string
|}.

(** The result of a call seen by a caller that drops the value. *)
Definition dropped {A} (r : result A) : result unit :=
  match r with
  | Return _ => Return tt
  | Raise e => Raise e
  | Blocked => Blocked
  end.

(** A run that comes after the events [t]. *)
Definition preceded_by {A} (t : list event)
    (run : result A * globals * list event) : result A * globals * list event :=
  (outcome run, final run, t ++ trace run).

(** [str(e)] in an [except Exception as e] clause. *)
Definition str (e : exn) : string :=
  match e with
  | ConnectionError e | Exception e => e
  | KeyboardInterrupt => EmptyString
  end.

(** [main] gets past the health check: the service is ready, or it is not
    (or the probe failed) and the operator answers the prompt with a line
    of input. *)
Definition proceeds (health : result bool) (keyboard : result string) : bool :=
  match health with
  | Return true => true
  | Return false | Raise (ConnectionError _) | Raise (Exception _) =>
      match keyboard with Return _ => true | _ => false end
  | _ => false
  end.

(** What the two scripts emit from the start of [main] until the engine is
    initialised, when [main] gets that far: the end of the device listing,
    then the health check and the prompt. *)
Definition Porcupine_startup (config : Config) (health : result bool) : list event :=
  Call pa_terminate ::
  Log CheckingService :: Call (requests_get (WHATSAPP_PORT config)) ::
  match health with
  | Return true => [Log ServiceReady]
  | Return false =>
      [Log ServiceNotConnected; Log ScanQRCode;
       Log WarningNotReady; Log PressCtrlC; Call input]
  | Raise (ConnectionError _) =>
      [Log ServiceNotRunning; Log StartItFirst;
       Log WarningNotReady; Log PressCtrlC; Call input]
  | Raise (Exception e) =>
      [Log (CouldNotCheck e);
       Log WarningNotReady; Log PressCtrlC; Call input]
  | _ => []
  end.

Definition Vosk_startup (config : Config) (health : result bool) : list event :=
  Call pa_terminate ::
  Log CheckingService :: Call (requests_get (WHATSAPP_PORT config)) ::
  match health with
  | Return true => [Log ServiceReady]
  | Return false =>
      [Log ServiceNotConnected;
       Log WarningNotReady; Log PressCtrlC; Call input]
  | Raise (ConnectionError _) =>
      [Log ServiceNotRunning; Log StartItFirst;
       Log WarningNotReady; Log PressCtrlC; Call input]
  | Raise (Exception e) =>
      [Log (CouldNotCheck e);
       Log WarningNotReady; Log PressCtrlC; Call input]
  | _ => []
  end.

Definition is_listening_banner (e : event) : bool :=
  match e with Log (Listening _ _) => true | _ => false end.

Definition is_read (e : event) : bool :=
  match e with Call stream_read => true | _ => false end.

(** A run of [main] that ended at start-up: [main] returned, so that the
    interpreter exits with status 0; the global is untouched; no frame was
    read and the listening banner never shown; one failure was reported. *)
Definition ended_at_startup (run : result unit * globals * list event)
    (g : globals) : Prop :=
  outcome run = Return tt /\
  exit_status (outcome run) = Some 0%Z /\
  final run = g /\
  count is_read (trace run) = 0%nat /\
  count is_listening_banner (trace run) = 0%nat /\
  count is_failure_report (trace run) = 1%nat.

(** A frame in which the spotter found nothing. *)
Definition quiet (t : Porcupine.tick) : bool :=
  match t with
  | Porcupine.Frame _ k _ _ => (k <? 0)%Z
  | Porcupine.Fault _ => false
  end.

(* ================================================================== *)
(** * More observations                                                *)
(* ================================================================== *)

Definition is_post (e : event) : bool :=
  match e with Call (requests_post _ _) => true | _ => false end.

Definition is_sent_line (e : event) : bool :=
  match e with Log AlertSent => true | _ => false end.

(** The calls to the outside world made in a trace, in order. *)
Definition calls (t : list event) : list call :=
  flat_map (fun e => match e with Call c => [c] | Log _ => [] end) t.

(** An event that is not a POST, or is the POST of the configured alert
    message to the configured port. *)
Definition configured_post (config : Config) (e : event) : Prop :=
  match e with
  | Call (requests_post p m) =>
      p = WHATSAPP_PORT config /\ alertMessage config = Some m
  | _ => True
  end.

(** A tick that cannot end the loop: a frame whose POST, if one is made,
    is not interrupted from the keyboard. *)
Definition Porcupine_uninterrupted (t : Porcupine.tick) : bool :=
  match t with
  | Porcupine.Frame _ _ _ (Raises KeyboardInterrupt) => false
  | Porcupine.Frame _ _ _ _ => true
  | Porcupine.Fault _ => false
  end.

Definition Vosk_uninterrupted (t : Vosk.tick) : bool :=
  match t with
  | Vosk.Frame _ _ _ (Raises KeyboardInterrupt) => false
  | Vosk.Frame _ _ _ _ => true
  | Vosk.Fault _ => false
  end.

(** The books of a stretch of a session that starts in state [g], ends in
    state [g'] and emits [t]: one call of [send_alert] for each detection;
    POSTs only after detections, detections only after reads, "sent" lines
    only after POSTs; every POST as configured, and none without an alert
    message; the state changed only if an alert was sent, and, with a
    cooldown that is not negative, only forward. *)
Definition accounted (config : Config) (g g' : globals) (t : list event) : Prop :=
  count is_alert_entry t = count is_detection t /\
  (count is_post t <= count is_detection t)%nat /\
  (count is_detection t <= count is_read t)%nat /\
  (count is_sent_line t <= count is_post t)%nat /\
  Forall (configured_post config) t /\
  (alertMessage config = None -> count is_post t = 0%nat) /\
  (count is_sent_line t = 0%nat -> g' = g) /\
  (0 <= cooldownSeconds config ->
   last_detection_time g <= last_detection_time g').

(** The configuration of the scenarios without the key [alertMessage]. *)
Definition config_without_message : Config := {|
  sensitivity      := 0.5;
  cooldownSeconds  := 30;
  audioDeviceIndex := None;
  wakeWords        := Some ["help"%string; "sos"%string];
  port             := None;
  alertMessage     := None
|}.

(** The configuration of the scenarios with the alert service on port
    8080. *)
Definition config_with_port : Config := {|
  sensitivity      := 0.5;
  cooldownSeconds  := 30;
  audioDeviceIndex := None;
  wakeWords        := Some ["help"%string; "sos"%string];
  port             := Some 8080%Z;
  alertMessage     := Some "Emergency! Help needed."%string
|}.

(** The exception, if any, that a tick holds for the loop. *)
Definition Porcupine_raised (t : Porcupine.tick) : option exn :=
  match t with
  | Porcupine.Fault e => Some e
  | Porcupine.Frame _ _ _ (Raises KeyboardInterrupt) => Some KeyboardInterrupt
  | Porcupine.Frame _ _ _ _ => None
  end.

Definition Vosk_raised (t : Vosk.tick) : option exn :=
  match t with
  | Vosk.Fault e => Some e
  | Vosk.Frame _ _ _ (Raises KeyboardInterrupt) => Some KeyboardInterrupt
  | Vosk.Frame _ _ _ _ => None
  end.

(** What [main] of [wake_word_detector.py] emits between the health check
    and the first turn of the loop, when the engine and the audio stream
    come up. *)
Definition Porcupine_banner (config : Config) (porcupine : PyAudio.engine)
    (name : string) : list event :=
  [Log InitializingEngine; Call (pvporcupine_create (sensitivity config));
   Log (EngineInitialized (PyAudio.version porcupine));
   Log (InfoSampleRate (PyAudio.sample_rate porcupine));
   Log (InfoFrameLength (PyAudio.frame_length porcupine));
   Log (InfoSensitivity (sensitivity config));
   Log (InfoCooldown (cooldownSeconds config));
   Log OpeningAudio; Call (pa_open (audioDeviceIndex config));
   Log (AudioOpened name);
   Log Rule; Log (Listening ["picovoice"%string] false); Log InfoProduction;
   Log PressCtrlCToStop; Log Rule].

(** The same for [wake_word_detector_vosk.py]. *)
Definition Vosk_banner (config : Config) (name : string) : list event :=
  [Log InitializingEngine; Log FirstRunDownload; Call vosk_load;
   Log ModelLoaded;
   Log OpeningAudio; Call (pa_open (audioDeviceIndex config));
   Log (AudioOpened name);
   Log Rule;
   Log (Listening (firstn 5 (Vosk.WAKE_WORDS config))
                  (5 <? List.length (Vosk.WAKE_WORDS config))%nat);
   Log (InfoTotalWakeWords (List.length (Vosk.WAKE_WORDS config)));
   Log (InfoCooldown (cooldownSeconds config));
   Log PressCtrlCToStop; Log Rule].

(** The [finally] clause of the two scripts. *)
Definition Porcupine_released : list event :=
  [Log CleaningUp; Call stream_stop; Call stream_close; Call pa_terminate;
   Call porcupine_delete; Log ShutdownComplete].

Definition Vosk_released : list event :=
  [Log CleaningUp; Call stream_stop; Call stream_close; Call pa_terminate;
   Log ShutdownComplete].

(** The events a turn of the loop can emit: reads, POSTs, and the log
    lines of the loop body and of [send_alert]. *)
Definition loop_event (e : event) : bool :=
  match e with
  | Call stream_read | Call (requests_post _ _) => true
  | Log (CooldownActive _ _) | Log SendingAlert | Log AlertSent
  | Log (AlertFailedHTTP _) | Log (ResponseText _) | Log CannotConnect
  | Log StartItWith | Log (ErrorSendingAlert _)
  | Log (WakeWordDetected _) | Log (Recognized _) => true
  | _ => false
  end.

Definition is_input (e : event) : bool :=
  match e with Call input => true | _ => false end.

Definition is_stopping (e : event) : bool :=
  match e with Log Stopping => true | _ => false end.

(** The event is the release call [c]. *)
Definition is_release (c : call) (e : event) : bool :=
  match c, e with
  | stream_stop, Call stream_stop
  | stream_close, Call stream_close
  | pa_terminate, Call pa_terminate
  | porcupine_delete, Call porcupine_delete => true
  | _, _ => false
  end.

(** How many times a trace calls [stream.stop_stream()], [stream.close()],
    [pa.terminate()] and [porcupine.delete()]. *)
Definition releases (t : list event) : nat * nat * nat * nat :=
  (count (is_release stream_stop) t, count (is_release stream_close) t,
   count (is_release pa_terminate) t, count (is_release porcupine_delete) t).

Definition plus4 (a b : nat * nat * nat * nat) : nat * nat * nat * nat :=
  let '(a1, a2, a3, a4) := a in
  let '(b1, b2, b3, b4) := b in
  (a1 + b1, a2 + b2, a3 + b3, a4 + b4)%nat.

Definition is_skip_line (e : event) : bool :=
  match e with Log (CooldownActive _ _) => true | _ => false end.

(** The clock readings of the frames in which the spotter finds the
    keyword: the readings [send_alert] takes. *)
Definition detection_clocks (ticks : list Porcupine.tick) : list Q :=
  flat_map
    (fun t =>
       match t with
       | Porcupine.Frame _ k now _ => if (k >=? 0)%Z then [now] else []
       | Porcupine.Fault _ => []
       end)
    ticks.

(** The scenario configuration with the cooldown switched off. *)
Definition config_without_cooldown : Config := {|
  sensitivity      := 0.5;
  cooldownSeconds  := 0;
  audioDeviceIndex := None;
  wakeWords        := Some ["help"%string; "sos"%string];
  port             := None;
  alertMessage     := Some "Emergency! Help needed."%string
|}.

(** The configured wake words, before they are lowercased. *)
Definition configured_words (config : Config) : list string :=
  match wakeWords config with Some ws => ws | None => ["help"%string] end.

(** The texts in the "Recognized" lines of a trace, in order. *)
Definition recognized_lines (t : list event) : list string :=
  flat_map (fun e => match e with Log (Recognized x) => [x] | _ => [] end) t.

(** The finalised, non-empty texts that the recogniser returns over a
    sequence of ticks, lowercased, in order. *)
Definition heard_texts (ticks : list Vosk.tick) : list string :=
  flat_map
    (fun t =>
       match t with
       | Vosk.Frame _ (Vosk.Final result) _ _ =>
           let text :=
             Py.lower (match result with Some x => x | None => EmptyString end) in
           if Py.truthy text then [text] else []
       | _ => []
       end)
    ticks.

(** The scenario configuration with an empty list of wake words. *)
Definition config_without_words : Config := {|
  sensitivity      := 0.5;
  cooldownSeconds  := 30;
  audioDeviceIndex := None;
  wakeWords        := Some [];
  port             := None;
  alertMessage     := Some "Emergency! Help needed."%string
|}.

(** A configuration that has a blank entry among its wake words. *)
Definition config_with_blank_word : Config := {|
  sensitivity      := 0.5;
  cooldownSeconds  := 30;
  audioDeviceIndex := None;
  wakeWords        := Some ["help"%string; EmptyString];
  port             := None;
  alertMessage     := Some "Emergency! Help needed."%string
|}.

(** A configuration without the key [wakeWords]. *)
Definition config_with_default_words : Config := {|
  sensitivity      := 0.5;
  cooldownSeconds  := 30;
  audioDeviceIndex := None;
  wakeWords        := None;
  port             := None;
  alertMessage     := Some "Emergency! Help needed."%string
|}.

(** The device lines of a listing: index and name, in the order printed. *)
Definition shown_devices (l : list Devices.line) : list (nat * string) :=
  flat_map
    (fun x => match x with Devices.Device i n => [(i, n)] | _ => [] end) l.

(** The entry can record: it has at least one input channel. *)
Definition is_input_device (d : Devices.info) : bool :=
  (Devices.maxInputChannels d >? 0)%Z.

(** The input devices of a table with their indices in the table, counted
    from [i]. *)
Fixpoint input_devices_from (i : nat) (table : list Devices.info)
  : list (nat * string) :=
  match table with
  | [] => []
  | d :: rest =>
      (if is_input_device d then [(i, Devices.name d)] else []) ++
      input_devices_from (S i) rest
  end.

(** A device table: a microphone between two output devices. *)
Definition example_table : list Devices.info :=
  [{| Devices.name := "Speakers"; Devices.defaultSampleRate := 48000;
      Devices.maxInputChannels := 0 |};
   {| Devices.name := "USB Microphone"; Devices.defaultSampleRate := 44100;
      Devices.maxInputChannels := 1 |};
   {| Devices.name := "HDMI"; Devices.defaultSampleRate := 48000;
      Devices.maxInputChannels := 0 |};
   {| Devices.name := "Webcam"; Devices.defaultSampleRate := 16000;
      Devices.maxInputChannels := 2 |}].

(** The detections of a sequence of ticks: the clock reading and the reply
    that come with each frame in which the spotter finds the keyword. *)
Definition detections_of (ticks : list Porcupine.tick) : list (Q * reply) :=
  flat_map
    (fun t =>
       match t with
       | Porcupine.Frame _ k now post =>
           if (k >=? 0)%Z then [(now, post)] else []
       | Porcupine.Fault _ => []
       end)
    ticks.

(* ================================================================== *)
(** * test_microphone.py                                               *)
(* ================================================================== *)

(** The string methods and built-ins the script uses, on ASCII text: on
    code points below 128 [str.isspace] holds of the characters 9 to 13
    and 28 to 32, [str.isdigit] of the digits 0 to 9, and [int] converts
    every non-empty string of such digits (of at most 4300 of them, the
    interpreter's limit on conversions).  Answers with other code points
    (for which [isdigit] can hold of a string that [int] rejects) are
    outside the model; the statements about typed answers are made for
    ASCII answers. *)
Module PyStr.

(** [c.isspace()]. *)
Definition is_space (c : ascii) : bool :=
  let n := N_of_ascii c in
  (((9 <=? n) && (n <=? 13)) || ((28 <=? n) && (n <=? 32)))%N.

Fixpoint lstrip (s : string) : string :=
  match s with
  | EmptyString => EmptyString
  | String c s' => if is_space c then lstrip s' else s
  end.

Fixpoint reverse (s : string) : string :=
  match s with
  | EmptyString => EmptyString
  | String c s' => (reverse s' ++ String c EmptyString)%string
  end.

Definition rstrip (s : string) : string := reverse (lstrip (reverse s)).

(** [s.strip()]. *)
Definition strip (s : string) : string := rstrip (lstrip s).

Definition is_digit (c : ascii) : bool :=
  let n := N_of_ascii c in ((48 <=? n) && (n <=? 57))%N.

Fixpoint all_digits (s : string) : bool :=
  match s with
  | EmptyString => true
  | String c s' => is_digit c && all_digits s'
  end.

(** [s.isdigit()]: not empty, and digits only. *)
Definition isdigit (s : string) : bool := Py.truthy s && all_digits s.

Fixpoint int_from (acc : Z) (s : string) : Z :=
  match s with
  | EmptyString => acc
  | String c s' => int_from (10 * acc + (Z.of_N (N_of_ascii c) - 48)) s'
  end.

(** [int(s)] for a string of digits. *)
Definition int (s : string) : Z := int_from 0 s.

(** [max(a, b)]: the first of the largest. *)
Definition max (a b : Q) : Q := if Py.lt a b then b else a.

End PyStr.

Module Microphone.

Inductive status : Type :=
| TooQuiet          (* "Too quiet" *)
| GoodLevel         (* "Good level" *)
| Loud.             (* "Loud" *)

Inductive verdict : Type :=
| VeryLow           (* "Volume very low - check microphone settings" *)
| SomewhatLow       (* "Volume somewhat low - wake word detection may be unreliable" *)
| VolumeGood.       (* "Volume good! Wake word detection should work well" *)

(** The lines the script prints. *)
Inductive line : Type :=
  (* list_devices *)
| ListHeader                          (* "Available Audio Input Devices:" *)
| Device (i : nat) (name : string)    (* "  Device [{i}]: {info['name']}" *)
| SampleRate (hz : Z)                 (* "    Sample Rate: {int(info['defaultSampleRate'])} Hz" *)
| InputChannels (n : Z)               (* "    Input Channels: {info['maxInputChannels']}" *)
| DefaultDevice                       (* "    * DEFAULT DEVICE" *)
  (* test_microphone *)
| TestingMicrophone (device : option Z)
    (* "Testing Microphone (Device: {device_index if device_index else 'Default'})" *)
| Rule                                (* "=" * 70 *)
| Opened                              (* "Microphone opened successfully!" *)
| Recording (duration : Q)            (* "   Recording for {duration} seconds..." *)
| Speak                               (* "   Speak into your microphone to see volume levels" *)
| Volume (volume : Q) (bar : nat) (s : status)
    (* "\rVolume: {volume:6.0f} {bar:50s} {status}" *)
| ReadError (e : string)              (* "Error reading audio: {e}" *)
| Results                             (* "Test Results:" *)
| MaximumVolume (max_volume : Q)      (* "   Maximum Volume: {max_volume:.0f}" *)
| Verdict (v : verdict)
| Advice (n : nat)                    (* the lines of advice under a low verdict *)
| OpenError (e : string)              (* "Error opening microphone: {e}" *)
| Troubleshooting (n : nat)           (* "Troubleshooting:" and its three bullets *)
  (* main *)
| Title                               (* "   Microphone Test Tool" *)
| SelectAction (n : nat)              (* "Select action:" and its three options *)
| Exiting                             (* "Exiting..." *)
| TestingDevice (i : Z)               (* "Testing device {device_index}..." *)
| TestingDefault                      (* "Testing default device..." *)
| TestComplete                        (* "Test complete! You can now use the wake word detector." *)
| Cancelled.                          (* "Test cancelled by user" *)

(** The calls to the outside world. *)
Inductive action : Type :=
| Open (device : option Z)   (* pa.open(format=paInt16, channels=1, rate=16000, input=True,
                                        frames_per_buffer=1024, input_device_index=device) *)
| Read                       (* stream.read(1024, exception_on_overflow=False) *)
| StopStream                 (* stream.stop_stream() *)
| CloseStream                (* stream.close() *)
| Terminate                  (* pa.terminate() *)
| DefaultInput               (* pa.get_default_input_device_info() *)
| Input.                     (* input("\nYour choice: ") *)

Inductive event : Type :=
| Print (l : line)
| Do (a : action).

(** The script has no state: a piece of it ends the way [result] says
    and leaves its events behind. *)
Definition W (A : Type) : Type := result A * list event.

Definition ret {A} (a : A) : W A := (Return a, []).

Definition bind {A B} (m : W A) (k : A -> W B) : W B :=
  match m with
  | (Return a, t) => let '(r, t') := k a in (r, t ++ t')
  | (Raise e, t) => (Raise e, t)
  | (Blocked, t) => (Blocked, t)
  end.

Declare Scope mic_scope.
Notation "x <- m ;; k" := (bind m (fun x => k))
  (at level 61, m at next level, right associativity) : mic_scope.
Notation "m ;; k" := (bind m (fun _ => k))
  (at level 61, right associativity) : mic_scope.
Local Open Scope mic_scope.

Definition print (l : line) : W unit := (Return tt, [Print l]).

Definition blocked {A} : W A := (Blocked, []).

(** A call that ends the way [answer] says. *)
Definition call {A} (a : action) (answer : result A) : W A := (answer, [Do a]).

Definition try_except {A} (body : W A) (handler : exn -> option (W A)) : W A :=
  match body with
  | (Raise e, t) =>
      match handler e with
      | Some h => let '(r, t') := h in (r, t ++ t')
      | None => (Raise e, t)
      end
  | done => done
  end.

Definition try_finally {A} (body : W A) (cleanup : W unit) : W A :=
  match body with
  | (Blocked, t) => (Blocked, t)
  | (r, t) =>
      match cleanup with
      | (Return _, t') => (r, t ++ t')
      | (Raise e, t') => (Raise e, t ++ t')
      | (Blocked, t') => (Blocked, t ++ t')
      end
  end.

(** [for i in items: body(i)]. *)
Fixpoint for_each {A} (items : list A) (body : A -> W unit) : W unit :=
  match items with
  | [] => ret tt
  | i :: rest => body i ;; for_each rest body
  end.

(** The body of the loop of [list_devices]: the lines for device [i].
    [default] is what [pa.get_default_input_device_info()] gives: the
    index of the default input device, or the exception it raises when
    there is none. *)
Definition entry (table : list Devices.info) (default : result nat) (i : nat)
  : W unit :=
  match nth_error table i with
  | Some info =>
      if (Devices.maxInputChannels info >? 0)%Z then
        print (Device i (Devices.name info)) ;;
        print (SampleRate (Py.int (Devices.defaultSampleRate info))) ;;
        print (InputChannels (Devices.maxInputChannels info)) ;;
        index <- call DefaultInput default ;;
        if (i =? index)%nat then print DefaultDevice else ret tt
      else ret tt
  | None => ret tt
  end.

(** [list_devices()] over PyAudio's device table. *)
Definition list_devices (table : list Devices.info) (default : result nat)
  : W unit :=
  print ListHeader ;;
  print Rule ;;
  for_each (seq 0 (List.length table)) (entry table default) ;;
  call Terminate (Return tt) ;;
  print Rule.

(** One turn of the recording loop: the reading of the clock at the test
    of the [while], and what reading a frame gives: the mean absolute
    amplitude [np.abs(audio_data).mean()] of the frame, or an exception. *)
Definition tick : Type := (Q * result Q)%type.

(** The body of the recording loop.  [Some m]: go on with the maximum
    [m]; [None]: [break]. *)
Definition turn (max_volume : Q) (frame : result Q) : W (option Q) :=
  try_except
    (volume <- call Read frame ;;
     let max_volume := PyStr.max max_volume volume in
     let bar_length := Py.int (volume / 100) in
     let bar := Z.to_nat (Z.min bar_length 50) in
     let status :=
       if Py.lt volume 500 then TooQuiet
       else if Py.lt volume 2000 then GoodLevel
       else Loud in
     print (Volume volume bar status) ;;
     ret (Some max_volume))
    (fun e =>
       match e with
       | ConnectionError e | Exception e =>
           Some (print (ReadError e) ;; ret None)
       | KeyboardInterrupt => None
       end).

(** [while time.time() - start_time < duration: ...], giving the maximum
    volume at the end. *)
Fixpoint record (duration start_time : Q) (ticks : list tick) (max_volume : Q)
  : W Q :=
  match ticks with
  | [] => blocked
  | (now, frame) :: ticks' =>
      if Py.lt (now - start_time) duration then
        next <- turn max_volume frame ;;
        match next with
        | Some max_volume => record duration start_time ticks' max_volume
        | None => ret max_volume
        end
      else
        ret max_volume
  end.

(** The verdict on the maximum volume. *)
Definition report (max_volume : Q) : W unit :=
  print Results ;;
  print (MaximumVolume max_volume) ;;
  if Py.lt max_volume 300 then
    print (Verdict VeryLow) ;;
    print (Advice 1) ;; print (Advice 2) ;; print (Advice 3)
  else if Py.lt max_volume 1000 then
    print (Verdict SomewhatLow) ;;
    print (Advice 1)
  else
    print (Verdict VolumeGood).

(** [test_microphone(device_index, duration)].  [opening] is what
    [pa.open] does, [start_time] the first reading of the clock. *)
Definition test_microphone (device_index : option Z) (duration : Q)
    (opening : result unit) (start_time : Q) (ticks : list tick) : W unit :=
  print (TestingMicrophone
           (match device_index with
            | Some i => if (i =? 0)%Z then None else Some i
            | None => None
            end)) ;;
  print Rule ;;
  try_finally
    (try_except
       (call (Open device_index) opening ;;
        print Opened ;;
        print (Recording duration) ;;
        print Speak ;;
        max_volume <- record duration start_time ticks 0 ;;
        report max_volume ;;
        call StopStream (Return tt) ;;
        call CloseStream (Return tt))
       (fun e =>
          match e with
          | ConnectionError e | Exception e =>
              Some (print (OpenError e) ;;
                    print (Troubleshooting 0) ;;
                    print (Troubleshooting 1) ;;
                    print (Troubleshooting 2) ;;
                    print (Troubleshooting 3))
          | KeyboardInterrupt => None
          end))
    (call Terminate (Return tt)) ;;
  print Rule.

(** What the world does during one run of the script. *)
Record session : Type := {
  table      : list Devices.info;   (* PyAudio's device table *)
  default    : result nat;          (* pa.get_default_input_device_info()['index'] *)
  keyboard   : result string;       (* input("\nYour choice: ") *)
  opening    : result unit;         (* pa.open(...) *)
  start_time : Q;                   (* the first reading of the clock *)
  ticks      : list tick
}.

(** [main()]. *)
Definition main (s : session) : W unit :=
  print Rule ;;
  print Title ;;
  print Rule ;;
  list_devices (table s) (default s) ;;
  print (SelectAction 0) ;;
  print (SelectAction 1) ;;
  print (SelectAction 2) ;;
  print (SelectAction 3) ;;
  answer <- call Input (keyboard s) ;;
  let choice := PyStr.strip answer in
  if String.eqb (Py.lower choice) "q" then
    print Exiting
  else
    device_index <-
      (if PyStr.isdigit choice then
         print (TestingDevice (PyStr.int choice)) ;;
         ret (Some (PyStr.int choice))
       else
         print TestingDefault ;;
         ret None) ;;
    test_microphone device_index 5 (opening s) (start_time s) (ticks s) ;;
    print TestComplete.

(** [if __name__ == "__main__": try: main() except KeyboardInterrupt: ...] *)
Definition script (s : session) : W unit :=
  try_except (main s)
    (fun e =>
       match e with
       | KeyboardInterrupt => Some (print Cancelled)
       | _ => None
       end).

End Microphone.

(** ** Observations on the microphone test *)

(** The lines printed and the calls made in a trace, in order. *)
Definition printed (t : list Microphone.event) : list Microphone.line :=
  flat_map
    (fun e => match e with Microphone.Print l => [l] | Microphone.Do _ => [] end)
    t.

Definition performed (t : list Microphone.event) : list Microphone.action :=
  flat_map
    (fun e => match e with Microphone.Do a => [a] | Microphone.Print _ => [] end)
    t.

(** The volumes of the volume lines, the maxima of the result lines and
    the verdicts shown. *)
Definition volumes_shown (t : list Microphone.event) : list Q :=
  flat_map
    (fun l => match l with Microphone.Volume v _ _ => [v] | _ => [] end)
    (printed t).

Definition maxima_shown (t : list Microphone.event) : list Q :=
  flat_map
    (fun l => match l with Microphone.MaximumVolume m => [m] | _ => [] end)
    (printed t).

Definition verdicts_shown (t : list Microphone.event)
  : list Microphone.verdict :=
  flat_map
    (fun l => match l with Microphone.Verdict v => [v] | _ => [] end)
    (printed t).

Definition read_errors (t : list Microphone.event) : list string :=
  flat_map
    (fun l => match l with Microphone.ReadError e => [e] | _ => [] end)
    (printed t).

(** The devices that [pa.open] was asked for. *)
Definition opened (t : list Microphone.event) : list (option Z) :=
  flat_map
    (fun a => match a with Microphone.Open d => [d] | _ => [] end)
    (performed t).

Definition is_action (a b : Microphone.action) : bool :=
  match a, b with
  | Microphone.Open _, Microphone.Open _
  | Microphone.Read, Microphone.Read
  | Microphone.StopStream, Microphone.StopStream
  | Microphone.CloseStream, Microphone.CloseStream
  | Microphone.Terminate, Microphone.Terminate
  | Microphone.DefaultInput, Microphone.DefaultInput
  | Microphone.Input, Microphone.Input => true
  | _, _ => false
  end.

(** How many times a call was made. *)
Definition times (a : Microphone.action) (t : list Microphone.event) : nat :=
  List.length (filter (is_action a) (performed t)).

(** The ticks of the recording window: those up to the first at which
    [duration] seconds have passed on the clock. *)
Fixpoint window (duration start_time : Q) (ticks : list Microphone.tick)
  : list Microphone.tick :=
  match ticks with
  | [] => []
  | (now, frame) :: rest =>
      if Qle_bool duration (now - start_time) then []
      else (now, frame) :: window duration start_time rest
  end.

(** The frame was read. *)
Definition is_frame (t : Microphone.tick) : bool :=
  match snd t with Return _ => true | _ => false end.

(** A recording of three frames, the third after the five seconds. *)
Definition example_recording : list Microphone.tick :=
  [(1, Return 400); (2, Return 1200); (6, Return 50)].

(** The volumes of the frames read before the first read that fails. *)
Fixpoint leading_frames (ticks : list Microphone.tick) : list Q :=
  match ticks with
  | (_, Return v) :: rest => v :: leading_frames rest
  | _ => []
  end.

(** The devices listed by [list_devices], with their indices. *)
Definition listed (t : list Microphone.event) : list (nat * string) :=
  flat_map
    (fun l => match l with Microphone.Device i n => [(i, n)] | _ => [] end)
    (printed t).

(** The devices under which the default mark stands: each mark counts
    for the device line printed last before it. *)
Fixpoint marked_from (current : option nat) (lines : list Microphone.line)
  : list nat :=
  match lines with
  | [] => []
  | Microphone.Device i _ :: rest => marked_from (Some i) rest
  | Microphone.DefaultDevice :: rest =>
      match current with Some i => [i] | None => [] end ++
      marked_from current rest
  | _ :: rest => marked_from current rest
  end.

Definition marked (t : list Microphone.event) : list nat :=
  marked_from None (printed t).

(** The device labels of the "Testing Microphone" lines: [None] stands
    for the word "Default". *)
Definition labels (t : list Microphone.event) : list (option Z) :=
  flat_map
    (fun l => match l with Microphone.TestingMicrophone d => [d] | _ => [] end)
    (printed t).

(** A run in which the operator types [answer] and speaks up. *)
Definition session_answering (answer : string) : Microphone.session :=
  {| Microphone.table := example_table;
     Microphone.default := Return 1%nat;
     Microphone.keyboard := Return answer;
     Microphone.opening := Return tt;
     Microphone.start_time := 0;
     Microphone.ticks := example_recording |}.

(** A run in which the operator presses Ctrl-C while the second frame is
    being read. *)
Definition interrupted_session : Microphone.session :=
  {| Microphone.table := example_table;
     Microphone.default := Return 1%nat;
     Microphone.keyboard := Return EmptyString;
     Microphone.opening := Return tt;
     Microphone.start_time := 0;
     Microphone.ticks :=
       [(1, Return 400); (2, Raise KeyboardInterrupt); (3, Return 1200)] |}.

(* ================================================================== *)
(** * Basic facts                                                      *)
(* ================================================================== *)

Unset Implicit Arguments.

Lemma lt_true_iff (x y : Q) : Py.lt x y = true <-> x < y.
Proof.
  unfold Py.lt. rewrite negb_true_iff, <- not_true_iff_false, Qle_bool_iff.
  split; [apply Qnot_le_lt | apply Qlt_not_le].
Qed.

Lemma lt_false_iff (x y : Q) : Py.lt x y = false <-> y <= x.
Proof.
  unfold Py.lt. rewrite negb_false_iff. apply Qle_bool_iff.
Qed.

(** [send_alert] of [wake_word_detector.py], case by case. *)
Lemma Porcupine_send_alert_eq (config : Config) (now : Q) (post : reply) (g : globals) :
  Porcupine.send_alert config now post g =
  let last := last_detection_time g in
  if Py.lt (now - last) (cooldownSeconds config) then
    (Return false, g,
     [Log (CooldownActive (Py.int (now - last)) (cooldownSeconds config))])
  else
    match alertMessage config with
    | None =>
        (Return false, g,
         [Log SendingAlert; Log (ErrorSendingAlert "'alertMessage'")])
    | Some m =>
        let sent := Call (requests_post (WHATSAPP_PORT config) m) in
        match post with
        | Response status_code text =>
            if (status_code =? 200)%Z then
              (Return true, {| last_detection_time := now |},
               [Log SendingAlert; sent; Log AlertSent])
            else
              (Return false, g,
               [Log SendingAlert; sent; Log (AlertFailedHTTP status_code);
                Log (ResponseText text)])
        | Raises (ConnectionError _) =>
            (Return false, g,
             [Log SendingAlert; sent; Log CannotConnect; Log StartItWith])
        | Raises (Exception e) =>
            (Return false, g,
             [Log SendingAlert; sent; Log (ErrorSendingAlert e)])
        | Raises KeyboardInterrupt =>
            (Raise KeyboardInterrupt, g, [Log SendingAlert; sent])
        end
    end.
Proof.
  unfold Porcupine.send_alert, Porcupine.COOLDOWN_SECONDS, bind,
    get_last_detection_time, lookup_alertMessage.
  cbn beta iota.
  destruct (Py.lt (now - last_detection_time g) (cooldownSeconds config));
    [reflexivity|].
  destruct (alertMessage config); [|reflexivity].
  destruct post as [status_code text | [e | e |]]; try reflexivity.
  unfold try_except, bind, external, answer_of, log. cbn.
  destruct (status_code =? 200)%Z; reflexivity.
Qed.

(** [send_alert] of [wake_word_detector_vosk.py], case by case. *)
Lemma Vosk_send_alert_eq (config : Config) (now : Q) (post : reply) (g : globals) :
  Vosk.send_alert config now post g =
  let last := last_detection_time g in
  if Py.lt (now - last) (cooldownSeconds config) then
    (Return false, g,
     [Log (CooldownActive (Py.int (now - last)) (cooldownSeconds config))])
  else
    match alertMessage config with
    | None =>
        (Return false, g,
         [Log SendingAlert; Log (ErrorSendingAlert "'alertMessage'")])
    | Some m =>
        let sent := Call (requests_post (WHATSAPP_PORT config) m) in
        match post with
        | Response status_code _ =>
            if (status_code =? 200)%Z then
              (Return true, {| last_detection_time := now |},
               [Log SendingAlert; sent; Log AlertSent])
            else
              (Return false, g,
               [Log SendingAlert; sent; Log (AlertFailedHTTP status_code)])
        | Raises (ConnectionError _) =>
            (Return false, g, [Log SendingAlert; sent; Log CannotConnect])
        | Raises (Exception e) =>
            (Return false, g,
             [Log SendingAlert; sent; Log (ErrorSendingAlert e)])
        | Raises KeyboardInterrupt =>
            (Raise KeyboardInterrupt, g, [Log SendingAlert; sent])
        end
    end.
Proof.
  unfold Vosk.send_alert, Vosk.COOLDOWN_SECONDS, bind,
    get_last_detection_time, lookup_alertMessage.
  cbn beta iota.
  destruct (Py.lt (now - last_detection_time g) (cooldownSeconds config));
    [reflexivity|].
  destruct (alertMessage config); [|reflexivity].
  destruct post as [status_code text | [e | e |]]; try reflexivity.
  unfold try_except, bind, external, answer_of, log. cbn.
  destruct (status_code =? 200)%Z; reflexivity.
Qed.

Lemma remaining_nonpositive_iff (cooldown last now : Q) :
  remaining cooldown last now <= 0 <-> cooldown <= now - last.
Proof.
  unfold remaining.
  destruct (Qle_bool 0 (cooldown - (now - last))) eqn:E.
  - apply Qle_bool_iff in E. split; intro; lra.
  - assert (~ 0 <= cooldown - (now - last))
      by (rewrite <- Qle_bool_iff, E; discriminate).
    split; intro; lra.
Qed.

Lemma remaining_positive_iff (cooldown last now : Q) :
  0 < remaining cooldown last now <-> now - last < cooldown.
Proof.
  pose proof (remaining_nonpositive_iff cooldown last now).
  split; intro.
  - apply Qnot_le_lt. intro. apply (Qlt_not_le _ _ H0). tauto.
  - apply Qnot_le_lt. intro. apply (Qlt_not_le _ _ H0). tauto.
Qed.

(** The cooldown check alone decides between the skip line and the [try]
    block, in both scripts. *)
Lemma Porcupine_attempted_iff (config : Config) (now : Q) (post : reply) (g : globals) :
  attempted (Porcupine.send_alert config now post g) = true <->
  cooldownSeconds config <= now - last_detection_time g.
Proof.
  rewrite Porcupine_send_alert_eq, <- lt_false_iff. cbv zeta.
  destruct (Py.lt _ _); [split; discriminate|].
  destruct (alertMessage config); [|split; reflexivity].
  destruct post as [status_code text | [e | e |]];
    try destruct (status_code =? 200)%Z; split; reflexivity.
Qed.

Lemma Vosk_attempted_iff (config : Config) (now : Q) (post : reply) (g : globals) :
  attempted (Vosk.send_alert config now post g) = true <->
  cooldownSeconds config <= now - last_detection_time g.
Proof.
  rewrite Vosk_send_alert_eq, <- lt_false_iff. cbv zeta.
  destruct (Py.lt _ _); [split; discriminate|].
  destruct (alertMessage config); [|split; reflexivity].
  destruct post as [status_code text | [e | e |]];
    try destruct (status_code =? 200)%Z; split; reflexivity.
Qed.

Lemma Porcupine_skipped_iff (config : Config) (now : Q) (post : reply) (g : globals) :
  skipped (Porcupine.send_alert config now post g) = true <->
  now - last_detection_time g < cooldownSeconds config.
Proof.
  rewrite Porcupine_send_alert_eq, <- lt_true_iff. cbv zeta.
  destruct (Py.lt _ _); [split; reflexivity|].
  destruct (alertMessage config); [|split; discriminate].
  destruct post as [status_code text | [e | e |]];
    try destruct (status_code =? 200)%Z; split; discriminate.
Qed.

Lemma Porcupine_skip (config : Config) (now : Q) (post : reply) (g : globals) :
  now - last_detection_time g < cooldownSeconds config ->
  Porcupine.send_alert config now post g =
  (Return false, g,
   [Log (CooldownActive (Py.int (now - last_detection_time g))
                        (cooldownSeconds config))]).
Proof.
  intro H. apply lt_true_iff in H.
  rewrite Porcupine_send_alert_eq. cbv zeta. now rewrite H.
Qed.

Lemma Vosk_skip (config : Config) (now : Q) (post : reply) (g : globals) :
  now - last_detection_time g < cooldownSeconds config ->
  Vosk.send_alert config now post g =
  (Return false, g,
   [Log (CooldownActive (Py.int (now - last_detection_time g))
                        (cooldownSeconds config))]).
Proof.
  intro H. apply lt_true_iff in H.
  rewrite Vosk_send_alert_eq. cbv zeta. now rewrite H.
Qed.

(* ================================================================== *)
(** * The cooldown gate                                                *)
(* ================================================================== *)

(** C10.  [last_detection_time] starts as the number 0, not as a value
    that means "never": the first detection passes the cooldown check if
    and only if the clock reads at least [cooldownSeconds], in both
    scripts; a first detection at a clock reading [now] with
    [0 <= now < cooldownSeconds] is skipped, nothing is posted and the
    state stays as it was. *)
Theorem first_detection_gated_by_clock
    (config : Config) (now : Q) (post : reply) :
  last_detection_time initial = 0 /\
  (attempted (Porcupine.send_alert config now post initial) = true <->
   cooldownSeconds config <= now) /\
  (attempted (Vosk.send_alert config now post initial) = true <->
   cooldownSeconds config <= now) /\
  (0 <= now < cooldownSeconds config ->
   Porcupine.send_alert config now post initial =
     (Return false, initial,
      [Log (CooldownActive (Py.int (now - 0)) (cooldownSeconds config))]) /\
   Vosk.send_alert config now post initial =
     (Return false, initial,
      [Log (CooldownActive (Py.int (now - 0)) (cooldownSeconds config))])).
Proof.
  split; [reflexivity|].
  rewrite Porcupine_attempted_iff, Vosk_attempted_iff.
  cbn [last_detection_time initial].
  repeat split; try (intro; lra).
  - apply Porcupine_skip. cbn [last_detection_time initial]. lra.
  - apply Vosk_skip. cbn [last_detection_time initial]. lra.
Qed.

Lemma first_detection_gated_by_clock_witness :
  0 <= 10 < cooldownSeconds scenario_config /\
  Porcupine.send_alert scenario_config 10 (Response 200 "ok") initial =
    (Return false, initial, [Log (CooldownActive 10 30)]) /\
  Vosk.send_alert scenario_config 10 (Response 200 "ok") initial =
    (Return false, initial, [Log (CooldownActive 10 30)]).
Proof.
  assert (H : 0 <= 10 < cooldownSeconds scenario_config)
    by (split; [unfold Qle | unfold Qlt]; simpl; lia).
  split; [exact H|].
  exact (proj2 (proj2 (proj2
    (first_detection_gated_by_clock scenario_config 10 (Response 200 "ok")))) H).
Defined.

(** C3, as stated, fails: with [cooldownSeconds = 30] and no alert sent
    since the start (the state a [Sent] at [t = 0] would leave as well), a
    detection at [t = 10] is skipped although no timestamp was ever set,
    and the number the skip reports is the elapsed time 10, not the
    remaining wait 20. *)
Lemma skip_reports_elapsed_not_remaining :
  skipped (Porcupine.send_alert scenario_config 10 (Response 200 "ok") initial) = true /\
  remaining (cooldownSeconds scenario_config) 0 10 == 20 /\
  reported (Porcupine.send_alert scenario_config 10 (Response 200 "ok") initial)
    <> Some 20%Z.
Proof.
  split; [reflexivity|]. split; [reflexivity|].
  vm_compute. discriminate.
Qed.

(** C3, amended.  A detection at clock reading [now] passes the cooldown
    check if and only if [remaining <= 0], that is
    [cooldownSeconds <= now - last_detection_time], where
    [last_detection_time] is never unset (it starts at 0); otherwise the
    call is skipped: it returns [False], leaves the state as it was and
    logs the elapsed time [int(now - last_detection_time)] next to
    [cooldownSeconds].  With [cooldownSeconds = 30] and
    [last_detection_time = 0] a detection at [t = 10] is skipped with
    elapsed time 10 (the remaining wait being 20), and a detection at
    [t = 31] answered by HTTP 200 is sent. *)
Theorem cooldown_decision
    (config : Config) (now : Q) (post : reply) (g : globals) (body : string) :
  let last := last_detection_time g in
  let cooldown := cooldownSeconds config in
  let run := Porcupine.send_alert config now post g in
  (attempted run = true <-> remaining cooldown last now <= 0) /\
  (attempted run = true <-> cooldown <= now - last) /\
  (skipped run = true <-> 0 < remaining cooldown last now) /\
  (skipped run = true ->
   run = (Return false, g, [Log (CooldownActive (Py.int (now - last)) cooldown)])) /\
  Porcupine.send_alert scenario_config 10 post initial =
    (Return false, initial, [Log (CooldownActive 10 30)]) /\
  remaining 30 0 10 == 20 /\
  Porcupine.send_alert scenario_config 31 (Response 200 body) initial =
    (Return true, {| last_detection_time := 31 |},
     [Log SendingAlert;
      Call (requests_post 3000 "Emergency! Help needed.");
      Log AlertSent]).
Proof.
  cbv zeta.
  rewrite remaining_nonpositive_iff, remaining_positive_iff,
    Porcupine_attempted_iff, Porcupine_skipped_iff.
  split; [tauto|]. split; [tauto|]. split; [tauto|].
  split; [apply Porcupine_skip|].
  split; [apply Porcupine_skip; unfold Qlt; simpl; lia|].
  split; reflexivity.
Qed.

Lemma cooldown_decision_witness :
  skipped (Porcupine.send_alert scenario_config 10 (Response 200 "ok") initial) = true /\
  Porcupine.send_alert scenario_config 10 (Response 200 "ok") initial =
    (Return false, initial, [Log (CooldownActive 10 30)]).
Proof.
  assert (H : skipped (Porcupine.send_alert scenario_config 10
                         (Response 200 "ok") initial) = true)
    by reflexivity.
  split; [exact H|].
  exact (proj1 (proj2 (proj2 (proj2
    (cooldown_decision scenario_config 10 (Response 200 "ok") initial "ok")))) H).
Defined.

(* ================================================================== *)
(** * The alert dispatcher                                             *)
(* ================================================================== *)

Lemma Porcupine_sent_iff (config : Config) (now : Q) (post : reply) (g : globals) :
  outcome (Porcupine.send_alert config now post g) = Return true <->
  cooldownSeconds config <= now - last_detection_time g /\
  (exists m, alertMessage config = Some m) /\
  (exists body, post = Response 200 body).
Proof.
  rewrite Porcupine_send_alert_eq, <- lt_false_iff. cbv zeta.
  destruct (Py.lt _ _);
    [split; [discriminate | intros [? _]; discriminate]|].
  destruct (alertMessage config) as [m|];
    [|split; [discriminate | intros (_ & [m ?] & _); discriminate]].
  destruct post as [status_code text | [e | e |]];
    try (split; [discriminate | intros (_ & _ & [body ?]); discriminate]).
  destruct (status_code =? 200)%Z eqn:E.
  - apply Z.eqb_eq in E. subst. split; [|reflexivity].
    intros _. repeat split; eauto.
  - apply Z.eqb_neq in E. split; [discriminate|].
    intros (_ & _ & [body H]). congruence.
Qed.

Lemma Porcupine_final (config : Config) (now : Q) (post : reply) (g : globals) :
  final (Porcupine.send_alert config now post g) =
  match outcome (Porcupine.send_alert config now post g) with
  | Return true => {| last_detection_time := now |}
  | _ => g
  end.
Proof.
  rewrite Porcupine_send_alert_eq. cbv zeta.
  destruct (Py.lt _ _); [reflexivity|].
  destruct (alertMessage config); [|reflexivity].
  destruct post as [status_code text | [e | e |]];
    try destruct (status_code =? 200)%Z; reflexivity.
Qed.

(** C2.  A call of [send_alert] returns [True] exactly when the cooldown
    check passes and the POST is answered with status 200; the call assigns
    [last_detection_time] (the clock reading of the call) in that case and
    in no other: on a skip, a status other than 200, a connection error or
    any other exception the state is the one before the call.  Hence a
    detection that follows a failed attempt, however soon, passes the
    cooldown check again. *)
Theorem state_updated_iff_sent
    (config : Config) (now : Q) (post : reply) (g : globals) :
  let run := Porcupine.send_alert config now post g in
  (outcome run = Return true <->
   cooldownSeconds config <= now - last_detection_time g /\
   (exists m, alertMessage config = Some m) /\
   (exists body, post = Response 200 body)) /\
  (outcome run = Return true -> final run = {| last_detection_time := now |}) /\
  (outcome run <> Return true -> final run = g) /\
  (forall (later : Q) (post' : reply),
      attempted run = true -> outcome run <> Return true -> now <= later ->
      attempted (Porcupine.send_alert config later post' (final run)) = true).
Proof.
  cbv zeta. split; [apply Porcupine_sent_iff|].
  pose proof (Porcupine_final config now post g) as F.
  split; [|split].
  - intro H. now rewrite F, H.
  - intro H. rewrite F.
    destruct (outcome (Porcupine.send_alert config now post g)) as [[|]| |];
      congruence.
  - intros later post' Ha Hn Hle.
    assert (Hg : final (Porcupine.send_alert config now post g) = g).
    { rewrite F.
      destruct (outcome (Porcupine.send_alert config now post g)) as [[|]| |];
        congruence. }
    rewrite Hg. apply Porcupine_attempted_iff.
    apply Porcupine_attempted_iff in Ha. lra.
Qed.

(** The scenario of the specification: the service answers HTTP 500 with
    body "upstream error"; the state is unchanged and a detection one
    second later passes the cooldown check. *)
Lemma state_updated_iff_sent_witness :
  let run := Porcupine.send_alert scenario_config 100
               (Response 500 "upstream error") initial in
  run = (Return false, initial,
         [Log SendingAlert;
          Call (requests_post 3000 "Emergency! Help needed.");
          Log (AlertFailedHTTP 500);
          Log (ResponseText "upstream error")]) /\
  final run = initial /\
  attempted (Porcupine.send_alert scenario_config 101 (Response 200 "ok")
               (final run)) = true.
Proof.
  cbv zeta.
  pose proof (state_updated_iff_sent scenario_config 100
                (Response 500 "upstream error") initial) as (_ & _ & Hsame & Hretry).
  split; [reflexivity|]. split.
  - apply Hsame. discriminate.
  - apply Hretry.
    + reflexivity.
    + discriminate.
    + unfold Qle; simpl; lia.
Defined.

Lemma Porcupine_returns (config : Config) (now : Q) (post : reply) (g : globals) :
  post <> Raises KeyboardInterrupt ->
  exists b, outcome (Porcupine.send_alert config now post g) = Return b.
Proof.
  intro H. rewrite Porcupine_send_alert_eq. cbv zeta.
  destruct (Py.lt _ _); [now exists false|].
  destruct (alertMessage config); [|now exists false].
  destruct post as [status_code text | [e | e |]];
    try destruct (status_code =? 200)%Z; try congruence;
    eexists; reflexivity.
Qed.

Lemma Vosk_returns (config : Config) (now : Q) (post : reply) (g : globals) :
  post <> Raises KeyboardInterrupt ->
  exists b, outcome (Vosk.send_alert config now post g) = Return b.
Proof.
  intro H. rewrite Vosk_send_alert_eq. cbv zeta.
  destruct (Py.lt _ _); [now exists false|].
  destruct (alertMessage config); [|now exists false].
  destruct post as [status_code text | [e | e |]];
    try destruct (status_code =? 200)%Z; try congruence;
    eexists; reflexivity.
Qed.

(** C6, as stated, fails for [wake_word_detector_vosk.py]: a status other
    than 200 is reported by its code alone, the body of the response is
    dropped, so that two failures that differ in their bodies cannot be
    told apart. *)
Lemma Vosk_failure_drops_response_body :
  Vosk.send_alert scenario_config 100 (Response 500 "upstream error") initial =
  Vosk.send_alert scenario_config 100 (Response 500 "") initial /\
  ~ In (Log (ResponseText "upstream error"))
       (trace (Vosk.send_alert scenario_config 100
                 (Response 500 "upstream error") initial)).
Proof.
  split; [reflexivity|].
  vm_compute. intuition discriminate.
Qed.

(** C6, amended.  Once past the cooldown check, with an alert message
    configured, [send_alert] ends in exactly one of these ways, by the
    reply to the POST: status 200: it returns [True] and records the clock
    reading; any other status: it returns [False] and logs the status
    code, followed in [wake_word_detector.py] by the body of the response
    (in [wake_word_detector_vosk.py] the status code only); a
    [ConnectionError]: it returns [False] and logs that the service cannot
    be reached; any other [Exception]: it returns [False] and logs its
    text.  In every state and configuration, a call whose POST does not end
    in [KeyboardInterrupt] returns to the loop without raising. *)
Theorem alert_outcome_classified
    (config : Config) (now : Q) (post : reply) (g : globals) (m : string) :
  (cooldownSeconds config <= now - last_detection_time g ->
   alertMessage config = Some m ->
   let posted := Call (requests_post (WHATSAPP_PORT config) m) in
   match post with
   | Response status_code text =>
       if (status_code =? 200)%Z then
         Porcupine.send_alert config now post g =
           (Return true, {| last_detection_time := now |},
            [Log SendingAlert; posted; Log AlertSent]) /\
         Vosk.send_alert config now post g =
           (Return true, {| last_detection_time := now |},
            [Log SendingAlert; posted; Log AlertSent])
       else
         Porcupine.send_alert config now post g =
           (Return false, g,
            [Log SendingAlert; posted; Log (AlertFailedHTTP status_code);
             Log (ResponseText text)]) /\
         Vosk.send_alert config now post g =
           (Return false, g,
            [Log SendingAlert; posted; Log (AlertFailedHTTP status_code)])
   | Raises (ConnectionError _) =>
       Porcupine.send_alert config now post g =
         (Return false, g,
          [Log SendingAlert; posted; Log CannotConnect; Log StartItWith]) /\
       Vosk.send_alert config now post g =
         (Return false, g, [Log SendingAlert; posted; Log CannotConnect])
   | Raises (Exception e) =>
       Porcupine.send_alert config now post g =
         (Return false, g,
          [Log SendingAlert; posted; Log (ErrorSendingAlert e)]) /\
       Vosk.send_alert config now post g =
         (Return false, g,
          [Log SendingAlert; posted; Log (ErrorSendingAlert e)])
   | Raises KeyboardInterrupt =>
       Porcupine.send_alert config now post g =
         (Raise KeyboardInterrupt, g, [Log SendingAlert; posted]) /\
       Vosk.send_alert config now post g =
         (Raise KeyboardInterrupt, g, [Log SendingAlert; posted])
   end) /\
  (post <> Raises KeyboardInterrupt ->
   (exists b, outcome (Porcupine.send_alert config now post g) = Return b) /\
   (exists b, outcome (Vosk.send_alert config now post g) = Return b)).
Proof.
  split.
  - intros Hc Hm. apply lt_false_iff in Hc.
    rewrite Porcupine_send_alert_eq, Vosk_send_alert_eq. cbv zeta.
    rewrite Hc, Hm.
    destruct post as [status_code text | [e | e |]];
      try destruct (status_code =? 200)%Z; split; reflexivity.
  - intro H. split; [now apply Porcupine_returns | now apply Vosk_returns].
Qed.

Lemma alert_outcome_classified_witness :
  Porcupine.send_alert scenario_config 100 (Response 500 "upstream error") initial =
    (Return false, initial,
     [Log SendingAlert; Call (requests_post 3000 "Emergency! Help needed.");
      Log (AlertFailedHTTP 500); Log (ResponseText "upstream error")]) /\
  Vosk.send_alert scenario_config 100 (Response 500 "upstream error") initial =
    (Return false, initial,
     [Log SendingAlert; Call (requests_post 3000 "Emergency! Help needed.");
      Log (AlertFailedHTTP 500)]).
Proof.
  refine (proj1 (alert_outcome_classified scenario_config 100
            (Response 500 "upstream error") initial
            "Emergency! Help needed.") _ _).
  - unfold Qle; simpl; lia.
  - reflexivity.
Defined.

(* ================================================================== *)
(** * At most one alert per cooldown window                            *)
(* ================================================================== *)

Lemma sent_times_spaced (config : Config) (detections : list (Q * reply)) :
  forall g : globals,
    spaced (cooldownSeconds config) (last_detection_time g)
           (sent_times config detections g).
Proof.
  induction detections as [|[now post] rest IH]; intro g; [exact I|].
  cbn [sent_times].
  pose proof (Porcupine_final config now post g) as F.
  pose proof (Porcupine_sent_iff config now post g) as S.
  destruct (outcome (Porcupine.send_alert config now post g)) as [[|]| |].
  - rewrite F. split.
    + apply S. reflexivity.
    + apply (IH {| last_detection_time := now |}).
  - rewrite F. apply IH.
  - rewrite F. apply IH.
  - rewrite F. apply IH.
Qed.

Lemma sent_times_incl (config : Config) (detections : list (Q * reply)) :
  forall (g : globals) (t : Q),
    In t (sent_times config detections g) -> In t (map fst detections).
Proof.
  induction detections as [|[now post] rest IH]; intros g t; [easy|].
  cbn [sent_times map fst].
  destruct (outcome (Porcupine.send_alert config now post g)) as [[|]| |];
    cbn [In]; intros H; try (right; eapply IH; eassumption).
  destruct H as [H|H]; [now left | right; eapply IH; eassumption].
Qed.

Lemma sent_times_sorted (config : Config) (detections : list (Q * reply)) :
  forall g : globals,
    StronglySorted Qlt (map fst detections) ->
    StronglySorted Qlt (sent_times config detections g).
Proof.
  induction detections as [|[now post] rest IH]; intros g H;
    [constructor|].
  cbn [map fst] in H. apply StronglySorted_inv in H as [Hrest Hall].
  cbn [sent_times].
  destruct (outcome (Porcupine.send_alert config now post g)) as [[|]| |];
    try (apply IH; assumption).
  constructor; [apply IH; assumption|].
  rewrite Forall_forall in *. intros t Ht.
  apply Hall. eapply sent_times_incl; eassumption.
Qed.

Lemma spaced_from_earlier (cooldown : Q) (times : list Q) :
  forall last earlier : Q,
    spaced cooldown last times -> earlier <= last ->
    Forall (Qlt earlier) times ->
    forall t, In t times -> cooldown <= t - earlier.
Proof.
  induction times as [|t0 times IH]; intros last earlier Hs Hle Hall t Hin;
    [easy|].
  destruct Hs as [H0 Hs]. inversion Hall as [|? ? Hlt Hall']; subst.
  destruct Hin as [<-|Hin]; [lra|].
  apply (IH t0 earlier); auto. lra.
Qed.

Lemma spaced_pairs (cooldown : Q) (times : list Q) :
  forall last : Q,
    spaced cooldown last times -> StronglySorted Qlt times ->
    forall (i j : nat) (ti tj : Q),
      (i < j)%nat -> nth_error times i = Some ti ->
      nth_error times j = Some tj -> cooldown <= tj - ti.
Proof.
  induction times as [|t times IH]; intros last Hs Hsorted i j ti tj Hij Hi Hj.
  - destruct i; discriminate.
  - destruct Hs as [_ Hs]. apply StronglySorted_inv in Hsorted as [Hsorted Hall].
    destruct j as [|j]; [lia|]. cbn in Hj.
    destruct i as [|i]; cbn in Hi.
    + injection Hi as <-.
      apply (spaced_from_earlier cooldown times t t Hs (Qle_refl t) Hall).
      eapply nth_error_In; eassumption.
    + apply (IH t Hs Hsorted i j); auto. lia.
Qed.

(** C1.  Run the alert path over any sequence of detections with clock
    readings [t1 < t2 < ...], from the start of the script.  The calls that
    return [True] are spaced by the cooldown: each one comes at least
    [cooldownSeconds] after the clock reading recorded at the one before
    (the first one at least [cooldownSeconds] after 0), and any two of them
    are at least [cooldownSeconds] apart. *)
Theorem no_two_alerts_within_cooldown
    (config : Config) (detections : list (Q * reply)) :
  StronglySorted Qlt (map fst detections) ->
  let sent := sent_times config detections initial in
  spaced (cooldownSeconds config) 0 sent /\
  (forall (i : nat) (previous t : Q),
      nth_error sent i = Some previous -> nth_error sent (S i) = Some t ->
      cooldownSeconds config <= t - previous) /\
  (forall (i j : nat) (ti tj : Q),
      (i < j)%nat -> nth_error sent i = Some ti -> nth_error sent j = Some tj ->
      cooldownSeconds config <= tj - ti).
Proof.
  intros Hsorted sent.
  pose proof (sent_times_spaced config detections initial) as Hs.
  pose proof (sent_times_sorted config detections initial Hsorted) as Ho.
  fold sent in Hs, Ho. cbn [last_detection_time initial] in Hs.
  split; [exact Hs|]. split.
  - intros i previous t Hi Hj.
    apply (spaced_pairs _ _ _ Hs Ho i (S i)); auto.
  - intros i j ti tj. apply (spaced_pairs _ _ _ Hs Ho).
Qed.

Lemma no_two_alerts_within_cooldown_witness :
  let detections :=
    [(0, Response 200 "ok"); (10, Response 200 "ok"); (31, Response 200 "ok");
     (40, Response 200 "ok"); (62, Response 500 "upstream error");
     (63, Response 200 "ok")] in
  StronglySorted Qlt (map fst detections) /\
  sent_times scenario_config detections initial = [31; 63] /\
  cooldownSeconds scenario_config <= 63 - 31.
Proof.
  cbv zeta.
  assert (H : StronglySorted Qlt
                (map fst [(0, Response 200 "ok"); (10, Response 200 "ok");
                          (31, Response 200 "ok"); (40, Response 200 "ok");
                          (62, Response 500 "upstream error");
                          (63, Response 200 "ok")])).
  { repeat constructor; unfold Qlt; simpl; lia. }
  split; [exact H|]. split; [reflexivity|].
  exact (proj2 (proj2 (no_two_alerts_within_cooldown scenario_config _ H))
           0%nat 1%nat 31 63 (Nat.lt_0_succ 0) eq_refl eq_refl).
Defined.

(* ================================================================== *)
(** * The listening loop                                               *)
(* ================================================================== *)

Lemma read_without_exception (overflowed : bool) :
  PyAudio.read false overflowed = Return tt.
Proof. unfold PyAudio.read. now rewrite andb_false_r. Qed.

(** One turn of the loop of [wake_word_detector.py]. *)
Lemma Porcupine_iteration_eq
    (config : Config) (overflowed : bool) (k : Z) (now : Q) (post : reply)
    (g : globals) :
  Porcupine.iteration config (Porcupine.Frame overflowed k now post) g =
  if (k >=? 0)%Z then
    let alert := Porcupine.send_alert config now post g in
    (dropped (outcome alert), final alert,
     Call stream_read :: Log (WakeWordDetected None) :: trace alert)
  else
    (Return tt, g, [Call stream_read]).
Proof.
  unfold Porcupine.iteration, bind, external, log, ret.
  rewrite read_without_exception.
  destruct (k >=? 0)%Z; [|reflexivity].
  cbv zeta.
  destruct (Porcupine.send_alert config now post g) as [[[b| e |] g'] t];
    cbn; now rewrite ?app_nil_r.
Qed.

Lemma Porcupine_alert_counts
    (config : Config) (now : Q) (post : reply) (g : globals) :
  count is_detection (trace (Porcupine.send_alert config now post g)) = 0%nat /\
  count is_alert_entry (trace (Porcupine.send_alert config now post g)) = 1%nat.
Proof.
  rewrite Porcupine_send_alert_eq. cbv zeta.
  destruct (Py.lt _ _); [split; reflexivity|].
  destruct (alertMessage config); [|split; reflexivity].
  destruct post as [status_code text | [e | e |]];
    try destruct (status_code =? 200)%Z; split; reflexivity.
Qed.

(** C5.  In [wake_word_detector.py], a frame for which the spotter returns
    an index [>= 0] gives exactly one detection: the loop logs the
    detection once and calls [send_alert] once (the turn of the loop is
    that line followed by what this one call does); a frame with an index
    [< 0] gives none: nothing is logged, [send_alert] is not called, the
    state stays as it was. *)
Theorem one_detection_per_match
    (config : Config) (overflowed : bool) (keyword_index : Z)
    (now : Q) (post : reply) (g : globals) :
  let run :=
    Porcupine.iteration config
      (Porcupine.Frame overflowed keyword_index now post) g in
  let alert := Porcupine.send_alert config now post g in
  ((0 <= keyword_index)%Z ->
   trace run = Call stream_read :: Log (WakeWordDetected None) :: trace alert /\
   final run = final alert /\
   outcome run = dropped (outcome alert) /\
   count is_detection (trace run) = 1%nat /\
   count is_alert_entry (trace run) = 1%nat) /\
  ((keyword_index < 0)%Z ->
   run = (Return tt, g, [Call stream_read]) /\
   count is_detection (trace run) = 0%nat /\
   count is_alert_entry (trace run) = 0%nat).
Proof.
  cbv zeta. rewrite Porcupine_iteration_eq.
  destruct (Porcupine_alert_counts config now post g) as [Hd Ha].
  split; intro H.
  - assert (E : (keyword_index >=? 0)%Z = true) by lia.
    rewrite E. cbv zeta.
    unfold trace, final, outcome, count in *.
    cbn [fst snd filter is_detection is_alert_entry List.length].
    rewrite Hd. repeat split. exact Ha.
  - assert (E : (keyword_index >=? 0)%Z = false) by lia.
    rewrite E. repeat split.
Qed.

Lemma one_detection_per_match_witness :
  (0 <= 0)%Z /\
  Porcupine.iteration scenario_config
    (Porcupine.Frame false 0 100 (Response 200 "ok")) initial =
    (Return tt, {| last_detection_time := 100 |},
     [Call stream_read; Log (WakeWordDetected None); Log SendingAlert;
      Call (requests_post 3000 "Emergency! Help needed."); Log AlertSent]) /\
  count is_detection
    (trace (Porcupine.iteration scenario_config
              (Porcupine.Frame false 0 100 (Response 200 "ok")) initial)) = 1%nat /\
  (-1 < 0)%Z /\
  Porcupine.iteration scenario_config
    (Porcupine.Frame false (-1) 100 (Response 200 "ok")) initial =
    (Return tt, initial, [Call stream_read]).
Proof.
  pose proof (proj1 (one_detection_per_match scenario_config false 0 100
                       (Response 200 "ok") initial) (Z.le_refl 0))
    as (_ & _ & _ & Hd & _).
  pose proof (proj2 (one_detection_per_match scenario_config false (-1) 100
                       (Response 200 "ok") initial) eq_refl)
    as (Hq & _).
  split; [lia|]. split; [reflexivity|]. split; [exact Hd|].
  split; [lia|]. exact Hq.
Defined.

(** One turn of the loop of [wake_word_detector_vosk.py]. *)
Lemma Vosk_iteration_eq
    (config : Config) (overflowed : bool) (heard : Vosk.recognition)
    (now : Q) (post : reply) (g : globals) :
  Vosk.iteration config (Vosk.Frame overflowed heard now post) g =
  match heard with
  | Vosk.Partial => (Return tt, g, [Call stream_read])
  | Vosk.Final result =>
      let text :=
        Py.lower (match result with Some t => t | None => EmptyString end) in
      if Py.truthy text then
        match Vosk.detected_words config text with
        | word :: _ =>
            let alert := Vosk.send_alert config now post g in
            (dropped (outcome alert), final alert,
             Call stream_read :: Log (Recognized text) ::
             Log (WakeWordDetected (Some word)) :: trace alert)
        | [] => (Return tt, g, [Call stream_read; Log (Recognized text)])
        end
      else
        (Return tt, g, [Call stream_read])
  end.
Proof.
  unfold Vosk.iteration, bind, external, log, ret.
  rewrite read_without_exception.
  destruct heard as [|result]; [reflexivity|]. cbv zeta.
  destruct (Py.truthy _); [|reflexivity].
  destruct (Vosk.detected_words config _) as [|word rest]; [reflexivity|].
  destruct (Vosk.send_alert config now post g) as [[[b| e |] g'] t];
    cbn; now rewrite ?app_nil_r.
Qed.

(** The overflow flag of a frame has no part in what the loop does. *)
Lemma Porcupine_listen_overflow (config : Config) (b : bool)
    (ticks : list Porcupine.tick) :
  forall g : globals,
    Porcupine.listen config (map (Porcupine_with_overflow b) ticks) g =
    Porcupine.listen config ticks g.
Proof.
  induction ticks as [|t ticks IH]; intro g; [reflexivity|].
  cbn [map Porcupine.listen]. unfold bind.
  assert (E : Porcupine.iteration config (Porcupine_with_overflow b t) g =
              Porcupine.iteration config t g).
  { destruct t as [ov k now post | e]; [|reflexivity].
    cbn [Porcupine_with_overflow]. now rewrite !Porcupine_iteration_eq. }
  rewrite E.
  destruct (Porcupine.iteration config t g) as [[[u| e |] g'] tr];
    try reflexivity.
  now rewrite IH.
Qed.

Lemma Vosk_listen_overflow (config : Config) (b : bool)
    (ticks : list Vosk.tick) :
  forall g : globals,
    Vosk.listen config (map (Vosk_with_overflow b) ticks) g =
    Vosk.listen config ticks g.
Proof.
  induction ticks as [|t ticks IH]; intro g; [reflexivity|].
  cbn [map Vosk.listen]. unfold bind.
  assert (E : Vosk.iteration config (Vosk_with_overflow b t) g =
              Vosk.iteration config t g).
  { destruct t as [ov heard now post | e]; [|reflexivity].
    cbn [Vosk_with_overflow]. now rewrite !Vosk_iteration_eq. }
  rewrite E.
  destruct (Vosk.iteration config t g) as [[[u| e |] g'] tr];
    try reflexivity.
  now rewrite IH.
Qed.

(** C9, as stated, fails: a frame read after an input overflow is not
    "caught and logged": with [exception_on_overflow=False] nothing is
    raised, and the turn of the loop logs nothing at all. *)
Lemma overflow_is_not_logged :
  Porcupine.iteration scenario_config
    (Porcupine.Frame true (-1) 100 (Response 200 "ok")) initial =
    (Return tt, initial, [Call stream_read]) /\
  ~ (exists m : message,
        In (Log m)
           (trace (Porcupine.iteration scenario_config
                     (Porcupine.Frame true (-1) 100 (Response 200 "ok"))
                     initial))).
Proof.
  split; [reflexivity|].
  intros [m H]. vm_compute in H. intuition discriminate.
Qed.

(** C9, amended.  An input overflow behind a frame is suppressed by
    [exception_on_overflow=False]: the read raises nothing and nothing is
    logged for it; the loop does exactly what it does without the
    overflow, in both scripts, and after a frame in which nothing is
    detected it goes on with the frames that follow. *)
Theorem overflow_is_suppressed
    (config : Config) (b : bool) (g : globals)
    (keyword_index : Z) (now : Q) (post : reply)
    (porcupine_ticks : list Porcupine.tick) (vosk_ticks : list Vosk.tick) :
  PyAudio.read false true = Return tt /\
  Porcupine.listen config (map (Porcupine_with_overflow b) porcupine_ticks) g =
    Porcupine.listen config porcupine_ticks g /\
  Vosk.listen config (map (Vosk_with_overflow b) vosk_ticks) g =
    Vosk.listen config vosk_ticks g /\
  ((keyword_index < 0)%Z ->
   let rest := Porcupine.listen config porcupine_ticks g in
   Porcupine.listen config
     (Porcupine.Frame true keyword_index now post :: porcupine_ticks) g =
     (outcome rest, final rest, Call stream_read :: trace rest)) /\
  (let rest := Vosk.listen config vosk_ticks g in
   Vosk.listen config (Vosk.Frame true Vosk.Partial now post :: vosk_ticks) g =
     (outcome rest, final rest, Call stream_read :: trace rest)).
Proof.
  split; [reflexivity|].
  split; [apply Porcupine_listen_overflow|].
  split; [apply Vosk_listen_overflow|].
  split.
  - intro H. cbv zeta. cbn [Porcupine.listen]. unfold bind.
    rewrite Porcupine_iteration_eq.
    assert (E : (keyword_index >=? 0)%Z = false) by lia. rewrite E.
    now destruct (Porcupine.listen config porcupine_ticks g) as [[r g'] t].
  - cbv zeta. cbn [Vosk.listen]. unfold bind.
    rewrite Vosk_iteration_eq.
    now destruct (Vosk.listen config vosk_ticks g) as [[r g'] t].
Qed.

Lemma overflow_is_suppressed_witness :
  (-1 < 0)%Z /\
  Porcupine.listen scenario_config
    [Porcupine.Frame true (-1) 100 (Response 200 "ok");
     Porcupine.Frame false 0 101 (Response 200 "ok")] initial =
    (Blocked, {| last_detection_time := 101 |},
     [Call stream_read; Call stream_read; Log (WakeWordDetected None);
      Log SendingAlert; Call (requests_post 3000 "Emergency! Help needed.");
      Log AlertSent]).
Proof.
  split; [lia|].
  exact (proj1 (proj2 (proj2 (proj2
    (overflow_is_suppressed scenario_config true initial (-1) 100
       (Response 200 "ok")
       [Porcupine.Frame false 0 101 (Response 200 "ok")] [])))) eq_refl).
Defined.

(* ================================================================== *)
(** * Wake word matching                                               *)
(* ================================================================== *)

Lemma startswith_iff (x : string) :
  forall text : string,
    Py.startswith text x = true <-> exists after, text = (x ++ after)%string.
Proof.
  induction x as [|c x IH]; intro text.
  - split; [intros _; now exists text | now destruct text].
  - destruct text as [|d text]; cbn [Py.startswith].
    + split; [discriminate | intros [after H]; discriminate].
    + rewrite andb_true_iff, Ascii.eqb_eq, IH. split.
      * intros [-> [after ->]]. now exists after.
      * intros [after H]. cbn in H. injection H as -> ->. eauto.
Qed.

Lemma contains_iff (x : string) :
  forall text : string, Py.contains x text = true <-> Substring x text.
Proof.
  unfold Substring.
  induction text as [|d text IH]; cbn [Py.contains];
    rewrite orb_true_iff, startswith_iff.
  - split.
    + intros [[after H] | H]; [|discriminate].
      now exists EmptyString, after.
    + intros (before & after & H). left.
      destruct before; [now exists after | discriminate].
  - rewrite IH. split.
    + intros [[after H] | (before & after & H)].
      * now exists EmptyString, after.
      * exists (String d before), after. cbn. now rewrite H.
    + intros (before & after & H). destruct before as [|c before].
      * left. now exists after.
      * right. cbn in H. injection H as -> ->. now exists before, after.
Qed.

Lemma truthy_iff (s : string) : Py.truthy s = true <-> s <> EmptyString.
Proof. destruct s; cbn; split; congruence. Qed.


Lemma filter_map_nil {A B} (f : A -> B) (p : B -> bool) (l : list A) :
  filter p (map f l) = [] <-> forall w, In w l -> p (f w) = false.
Proof.
  induction l as [|a l IH]; cbn [map filter]; [easy|].
  destruct (p (f a)) eqn:E.
  - split; [discriminate|]. intro H. specialize (H a (or_introl eq_refl)).
    congruence.
  - rewrite IH. split.
    + intros H w [<-|Hw]; auto.
    + intros H w Hw. apply H. now right.
Qed.

Lemma Vosk_alert_no_detection
    (config : Config) (now : Q) (post : reply) (g : globals) (word : option string) :
  ~ In (Log (WakeWordDetected word)) (trace (Vosk.send_alert config now post g)).
Proof.
  rewrite Vosk_send_alert_eq. cbv zeta.
  destruct (Py.lt _ _); [cbn; intuition discriminate|].
  destruct (alertMessage config); [|cbn; intuition discriminate].
  destruct post as [status_code text | [e | e |]];
    try destruct (status_code =? 200)%Z; cbn; intuition discriminate.
Qed.

(** ** Lowercasing and the case of letters *)

Lemma lower_char_N (c : ascii) :
  N_of_ascii (Py.lower_char c) =
  (if ((65 <=? N_of_ascii c) && (N_of_ascii c <=? 90))%N
   then (N_of_ascii c + 32)%N else N_of_ascii c).
Proof.
  unfold Py.lower_char.
  destruct ((65 <=? N_of_ascii c) && (N_of_ascii c <=? 90))%N eqn:U;
    [|reflexivity].
  apply andb_true_iff in U. destruct U as [_ U]. apply N.leb_le in U.
  apply N_ascii_embedding. lia.
Qed.

Lemma N_of_ascii_inj (a b : ascii) : N_of_ascii a = N_of_ascii b -> a = b.
Proof.
  intro H. rewrite <- (ascii_N_embedding a), <- (ascii_N_embedding b).
  now rewrite H.
Qed.












(* ================================================================== *)
(** * Start-up                                                         *)
(* ================================================================== *)

Lemma Porcupine_main_proceeds (config : Config) (s : Porcupine.session) (g : globals) :
  proceeds (Porcupine.health s) (Porcupine.keyboard s) = true ->
  Porcupine.main config s g =
  preceded_by (Porcupine_startup config (Porcupine.health s))
              (Porcupine.initialize_and_listen config s g).
Proof.
  unfold Porcupine.main, Porcupine.listing, Porcupine.test_whatsapp_service, proceeds,
    Porcupine_startup, preceded_by, outcome, final, trace.
  destruct (Porcupine.initialize_and_listen config s g) as [[r g'] t] eqn:E.
  destruct (Porcupine.health s) as [[|]|[e|e|]|]; try discriminate;
    destruct (Porcupine.keyboard s) as [line|e'|]; try discriminate; intros _;
    cbv [bind try_except external log ret negb app]; rewrite E;
    reflexivity.
Qed.

Lemma Vosk_main_proceeds (config : Config) (s : Vosk.session) (g : globals) :
  proceeds (Vosk.health s) (Vosk.keyboard s) = true ->
  Vosk.main config s g =
  preceded_by (Vosk_startup config (Vosk.health s))
              (Vosk.initialize_and_listen config s g).
Proof.
  unfold Vosk.main, Vosk.listing, Vosk.test_whatsapp_service, proceeds,
    Vosk_startup, preceded_by, outcome, final, trace.
  destruct (Vosk.initialize_and_listen config s g) as [[r g'] t] eqn:E.
  destruct (Vosk.health s) as [[|]|[e|e|]|]; try discriminate;
    destruct (Vosk.keyboard s) as [line|e'|]; try discriminate; intros _;
    cbv [bind try_except external log ret negb app]; rewrite E;
    reflexivity.
Qed.

Lemma count_app (p : event -> bool) (t t' : list event) :
  count p (t ++ t') = (count p t + count p t')%nat.
Proof. unfold count. now rewrite filter_app, length_app. Qed.

Lemma Porcupine_startup_counts (config : Config) (health : result bool) :
  count is_read (Porcupine_startup config health) = 0%nat /\
  count is_listening_banner (Porcupine_startup config health) = 0%nat /\
  count is_failure_report (Porcupine_startup config health) = 0%nat.
Proof. destruct health as [[|]|[e|e|]|]; repeat split. Qed.

Lemma Vosk_startup_counts (config : Config) (health : result bool) :
  count is_read (Vosk_startup config health) = 0%nat /\
  count is_listening_banner (Vosk_startup config health) = 0%nat /\
  count is_failure_report (Vosk_startup config health) = 0%nat.
Proof. destruct health as [[|]|[e|e|]|]; repeat split. Qed.

Lemma Porcupine_engine_failure
    (config : Config) (s : Porcupine.session) (g : globals) (e : exn) :
  is_Exception e = true -> Porcupine.engine s = Raise e ->
  Porcupine.initialize_and_listen config s g =
  (Return tt, g,
   [Log InitializingEngine; Call (pvporcupine_create (sensitivity config));
    Log (EngineInitFailed (str e));
    Log (Remediation 0); Log (Remediation 1); Log (Remediation 2);
    Log (Remediation 3); Log (Remediation 4)]).
Proof.
  intros He E. unfold Porcupine.initialize_and_listen. rewrite E.
  destruct e; try discriminate; reflexivity.
Qed.

Lemma Porcupine_audio_failure
    (config : Config) (s : Porcupine.session) (g : globals) (e : exn)
    (porcupine : PyAudio.engine) :
  is_Exception e = true ->
  Porcupine.engine s = Return porcupine -> Porcupine.audio s = Raise e ->
  Porcupine.initialize_and_listen config s g =
  (Return tt, g,
   [Log InitializingEngine; Call (pvporcupine_create (sensitivity config));
    Log (EngineInitialized (PyAudio.version porcupine));
    Log (InfoSampleRate (PyAudio.sample_rate porcupine));
    Log (InfoFrameLength (PyAudio.frame_length porcupine));
    Log (InfoSensitivity (sensitivity config));
    Log (InfoCooldown (cooldownSeconds config));
    Log OpeningAudio; Call (pa_open (audioDeviceIndex config));
    Log (AudioOpenFailed (str e));
    Call porcupine_delete; Call pa_terminate]).
Proof.
  intros He E A.
  unfold Porcupine.initialize_and_listen, Porcupine.open_and_listen.
  rewrite E, A. destruct e; try discriminate; reflexivity.
Qed.

Lemma Vosk_engine_failure
    (config : Config) (s : Vosk.session) (g : globals) (e : exn) :
  is_Exception e = true -> Vosk.engine s = Raise e ->
  Vosk.initialize_and_listen config s g =
  (Return tt, g,
   [Log InitializingEngine; Log FirstRunDownload; Call vosk_load;
    Log (EngineInitFailed (str e));
    Log (Remediation 0); Log (Remediation 1); Log (Remediation 2)]).
Proof.
  intros He E. unfold Vosk.initialize_and_listen. rewrite E.
  destruct e; try discriminate; reflexivity.
Qed.

Lemma Vosk_audio_failure
    (config : Config) (s : Vosk.session) (g : globals) (e : exn) :
  is_Exception e = true ->
  Vosk.engine s = Return tt -> Vosk.audio s = Raise e ->
  Vosk.initialize_and_listen config s g =
  (Return tt, g,
   [Log InitializingEngine; Log FirstRunDownload; Call vosk_load;
    Log ModelLoaded;
    Log OpeningAudio; Call (pa_open (audioDeviceIndex config));
    Log (AudioOpenFailed (str e)); Call pa_terminate]).
Proof.
  intros He E A.
  unfold Vosk.initialize_and_listen, Vosk.open_and_listen.
  rewrite E, A. destruct e; try discriminate; reflexivity.
Qed.

(** C7, as stated, fails: when Porcupine cannot be created [main] logs the
    failure and returns; nothing makes the interpreter exit with a status
    other than 0. *)
Lemma startup_failure_exits_with_status_zero :
  let s := {| Porcupine.health := Return true;
              Porcupine.keyboard := Return EmptyString;
              Porcupine.engine := Raise (Exception "invalid access key");
              Porcupine.audio := Return "default"%string;
              Porcupine.ticks := [] |} in
  exit_status (outcome (Porcupine.main scenario_config s initial)) = Some 0%Z /\
  ~ (exists status : Z,
        exit_status (outcome (Porcupine.main scenario_config s initial))
          = Some status /\ status <> 0%Z).
Proof.
  cbv zeta. split; [reflexivity|].
  intros (status & H & Hn). vm_compute in H. congruence.
Qed.

(** C7, amended.  If the initialisation of the wake word engine or the
    opening of the audio device fails (with an [Exception]) during
    start-up, [main] reports the failure once and returns at once, without
    ever entering the listening loop: no frame is read, the listening
    banner is not shown, the cooldown state is untouched.  [main] returns
    normally, so the process ends with exit status 0. *)
Theorem startup_failure_returns
    (config : Config) (ps : Porcupine.session) (vs : Vosk.session)
    (g : globals) (e : exn) (porcupine : PyAudio.engine) :
  is_Exception e = true ->
  (proceeds (Porcupine.health ps) (Porcupine.keyboard ps) = true ->
   (Porcupine.engine ps = Raise e ->
    ended_at_startup (Porcupine.main config ps g) g /\
    In (Log (EngineInitFailed (str e))) (trace (Porcupine.main config ps g))) /\
   (Porcupine.engine ps = Return porcupine -> Porcupine.audio ps = Raise e ->
    ended_at_startup (Porcupine.main config ps g) g /\
    In (Log (AudioOpenFailed (str e))) (trace (Porcupine.main config ps g)))) /\
  (proceeds (Vosk.health vs) (Vosk.keyboard vs) = true ->
   (Vosk.engine vs = Raise e ->
    ended_at_startup (Vosk.main config vs g) g /\
    In (Log (EngineInitFailed (str e))) (trace (Vosk.main config vs g))) /\
   (Vosk.engine vs = Return tt -> Vosk.audio vs = Raise e ->
    ended_at_startup (Vosk.main config vs g) g /\
    In (Log (AudioOpenFailed (str e))) (trace (Vosk.main config vs g)))).
Proof.
  intro He.
  destruct (Porcupine_startup_counts config (Porcupine.health ps))
    as (Pr & Pb & Pf).
  destruct (Vosk_startup_counts config (Vosk.health vs)) as (Vr & Vb & Vf).
  split; intro Hp; split.
  - intro E. rewrite (Porcupine_main_proceeds config ps g Hp),
      (Porcupine_engine_failure config ps g e He E).
    unfold ended_at_startup, preceded_by, outcome, final, trace.
    cbn [fst snd]. rewrite !count_app, Pr, Pb, Pf.
    repeat split. apply in_or_app. right. cbn. auto.
  - intros E A. rewrite (Porcupine_main_proceeds config ps g Hp),
      (Porcupine_audio_failure config ps g e porcupine He E A).
    unfold ended_at_startup, preceded_by, outcome, final, trace.
    cbn [fst snd]. rewrite !count_app, Pr, Pb, Pf.
    repeat split. apply in_or_app. right. cbn. intuition.
  - intro E. rewrite (Vosk_main_proceeds config vs g Hp),
      (Vosk_engine_failure config vs g e He E).
    unfold ended_at_startup, preceded_by, outcome, final, trace.
    cbn [fst snd]. rewrite !count_app, Vr, Vb, Vf.
    repeat split. apply in_or_app. right. cbn. auto.
  - intros E A. rewrite (Vosk_main_proceeds config vs g Hp),
      (Vosk_audio_failure config vs g e He E A).
    unfold ended_at_startup, preceded_by, outcome, final, trace.
    cbn [fst snd]. rewrite !count_app, Vr, Vb, Vf.
    repeat split. apply in_or_app. right. cbn. intuition.
Qed.

Lemma startup_failure_returns_witness :
  let ps := {| Porcupine.health := Raise (ConnectionError "refused");
               Porcupine.keyboard := Return EmptyString;
               Porcupine.engine := Raise (Exception "invalid access key");
               Porcupine.audio := Return "default"%string;
               Porcupine.ticks :=
                 [Porcupine.Frame false 0 100 (Response 200 "ok")] |} in
  let vs := {| Vosk.health := Return true;
               Vosk.keyboard := Return EmptyString;
               Vosk.engine := Return tt;
               Vosk.audio := Raise (Exception "invalid access key");
               Vosk.ticks := [] |} in
  is_Exception (Exception "invalid access key") = true /\
  proceeds (Porcupine.health ps) (Porcupine.keyboard ps) = true /\
  ended_at_startup (Porcupine.main scenario_config ps initial) initial /\
  ended_at_startup (Vosk.main scenario_config vs initial) initial.
Proof.
  cbv zeta.
  split; [reflexivity|]. split; [reflexivity|].
  match goal with
  | |- ended_at_startup (Porcupine.main _ ?ps _) _ /\
       ended_at_startup (Vosk.main _ ?vs _) _ =>
      pose proof (startup_failure_returns scenario_config ps vs initial
                    (Exception "invalid access key")
                    {| PyAudio.version := "3.0"; PyAudio.sample_rate := 16000;
                       PyAudio.frame_length := 512 |} eq_refl) as [HP HV]
  end.
  split.
  - exact (proj1 (proj1 (HP eq_refl) eq_refl)).
  - exact (proj1 (proj2 (HV eq_refl) eq_refl eq_refl)).
Defined.

(* ================================================================== *)
(** * The health check                                                 *)
(* ================================================================== *)

Lemma bind_trace_incl {A B} (m : M A) (k : A -> M B) (g : globals) (ev : event) :
  In ev (trace (m g)) -> In ev (trace (bind m k g)).
Proof.
  unfold bind, trace.
  destruct (m g) as [[[a| e |] g'] t]; cbn [snd]; auto.
  destruct (k a g') as [[r g''] t']. cbn [snd]. intro. apply in_or_app. auto.
Qed.

Lemma Porcupine_listen_quiet (config : Config)
    (quiet_frames rest : list Porcupine.tick) :
  forall g : globals,
    Forall (fun t => quiet t = true) quiet_frames ->
    forall ev,
      In ev (trace (Porcupine.listen config rest g)) ->
      In ev (trace (Porcupine.listen config (quiet_frames ++ rest) g)).
Proof.
  induction quiet_frames as [|t quiet_frames IH]; intros g Hq ev Hin;
    [exact Hin|].
  inversion Hq as [|? ? Ht Hq']; subst.
  destruct t as [ov k now post | e]; [|discriminate].
  cbn [quiet] in Ht. cbn [app Porcupine.listen]. unfold bind.
  rewrite Porcupine_iteration_eq.
  assert (E : (k >=? 0)%Z = false) by lia. rewrite E.
  specialize (IH g Hq' ev Hin).
  destruct (Porcupine.listen config (quiet_frames ++ rest) g) as [[r g'] t'].
  unfold trace in *. cbn [snd] in *. apply in_or_app. auto.
Qed.

Lemma Porcupine_listening_trace
    (config : Config) (s : Porcupine.session) (g : globals)
    (porcupine : PyAudio.engine) (name : string) (ev : event) :
  Porcupine.engine s = Return porcupine -> Porcupine.audio s = Return name ->
  In ev (trace (Porcupine.listen config (Porcupine.ticks s) g)) ->
  In ev (trace (Porcupine.initialize_and_listen config s g)).
Proof.
  intros E A.
  unfold Porcupine.initialize_and_listen, Porcupine.open_and_listen.
  rewrite E, A.
  cbv [bind try_except try_finally external log ret Porcupine.cleanup].
  destruct (Porcupine.listen config (Porcupine.ticks s) g)
    as [[[u| [e|e|] |] g'] t];
    unfold trace; cbn [snd app]; intro H;
    repeat (apply in_cons); rewrite ?app_nil_r; repeat (apply in_or_app; left);
    exact H.
Qed.

(** What [main] does after the health check does not depend on the
    session's health probe. *)
Lemma Porcupine_initialize_ignores_health
    (config : Config) (s s' : Porcupine.session) (g : globals) :
  Porcupine.engine s' = Porcupine.engine s ->
  Porcupine.audio s' = Porcupine.audio s ->
  Porcupine.ticks s' = Porcupine.ticks s ->
  Porcupine.initialize_and_listen config s' g =
  Porcupine.initialize_and_listen config s g.
Proof.
  intros E A T.
  unfold Porcupine.initialize_and_listen, Porcupine.open_and_listen.
  now rewrite E, A, T.
Qed.

(** C8.  The health check of [main] is advisory.  Whatever it finds
    (service ready, reachable but not connected, unreachable, or the probe
    failing otherwise), once the operator answers the prompt [main] goes on
    to do exactly what it does when the service is ready: the outcome, the
    final state and everything after the start-up lines are the same.  A
    health check that is not passed logs a warning.  With the engine and
    the audio stream up, a later detection, outside the cooldown, is
    followed by an attempt to send the alert: the POST is made. *)
Theorem health_check_is_advisory
    (config : Config) (s : Porcupine.session) (g : globals) (line : string) :
  probed (Porcupine.health s) = true ->
  Porcupine.keyboard s = Return line ->
  let ready := {| Porcupine.health := Return true;
                  Porcupine.keyboard := Porcupine.keyboard s;
                  Porcupine.engine := Porcupine.engine s;
                  Porcupine.audio := Porcupine.audio s;
                  Porcupine.ticks := Porcupine.ticks s |} in
  let run := Porcupine.main config s g in
  (outcome run = outcome (Porcupine.main config ready g) /\
   final run = final (Porcupine.main config ready g) /\
   exists rest,
     trace run = Porcupine_startup config (Porcupine.health s) ++ rest /\
     trace (Porcupine.main config ready g) =
       Porcupine_startup config (Return true) ++ rest) /\
  (Porcupine.health s <> Return true -> In (Log WarningNotReady) (trace run)) /\
  (forall porcupine name quiet_frames overflowed keyword_index now post rest m,
      Porcupine.engine s = Return porcupine ->
      Porcupine.audio s = Return name ->
      Porcupine.ticks s =
        quiet_frames ++
        Porcupine.Frame overflowed keyword_index now post :: rest ->
      Forall (fun t => quiet t = true) quiet_frames ->
      (0 <= keyword_index)%Z ->
      cooldownSeconds config <= now - last_detection_time g ->
      alertMessage config = Some m ->
      In (Log SendingAlert) (trace run) /\
      In (Call (requests_post (WHATSAPP_PORT config) m)) (trace run)).
Proof.
  intros Hprobe Hkey ready run. subst run.
  assert (Hp : proceeds (Porcupine.health s) (Porcupine.keyboard s) = true).
  { unfold proceeds, probed in *. rewrite Hkey.
    destruct (Porcupine.health s) as [[|]|[e|e|]|]; auto. }
  rewrite (Porcupine_main_proceeds config s g Hp).
  rewrite (Porcupine_main_proceeds config ready g eq_refl).
  rewrite (Porcupine_initialize_ignores_health config s ready g
             eq_refl eq_refl eq_refl).
  change (Porcupine.health ready) with (@Return bool true).
  unfold preceded_by, outcome, final, trace. cbn [fst snd].
  split; [|split].
  - split; [reflexivity|]. split; [reflexivity|]. eauto.
  - intro Hn. apply in_or_app. left.
    unfold probed in Hprobe.
    destruct (Porcupine.health s) as [[|]|[e|e|]|]; try discriminate;
      try congruence; cbn; intuition.
  - intros porcupine name quiet_frames overflowed k now post rest m
      E A T Hq Hk Hc Hm.
    assert (Hin : forall ev,
      In ev (trace (Porcupine.send_alert config now post g)) ->
      In ev (snd (Porcupine.initialize_and_listen config s g))).
    { intros ev H.
      apply (Porcupine_listening_trace config s g porcupine name ev E A).
      rewrite T. apply Porcupine_listen_quiet; [exact Hq|].
      cbn [Porcupine.listen]. apply bind_trace_incl.
      rewrite Porcupine_iteration_eq.
      assert (Ek : (k >=? 0)%Z = true) by lia.
      rewrite Ek. cbv zeta.
      unfold trace at 1. cbn [snd]. right. right. exact H. }
    apply lt_false_iff in Hc.
    split; apply in_or_app; right; apply Hin;
      rewrite Porcupine_send_alert_eq; cbv zeta; rewrite Hc, Hm;
      destruct post as [status_code text | [e | e |]];
      try destruct (status_code =? 200)%Z; cbn; auto.
Qed.

Lemma health_check_is_advisory_witness :
  let porcupine := {| PyAudio.version := "3.0"; PyAudio.sample_rate := 16000;
                      PyAudio.frame_length := 512 |} in
  let s := {| Porcupine.health := Raise (ConnectionError "refused");
              Porcupine.keyboard := Return EmptyString;
              Porcupine.engine := Return porcupine;
              Porcupine.audio := Return "default"%string;
              Porcupine.ticks :=
                [Porcupine.Frame false (-1) 99 (Response 200 "ok");
                 Porcupine.Frame false 0 100 (Response 200 "ok")] |} in
  probed (Porcupine.health s) = true /\
  Porcupine.keyboard s = Return EmptyString /\
  In (Log WarningNotReady) (trace (Porcupine.main scenario_config s initial)) /\
  In (Log SendingAlert) (trace (Porcupine.main scenario_config s initial)) /\
  In (Call (requests_post 3000 "Emergency! Help needed."))
     (trace (Porcupine.main scenario_config s initial)).
Proof.
  intros porcupine s.
  split; [reflexivity|]. split; [reflexivity|].
  destruct (health_check_is_advisory scenario_config s initial EmptyString
              eq_refl eq_refl) as (_ & Hwarn & Hdetect).
  split.
  - apply Hwarn. discriminate.
  - apply (Hdetect porcupine "default"%string
             [Porcupine.Frame false (-1) 99 (Response 200 "ok")]
             false 0%Z 100 (Response 200 "ok") []
             "Emergency! Help needed."%string);
      try reflexivity.
    + repeat constructor.
    + unfold Qle; simpl; lia.
Defined.

(* ================================================================== *)
(** * Invariants of a listening session                                *)
(* ================================================================== *)

(** A relation between the state before, the state after and the events in
    between that holds of no events, composes, and holds of every turn of
    the loop, holds of the loop. *)
Section PorcupineLoop.

Variable config : Config.
Variable R : globals -> globals -> list event -> Prop.
Hypothesis R_nil : forall g, R g g [].
Hypothesis R_app :
  forall g g1 g2 t1 t2, R g g1 t1 -> R g1 g2 t2 -> R g g2 (t1 ++ t2).
Hypothesis R_turn :
  forall t g,
    R g (final (Porcupine.iteration config t g))
        (trace (Porcupine.iteration config t g)).

Lemma Porcupine_listen_invariant (ticks : list Porcupine.tick) :
  forall g : globals,
    R g (final (Porcupine.listen config ticks g))
        (trace (Porcupine.listen config ticks g)).
Proof.
  induction ticks as [|t ticks IH]; intro g; [apply R_nil|].
  cbn [Porcupine.listen]. unfold bind.
  pose proof (R_turn t g) as Ht.
  destruct (Porcupine.iteration config t g) as [[[u| e |] g1] t1];
    unfold final, trace in *; cbn [fst snd] in *; try exact Ht.
  specialize (IH g1).
  destruct (Porcupine.listen config ticks g1) as [[r g2] t2].
  cbn [fst snd] in *. eapply R_app; eassumption.
Qed.

End PorcupineLoop.

Section VoskLoop.

Variable config : Config.
Variable R : globals -> globals -> list event -> Prop.
Hypothesis R_nil : forall g, R g g [].
Hypothesis R_app :
  forall g g1 g2 t1 t2, R g g1 t1 -> R g1 g2 t2 -> R g g2 (t1 ++ t2).
Hypothesis R_turn :
  forall t g,
    R g (final (Vosk.iteration config t g))
        (trace (Vosk.iteration config t g)).

Lemma Vosk_listen_invariant (ticks : list Vosk.tick) :
  forall g : globals,
    R g (final (Vosk.listen config ticks g))
        (trace (Vosk.listen config ticks g)).
Proof.
  induction ticks as [|t ticks IH]; intro g; [apply R_nil|].
  cbn [Vosk.listen]. unfold bind.
  pose proof (R_turn t g) as Ht.
  destruct (Vosk.iteration config t g) as [[[u| e |] g1] t1];
    unfold final, trace in *; cbn [fst snd] in *; try exact Ht.
  specialize (IH g1).
  destruct (Vosk.listen config ticks g1) as [[r g2] t2].
  cbn [fst snd] in *. eapply R_app; eassumption.
Qed.

End VoskLoop.

Ltac account :=
  repeat split; auto;
  try (repeat constructor; fail);
  try (cbn; congruence); try discriminate; try (cbn; lia);
  try (repeat constructor; cbn; auto; fail);
  try (exfalso;
       match goal with H : _ <> _ |- _ => apply H; reflexivity end).

(** What one call of [send_alert] adds to the counts of a session. *)
Lemma Porcupine_alert_accounts
    (config : Config) (now : Q) (post : reply) (g : globals) :
  let run := Porcupine.send_alert config now post g in
  count is_read (trace run) = 0%nat /\
  (count is_post (trace run) <= 1)%nat /\
  (count is_sent_line (trace run) <= count is_post (trace run))%nat /\
  Forall (configured_post config) (trace run) /\
  (alertMessage config = None -> count is_post (trace run) = 0%nat) /\
  (count is_sent_line (trace run) = 0%nat -> final run = g) /\
  (count is_sent_line (trace run) <> 0%nat ->
   final run = {| last_detection_time := now |} /\
   cooldownSeconds config <= now - last_detection_time g).
Proof.
  cbv zeta. rewrite Porcupine_send_alert_eq. cbv zeta.
  destruct (Py.lt _ _) eqn:L; [account|].
  apply lt_false_iff in L.
  destruct (alertMessage config) as [m|] eqn:Hm; [|account].
  destruct post as [status_code text | [e | e |]];
    try destruct (status_code =? 200)%Z; account.
Qed.

Lemma Vosk_alert_accounts
    (config : Config) (now : Q) (post : reply) (g : globals) :
  let run := Vosk.send_alert config now post g in
  count is_read (trace run) = 0%nat /\
  (count is_post (trace run) <= 1)%nat /\
  (count is_sent_line (trace run) <= count is_post (trace run))%nat /\
  Forall (configured_post config) (trace run) /\
  (alertMessage config = None -> count is_post (trace run) = 0%nat) /\
  (count is_sent_line (trace run) = 0%nat -> final run = g) /\
  (count is_sent_line (trace run) <> 0%nat ->
   final run = {| last_detection_time := now |} /\
   cooldownSeconds config <= now - last_detection_time g).
Proof.
  cbv zeta. rewrite Vosk_send_alert_eq. cbv zeta.
  destruct (Py.lt _ _) eqn:L; [account|].
  apply lt_false_iff in L.
  destruct (alertMessage config) as [m|] eqn:Hm; [|account].
  destruct post as [status_code text | [e | e |]];
    try destruct (status_code =? 200)%Z; account.
Qed.

Lemma Vosk_alert_counts
    (config : Config) (now : Q) (post : reply) (g : globals) :
  count is_detection (trace (Vosk.send_alert config now post g)) = 0%nat /\
  count is_alert_entry (trace (Vosk.send_alert config now post g)) = 1%nat.
Proof.
  rewrite Vosk_send_alert_eq. cbv zeta.
  destruct (Py.lt _ _); [split; reflexivity|].
  destruct (alertMessage config); [|split; reflexivity].
  destruct post as [status_code text | [e | e |]];
    try destruct (status_code =? 200)%Z; split; reflexivity.
Qed.

Lemma accounted_nil (config : Config) (g : globals) : accounted config g g [].
Proof.
  unfold accounted. repeat split; auto; try constructor. intros _. apply Qle_refl.
Qed.

Lemma accounted_app (config : Config) (g g1 g2 : globals) (t1 t2 : list event) :
  accounted config g g1 t1 -> accounted config g1 g2 t2 ->
  accounted config g g2 (t1 ++ t2).
Proof.
  unfold accounted.
  intros (A1 & B1 & C1 & D1 & E1 & F1 & G1 & H1)
         (A2 & B2 & C2 & D2 & E2 & F2 & G2 & H2).
  rewrite !count_app. repeat split; try lia.
  - apply Forall_app. auto.
  - intro Hm. specialize (F1 Hm). specialize (F2 Hm). lia.
  - intro Hz. assert (g1 = g) by (apply G1; lia).
    assert (g2 = g1) by (apply G2; lia). congruence.
  - intro Hc. eapply Qle_trans; eauto.
Qed.

Lemma accounted_alert_after_detection
    (config : Config) (g : globals) (run : result bool * globals * list event)
    (before : list event) :
  count is_detection before = 1%nat ->
  count is_alert_entry before = 0%nat ->
  count is_post before = 0%nat ->
  count is_sent_line before = 0%nat ->
  (1 <= count is_read before)%nat ->
  Forall (configured_post config) before ->
  count is_detection (trace run) = 0%nat ->
  count is_alert_entry (trace run) = 1%nat ->
  count is_read (trace run) = 0%nat ->
  (count is_post (trace run) <= 1)%nat ->
  (count is_sent_line (trace run) <= count is_post (trace run))%nat ->
  Forall (configured_post config) (trace run) ->
  (alertMessage config = None -> count is_post (trace run) = 0%nat) ->
  (count is_sent_line (trace run) = 0%nat -> final run = g) ->
  (forall now, count is_sent_line (trace run) <> 0%nat ->
     final run = {| last_detection_time := now |} ->
     cooldownSeconds config <= now - last_detection_time g ->
     0 <= cooldownSeconds config ->
     last_detection_time g <= now) ->
  (count is_sent_line (trace run) <> 0%nat ->
   exists now, final run = {| last_detection_time := now |} /\
               cooldownSeconds config <= now - last_detection_time g) ->
  accounted config g (final run) (before ++ trace run).
Proof.
  intros. unfold accounted. rewrite !count_app.
  repeat split; try lia.
  - apply Forall_app. auto.
  - intro Hm. specialize (H11 Hm). lia.
  - intro Hz. apply H12. lia.
  - intro Hc.
    destruct (Nat.eq_dec (count is_sent_line (trace run)) 0) as [Hz|Hn].
    + rewrite (H12 Hz). apply Qle_refl.
    + destruct (H14 Hn) as (now & -> & Hnow). cbn [last_detection_time]. lra.
Qed.

Lemma Porcupine_turn_accounted
    (config : Config) (t : Porcupine.tick) (g : globals) :
  accounted config g (final (Porcupine.iteration config t g))
            (trace (Porcupine.iteration config t g)).
Proof.
  destruct t as [ov k now post | e].
  - rewrite Porcupine_iteration_eq.
    destruct (k >=? 0)%Z.
    + cbv zeta.
      destruct (Porcupine_alert_counts config now post g) as (Hd & He).
      destruct (Porcupine_alert_accounts config now post g)
        as (Hr & Hp & Hs & Hf & Hm & Hz & Hn).
      change (accounted config g
                (final (Porcupine.send_alert config now post g))
                ([Call stream_read; Log (WakeWordDetected None)] ++
                 trace (Porcupine.send_alert config now post g))).
      apply accounted_alert_after_detection; auto;
        try reflexivity; try (repeat constructor; fail).
      * intros now' _ _ Hc0 Hc. lra.
      * intro Hs0. exists now. apply Hn. exact Hs0.
    + unfold accounted, final, trace. cbn [fst snd].
      repeat split; auto; try (cbn; lia); try (repeat constructor).
      intros _. apply Qle_refl.
  - unfold accounted, final, trace. cbn.
    repeat split; auto; try (cbn; lia); try (repeat constructor).
    intros _. apply Qle_refl.
Qed.

Lemma Vosk_turn_accounted
    (config : Config) (t : Vosk.tick) (g : globals) :
  accounted config g (final (Vosk.iteration config t g))
            (trace (Vosk.iteration config t g)).
Proof.
  assert (Hquiet : forall t0,
    count is_detection t0 = 0%nat -> count is_alert_entry t0 = 0%nat ->
    count is_post t0 = 0%nat -> count is_sent_line t0 = 0%nat ->
    Forall (configured_post config) t0 -> accounted config g g t0).
  { intros t0 H1 H2 H3 H4 H5. unfold accounted.
    rewrite H1, H2, H3, H4. repeat split; auto; try lia.
    intros _. apply Qle_refl. }
  destruct t as [ov heard now post | e].
  - rewrite Vosk_iteration_eq.
    destruct heard as [|result];
      [apply Hquiet; try reflexivity; repeat constructor|].
    cbv zeta.
    destruct (Py.truthy _);
      [|apply Hquiet; try reflexivity; repeat constructor].
    destruct (Vosk.detected_words config _) as [|word rest];
      [apply Hquiet; try reflexivity; repeat constructor|].
    cbv zeta.
    destruct (Vosk_alert_counts config now post g) as (Hd & He).
    destruct (Vosk_alert_accounts config now post g)
      as (Hr & Hp & Hs & Hf & Hm & Hz & Hn).
    match goal with
    | |- accounted _ _ _ (trace (_, _, ?a :: ?b :: ?c :: ?rest)) =>
        change (accounted config g
                  (final (Vosk.send_alert config now post g))
                  ([a; b; c] ++ rest))
    end.
    apply accounted_alert_after_detection; auto;
      try reflexivity; try (repeat constructor; fail).
    + intros now' _ _ Hc0 Hc. lra.
    + intro Hs0. exists now. apply Hn. exact Hs0.
  - apply Hquiet; try reflexivity; repeat constructor.
Qed.

Lemma Porcupine_session_accounted
    (config : Config) (ticks : list Porcupine.tick) (g : globals) :
  accounted config g (final (Porcupine.listen config ticks g))
            (trace (Porcupine.listen config ticks g)).
Proof.
  apply (Porcupine_listen_invariant config (accounted config)).
  - apply accounted_nil.
  - apply accounted_app.
  - apply Porcupine_turn_accounted.
Qed.

Lemma Vosk_session_accounted
    (config : Config) (ticks : list Vosk.tick) (g : globals) :
  accounted config g (final (Vosk.listen config ticks g))
            (trace (Vosk.listen config ticks g)).
Proof.
  apply (Vosk_listen_invariant config (accounted config)).
  - apply accounted_nil.
  - apply accounted_app.
  - apply Vosk_turn_accounted.
Qed.

(* ================================================================== *)
(** * Properties of a listening session                                *)
(* ================================================================== *)

(** X1.  In a listening session of either script every detection calls
    [send_alert] exactly once; an alert is POSTed only after a detection
    and a detection comes only after a frame was read (POSTs <= detections
    <= reads); "Alert sent" is logged only after a POST. *)
Theorem alerts_only_after_detections
    (config : Config) (porcupine_ticks : list Porcupine.tick)
    (vosk_ticks : list Vosk.tick) (g : globals) :
  let p := trace (Porcupine.listen config porcupine_ticks g) in
  let v := trace (Vosk.listen config vosk_ticks g) in
  (count is_alert_entry p = count is_detection p /\
   (count is_post p <= count is_detection p)%nat /\
   (count is_detection p <= count is_read p)%nat /\
   (count is_sent_line p <= count is_post p)%nat) /\
  (count is_alert_entry v = count is_detection v /\
   (count is_post v <= count is_detection v)%nat /\
   (count is_detection v <= count is_read v)%nat /\
   (count is_sent_line v <= count is_post v)%nat).
Proof.
  cbv zeta.
  destruct (Porcupine_session_accounted config porcupine_ticks g)
    as (A & B & C & D & _).
  destruct (Vosk_session_accounted config vosk_ticks g)
    as (A' & B' & C' & D' & _).
  repeat split; assumption.
Qed.

(** X2.  Every POST of a listening session goes to the configured port,
    and to port 3000 when the key [port] is absent, and carries the
    configured alert message.  When the key [alertMessage] is absent from
    the configuration no POST is ever made and the cooldown state never
    changes, whatever is detected. *)
Theorem posts_as_configured
    (config : Config) (porcupine_ticks : list Porcupine.tick)
    (vosk_ticks : list Vosk.tick) (g : globals) :
  let p := Porcupine.listen config porcupine_ticks g in
  let v := Vosk.listen config vosk_ticks g in
  (forall to message,
     In (Call (requests_post to message)) (trace p) \/
     In (Call (requests_post to message)) (trace v) ->
     alertMessage config = Some message /\
     (forall n, port config = Some n -> to = n) /\
     (port config = None -> to = 3000%Z)) /\
  (alertMessage config = None ->
   count is_post (trace p) = 0%nat /\ final p = g /\
   count is_post (trace v) = 0%nat /\ final v = g).
Proof.
  cbv zeta.
  destruct (Porcupine_session_accounted config porcupine_ticks g)
    as (_ & _ & _ & D & E & F & G & _).
  destruct (Vosk_session_accounted config vosk_ticks g)
    as (_ & _ & _ & D' & E' & F' & G' & _).
  split.
  - intros to message H.
    assert (C : configured_post config (Call (requests_post to message))).
    { rewrite Forall_forall in E, E'. destruct H as [H|H]; auto. }
    destruct C as [-> C]. split; [exact C|].
    unfold WHATSAPP_PORT.
    split; [intros n ->; reflexivity|intros ->; reflexivity].
  - intro Hm. specialize (F Hm). specialize (F' Hm).
    repeat split; auto.
    + apply G. lia.
    + apply G'. lia.
Qed.

Lemma posts_as_configured_witness :
  let ticks := [Porcupine.Frame false 0 100 (Response 200 "ok");
                Porcupine.Frame false 0 200 (Response 200 "ok")] in
  (port scenario_config = None /\
   In (Call (requests_post 3000 "Emergency! Help needed."))
      (trace (Porcupine.listen scenario_config ticks initial)) /\
   forall to message,
     In (Call (requests_post to message))
        (trace (Porcupine.listen scenario_config ticks initial)) ->
     to = 3000%Z) /\
  (port config_with_port = Some 8080%Z /\
   In (Call (requests_post 8080 "Emergency! Help needed."))
      (trace (Porcupine.listen config_with_port ticks initial)) /\
   forall to message,
     In (Call (requests_post to message))
        (trace (Porcupine.listen config_with_port ticks initial)) ->
     to = 8080%Z) /\
  (alertMessage config_without_message = None /\
   count is_post
     (trace (Porcupine.listen config_without_message ticks initial)) = 0%nat /\
   final (Porcupine.listen config_without_message ticks initial) = initial /\
   count is_detection
     (trace (Porcupine.listen config_without_message ticks initial)) = 2%nat).
Proof.
  intro ticks. split; [|split].
  - split; [reflexivity|]. split; [cbn; tauto|].
    intros to message H.
    exact (proj2 (proj2 (proj1 (posts_as_configured scenario_config ticks []
                                  initial) to message (or_introl H)))
             eq_refl).
  - split; [reflexivity|]. split; [cbn; tauto|].
    intros to message H.
    exact (proj1 (proj2 (proj1 (posts_as_configured config_with_port ticks []
                                  initial) to message (or_introl H)))
             8080%Z eq_refl).
  - destruct (proj2 (posts_as_configured config_without_message ticks
                       [] initial) eq_refl) as (Hp & Hf & _).
    split; [reflexivity|]. split; [exact Hp|]. split; [exact Hf|].
    reflexivity.
Defined.

(** X3.  During a listening session the cooldown state changes only when
    an alert was sent ("Alert sent" logged); with a cooldown that is not
    negative it never moves backwards, even if the clock does. *)
Theorem cooldown_state_moves_forward
    (config : Config) (porcupine_ticks : list Porcupine.tick)
    (vosk_ticks : list Vosk.tick) (g : globals) :
  let p := Porcupine.listen config porcupine_ticks g in
  let v := Vosk.listen config vosk_ticks g in
  (count is_sent_line (trace p) = 0%nat -> final p = g) /\
  (count is_sent_line (trace v) = 0%nat -> final v = g) /\
  (0 <= cooldownSeconds config ->
   last_detection_time g <= last_detection_time (final p) /\
   last_detection_time g <= last_detection_time (final v)).
Proof.
  cbv zeta.
  destruct (Porcupine_session_accounted config porcupine_ticks g)
    as (_ & _ & _ & _ & _ & _ & G & H).
  destruct (Vosk_session_accounted config vosk_ticks g)
    as (_ & _ & _ & _ & _ & _ & G' & H').
  repeat split; auto.
Qed.

Lemma cooldown_state_moves_forward_witness :
  let ticks := [Porcupine.Frame false 0 100 (Response 200 "ok");
                Porcupine.Frame false 0 50 (Response 200 "ok");
                Porcupine.Frame false 0 90 (Response 500 "busy")] in
  0 <= cooldownSeconds scenario_config /\
  final (Porcupine.listen scenario_config ticks initial) =
    {| last_detection_time := 100 |} /\
  last_detection_time initial <=
    last_detection_time (final (Porcupine.listen scenario_config ticks initial)).
Proof.
  intro ticks.
  assert (H : 0 <= cooldownSeconds scenario_config)
    by (unfold Qle; simpl; lia).
  split; [exact H|]. split; [reflexivity|].
  exact (proj1 (proj2 (proj2 (cooldown_state_moves_forward scenario_config
                                ticks [] initial)) H)).
Defined.

Lemma Porcupine_turn_returns (config : Config) (t : Porcupine.tick) (g : globals) :
  Porcupine_uninterrupted t = true ->
  outcome (Porcupine.iteration config t g) = Return tt.
Proof.
  destruct t as [ov k now post | e]; [|discriminate].
  intro H. rewrite Porcupine_iteration_eq.
  destruct (k >=? 0)%Z; [|reflexivity].
  cbv zeta. unfold outcome at 1. cbn [fst].
  destruct (Porcupine_returns config now post g) as [b Hb].
  - intros ->. discriminate.
  - now rewrite Hb.
Qed.

Lemma Vosk_turn_returns (config : Config) (t : Vosk.tick) (g : globals) :
  Vosk_uninterrupted t = true ->
  outcome (Vosk.iteration config t g) = Return tt.
Proof.
  destruct t as [ov heard now post | e]; [|discriminate].
  intro H. rewrite Vosk_iteration_eq.
  destruct heard as [|result]; [reflexivity|]. cbv zeta.
  destruct (Py.truthy _); [|reflexivity].
  destruct (Vosk.detected_words config _); [reflexivity|].
  cbv zeta. unfold outcome at 1. cbn [fst].
  destruct (Vosk_returns config now post g) as [b Hb].
  - intros ->. discriminate.
  - now rewrite Hb.
Qed.

Lemma Porcupine_turn_raises (config : Config) (t : Porcupine.tick) (g : globals) (e : exn) :
  outcome (Porcupine.iteration config t g) = Raise e ->
  Porcupine_raised t = Some e.
Proof.
  destruct t as [ov k now post | e']; [|cbn; congruence].
  destruct (Porcupine_uninterrupted (Porcupine.Frame ov k now post)) eqn:U.
  - intro H. rewrite (Porcupine_turn_returns config _ g U) in H. discriminate.
  - destruct post as [s b | [x | x |]]; try discriminate.
    rewrite Porcupine_iteration_eq.
    destruct (k >=? 0)%Z; [|discriminate].
    cbv zeta. unfold outcome at 1. cbn [fst].
    rewrite Porcupine_send_alert_eq. cbv zeta.
    destruct (Py.lt _ _); [discriminate|].
    destruct (alertMessage config); [|discriminate].
    cbn. congruence.
Qed.

Lemma Vosk_turn_raises (config : Config) (t : Vosk.tick) (g : globals) (e : exn) :
  outcome (Vosk.iteration config t g) = Raise e ->
  Vosk_raised t = Some e.
Proof.
  destruct t as [ov heard now post | e']; [|cbn; congruence].
  destruct (Vosk_uninterrupted (Vosk.Frame ov heard now post)) eqn:U.
  - intro H. rewrite (Vosk_turn_returns config _ g U) in H. discriminate.
  - destruct post as [s b | [x | x |]]; try discriminate.
    rewrite Vosk_iteration_eq.
    destruct heard as [|result]; [discriminate|]. cbv zeta.
    destruct (Py.truthy _); [|discriminate].
    destruct (Vosk.detected_words config _); [discriminate|].
    cbv zeta. unfold outcome at 1. cbn [fst].
    rewrite Vosk_send_alert_eq. cbv zeta.
    destruct (Py.lt _ _); [discriminate|].
    destruct (alertMessage config); [|discriminate].
    cbn. congruence.
Qed.

Lemma Porcupine_listen_ends (config : Config) (ticks : list Porcupine.tick) :
  forall g : globals,
    match outcome (Porcupine.listen config ticks g) with
    | Return _ => False
    | Raise e => exists t, In t ticks /\ Porcupine_raised t = Some e
    | Blocked => True
    end.
Proof.
  induction ticks as [|t ticks IH]; intro g; [exact I|].
  cbn [Porcupine.listen]. unfold bind.
  pose proof (Porcupine_turn_raises config t g) as Hr.
  destruct (Porcupine.iteration config t g) as [[[u| e |] g1] t1];
    unfold outcome in *; cbn [fst] in *.
  - specialize (IH g1).
    destruct (Porcupine.listen config ticks g1) as [[[u'| e |] g2] t2];
      cbn [fst] in *; auto.
    destruct IH as (t' & Hin & Ht'). exists t'. split; [now right|exact Ht'].
  - exists t. split; [now left|]. now apply Hr.
  - exact I.
Qed.

Lemma Vosk_listen_ends (config : Config) (ticks : list Vosk.tick) :
  forall g : globals,
    match outcome (Vosk.listen config ticks g) with
    | Return _ => False
    | Raise e => exists t, In t ticks /\ Vosk_raised t = Some e
    | Blocked => True
    end.
Proof.
  induction ticks as [|t ticks IH]; intro g; [exact I|].
  cbn [Vosk.listen]. unfold bind.
  pose proof (Vosk_turn_raises config t g) as Hr.
  destruct (Vosk.iteration config t g) as [[[u| e |] g1] t1];
    unfold outcome in *; cbn [fst] in *.
  - specialize (IH g1).
    destruct (Vosk.listen config ticks g1) as [[[u'| e |] g2] t2];
      cbn [fst] in *; auto.
    destruct IH as (t' & Hin & Ht'). exists t'. split; [now right|exact Ht'].
  - exists t. split; [now left|]. now apply Hr.
  - exact I.
Qed.

(** X4.  The loop [while True] of either script never ends by itself: it
    is left only by an exception, raised by reading or processing a frame
    or by Ctrl-C during a POST.  No outcome of an alert (skip, HTTP error,
    connection error, any other [Exception], missing message) stops the
    loop: while no such exception comes the script keeps listening. *)
Theorem loop_ends_only_by_exception
    (config : Config) (porcupine_ticks : list Porcupine.tick)
    (vosk_ticks : list Vosk.tick) (g : globals) :
  let p := outcome (Porcupine.listen config porcupine_ticks g) in
  let v := outcome (Vosk.listen config vosk_ticks g) in
  p <> Return tt /\ v <> Return tt /\
  (forall e, p = Raise e ->
     exists t, In t porcupine_ticks /\ Porcupine_raised t = Some e) /\
  (forall e, v = Raise e ->
     exists t, In t vosk_ticks /\ Vosk_raised t = Some e) /\
  (Forall (fun t => Porcupine_raised t = None) porcupine_ticks -> p = Blocked) /\
  (Forall (fun t => Vosk_raised t = None) vosk_ticks -> v = Blocked).
Proof.
  cbv zeta.
  pose proof (Porcupine_listen_ends config porcupine_ticks g) as P.
  pose proof (Vosk_listen_ends config vosk_ticks g) as V.
  destruct (outcome (Porcupine.listen config porcupine_ticks g)) as [[]| e |];
    destruct (outcome (Vosk.listen config vosk_ticks g)) as [[]| e' |];
    try contradiction;
    repeat split; try discriminate; try (intros x [= <-]; assumption);
    try reflexivity; intro F; rewrite Forall_forall in F; exfalso.
  all: try (destruct P as (t & Hin & Ht); specialize (F t Hin); congruence).
  all: try (destruct V as (t & Hin & Ht); specialize (F t Hin); congruence).
Qed.

Lemma loop_ends_only_by_exception_witness :
  let ticks := [Porcupine.Frame false 0 100 (Response 500 "upstream error");
                Porcupine.Frame false 0 101 (Raises (ConnectionError "refused"));
                Porcupine.Frame false 0 102 (Raises (Exception "timeout"));
                Porcupine.Frame true (-1) 103 (Response 200 "ok")] in
  Forall (fun t => Porcupine_raised t = None) ticks /\
  outcome (Porcupine.listen scenario_config ticks initial) = Blocked.
Proof.
  intro ticks.
  assert (H : Forall (fun t => Porcupine_raised t = None) ticks)
    by (repeat constructor).
  split; [exact H|].
  exact (proj1 (proj2 (proj2 (proj2 (proj2
    (loop_ends_only_by_exception scenario_config ticks [] initial))))) H).
Defined.

(* ================================================================== *)
(** * Shutdown                                                         *)
(* ================================================================== *)

(** [main] of [wake_word_detector.py] from the first turn of the loop on,
    by the way the loop ends. *)
Lemma Porcupine_main_listening
    (config : Config) (s : Porcupine.session) (g : globals)
    (porcupine : PyAudio.engine) (name : string) :
  proceeds (Porcupine.health s) (Porcupine.keyboard s) = true ->
  Porcupine.engine s = Return porcupine ->
  Porcupine.audio s = Return name ->
  let loop := Porcupine.listen config (Porcupine.ticks s) g in
  let before :=
    Porcupine_startup config (Porcupine.health s) ++
    Porcupine_banner config porcupine name in
  Porcupine.main config s g =
  match outcome loop with
  | Raise KeyboardInterrupt =>
      (Return tt, final loop,
       before ++ trace loop ++ Log Stopping :: Porcupine_released)
  | Raise e => (Raise e, final loop, before ++ trace loop ++ Porcupine_released)
  | Return _ => (Return tt, final loop, before ++ trace loop ++ Porcupine_released)
  | Blocked => (Blocked, final loop, before ++ trace loop)
  end.
Proof.
  intros Hp E A. cbv zeta.
  rewrite (Porcupine_main_proceeds config s g Hp).
  unfold Porcupine.initialize_and_listen, Porcupine.open_and_listen.
  rewrite E, A.
  cbv [bind try_except try_finally external log ret Porcupine.cleanup].
  destruct (Porcupine.listen config (Porcupine.ticks s) g)
    as [[[[]| [e|e|] |] g'] t];
    unfold preceded_by, outcome, final, trace, Porcupine_banner,
      Porcupine_released;
    cbn [fst snd Porcupine.SENSITIVITY Porcupine.COOLDOWN_SECONDS
         Porcupine.DEVICE_INDEX];
    f_equal; rewrite <- ?app_assoc; cbn [app]; rewrite ?app_nil_r;
    reflexivity.
Qed.

Lemma Vosk_main_listening
    (config : Config) (s : Vosk.session) (g : globals) (name : string) :
  proceeds (Vosk.health s) (Vosk.keyboard s) = true ->
  Vosk.engine s = Return tt ->
  Vosk.audio s = Return name ->
  let loop := Vosk.listen config (Vosk.ticks s) g in
  let before := Vosk_startup config (Vosk.health s) ++ Vosk_banner config name in
  Vosk.main config s g =
  match outcome loop with
  | Raise KeyboardInterrupt =>
      (Return tt, final loop,
       before ++ trace loop ++ Log Stopping :: Vosk_released)
  | Raise e => (Raise e, final loop, before ++ trace loop ++ Vosk_released)
  | Return _ => (Return tt, final loop, before ++ trace loop ++ Vosk_released)
  | Blocked => (Blocked, final loop, before ++ trace loop)
  end.
Proof.
  intros Hp E A. cbv zeta.
  rewrite (Vosk_main_proceeds config s g Hp).
  unfold Vosk.initialize_and_listen, Vosk.open_and_listen.
  rewrite E, A.
  cbv [bind try_except try_finally external log ret Vosk.cleanup].
  destruct (Vosk.listen config (Vosk.ticks s) g)
    as [[[[]| [e|e|] |] g'] t];
    unfold preceded_by, outcome, final, trace, Vosk_banner, Vosk_released;
    cbn [fst snd Vosk.COOLDOWN_SECONDS Vosk.DEVICE_INDEX];
    f_equal; rewrite <- ?app_assoc; cbn [app]; rewrite ?app_nil_r;
    reflexivity.
Qed.

Lemma Porcupine_alert_loop_events
    (config : Config) (now : Q) (post : reply) (g : globals) :
  forallb loop_event (trace (Porcupine.send_alert config now post g)) = true.
Proof.
  rewrite Porcupine_send_alert_eq. cbv zeta.
  destruct (Py.lt _ _); [reflexivity|].
  destruct (alertMessage config); [|reflexivity].
  destruct post as [status_code text | [e | e |]];
    try destruct (status_code =? 200)%Z; reflexivity.
Qed.

Lemma Vosk_alert_loop_events
    (config : Config) (now : Q) (post : reply) (g : globals) :
  forallb loop_event (trace (Vosk.send_alert config now post g)) = true.
Proof.
  rewrite Vosk_send_alert_eq. cbv zeta.
  destruct (Py.lt _ _); [reflexivity|].
  destruct (alertMessage config); [|reflexivity].
  destruct post as [status_code text | [e | e |]];
    try destruct (status_code =? 200)%Z; reflexivity.
Qed.

Lemma Porcupine_session_loop_events
    (config : Config) (ticks : list Porcupine.tick) (g : globals) :
  forallb loop_event (trace (Porcupine.listen config ticks g)) = true.
Proof.
  apply (Porcupine_listen_invariant config
           (fun _ _ t => forallb loop_event t = true)).
  - reflexivity.
  - intros ? ? ? t1 t2 H1 H2. rewrite forallb_app, H1, H2. reflexivity.
  - intros [ov k now post | e] g0; [|reflexivity].
    rewrite Porcupine_iteration_eq.
    destruct (k >=? 0)%Z; [|reflexivity].
    cbv zeta. unfold trace at 1. cbn [snd forallb loop_event andb].
    apply Porcupine_alert_loop_events.
Qed.

Lemma Vosk_session_loop_events
    (config : Config) (ticks : list Vosk.tick) (g : globals) :
  forallb loop_event (trace (Vosk.listen config ticks g)) = true.
Proof.
  apply (Vosk_listen_invariant config
           (fun _ _ t => forallb loop_event t = true)).
  - reflexivity.
  - intros ? ? ? t1 t2 H1 H2. rewrite forallb_app, H1, H2. reflexivity.
  - intros [ov heard now post | e] g0; [|reflexivity].
    rewrite Vosk_iteration_eq.
    destruct heard as [|result]; [reflexivity|]. cbv zeta.
    destruct (Py.truthy _); [|reflexivity].
    destruct (Vosk.detected_words config _); [reflexivity|].
    cbv zeta. unfold trace at 1. cbn [snd forallb loop_event andb].
    apply Vosk_alert_loop_events.
Qed.

(** A predicate that no event of the loop satisfies counts nothing in a
    stretch of the loop. *)
Lemma count_outside_loop (p : event -> bool) (t : list event) :
  (forall e, loop_event e = true -> p e = false) ->
  forallb loop_event t = true -> count p t = 0%nat.
Proof.
  intros Hp. unfold count.
  induction t as [|e t IH]; [reflexivity|].
  cbn [forallb filter]. rewrite andb_true_iff. intros [He Ht].
  rewrite (Hp e He). auto.
Qed.

(** X5.  Ctrl-C while either script listens (during a read, the
    processing of a frame or a POST) ends it in good order: "Stopping" is
    logged, the stream is stopped and closed, PyAudio terminated (and
    Porcupine deleted), in this order, as the last thing [main] does;
    [main] returns, the exit status is 0, and the cooldown state is the
    one the loop left. *)
Theorem ctrl_c_shuts_down_cleanly
    (config : Config) (ps : Porcupine.session) (vs : Vosk.session)
    (g : globals) (porcupine : PyAudio.engine) (pname vname : string) :
  (proceeds (Porcupine.health ps) (Porcupine.keyboard ps) = true ->
   Porcupine.engine ps = Return porcupine ->
   Porcupine.audio ps = Return pname ->
   let loop := Porcupine.listen config (Porcupine.ticks ps) g in
   outcome loop = Raise KeyboardInterrupt ->
   Porcupine.main config ps g =
     (Return tt, final loop,
      (Porcupine_startup config (Porcupine.health ps) ++
       Porcupine_banner config porcupine pname) ++
      trace loop ++
      [Log Stopping; Log CleaningUp; Call stream_stop; Call stream_close;
       Call pa_terminate; Call porcupine_delete; Log ShutdownComplete]) /\
   exit_status (outcome (Porcupine.main config ps g)) = Some 0%Z) /\
  (proceeds (Vosk.health vs) (Vosk.keyboard vs) = true ->
   Vosk.engine vs = Return tt ->
   Vosk.audio vs = Return vname ->
   let loop := Vosk.listen config (Vosk.ticks vs) g in
   outcome loop = Raise KeyboardInterrupt ->
   Vosk.main config vs g =
     (Return tt, final loop,
      (Vosk_startup config (Vosk.health vs) ++ Vosk_banner config vname) ++
      trace loop ++
      [Log Stopping; Log CleaningUp; Call stream_stop; Call stream_close;
       Call pa_terminate; Log ShutdownComplete]) /\
   exit_status (outcome (Vosk.main config vs g)) = Some 0%Z).
Proof.
  split; intros Hp E A loop Hl.
  - rewrite (Porcupine_main_listening config ps g porcupine pname Hp E A).
    cbv zeta. fold loop. rewrite Hl. split; reflexivity.
  - rewrite (Vosk_main_listening config vs g vname Hp E A).
    cbv zeta. fold loop. rewrite Hl. split; reflexivity.
Qed.

Lemma ctrl_c_shuts_down_cleanly_witness :
  let porcupine := {| PyAudio.version := "3.0"; PyAudio.sample_rate := 16000;
                      PyAudio.frame_length := 512 |} in
  let ps := {| Porcupine.health := Return true;
               Porcupine.keyboard := Return EmptyString;
               Porcupine.engine := Return porcupine;
               Porcupine.audio := Return "default"%string;
               Porcupine.ticks :=
                 [Porcupine.Frame false 0 100 (Response 200 "ok");
                  Porcupine.Fault KeyboardInterrupt] |} in
  outcome (Porcupine.listen scenario_config (Porcupine.ticks ps) initial) =
    Raise KeyboardInterrupt /\
  outcome (Porcupine.main scenario_config ps initial) = Return tt /\
  final (Porcupine.main scenario_config ps initial) =
    {| last_detection_time := 100 |} /\
  exit_status (outcome (Porcupine.main scenario_config ps initial)) = Some 0%Z.
Proof.
  intros porcupine ps.
  pose (vs := {| Vosk.health := Return true;
                 Vosk.keyboard := Return EmptyString;
                 Vosk.engine := Return tt;
                 Vosk.audio := Return "default"%string;
                 Vosk.ticks := [] |}).
  destruct (proj1 (ctrl_c_shuts_down_cleanly scenario_config ps vs initial
                     porcupine "default" "default")
              eq_refl eq_refl eq_refl eq_refl) as [Hm Hx].
  split; [reflexivity|]. rewrite Hm. split; [reflexivity|].
  split; [reflexivity|]. rewrite Hm in Hx. exact Hx.
Defined.

(** X6.  An exception other than Ctrl-C that leaves the loop (a device
    error while reading, an error of the engine) is not handled: the
    [finally] clause still releases the stream, PyAudio (and Porcupine), no
    "Stopping" line is logged, and the exception leaves [main], so the
    script ends with a non-zero exit status. *)
Theorem loop_error_releases_then_propagates
    (config : Config) (ps : Porcupine.session) (vs : Vosk.session)
    (g : globals) (porcupine : PyAudio.engine) (pname vname : string)
    (e : exn) :
  is_Exception e = true ->
  (proceeds (Porcupine.health ps) (Porcupine.keyboard ps) = true ->
   Porcupine.engine ps = Return porcupine ->
   Porcupine.audio ps = Return pname ->
   let loop := Porcupine.listen config (Porcupine.ticks ps) g in
   outcome loop = Raise e ->
   Porcupine.main config ps g =
     (Raise e, final loop,
      (Porcupine_startup config (Porcupine.health ps) ++
       Porcupine_banner config porcupine pname) ++
      trace loop ++
      [Log CleaningUp; Call stream_stop; Call stream_close;
       Call pa_terminate; Call porcupine_delete; Log ShutdownComplete]) /\
   count is_stopping (trace (Porcupine.main config ps g)) = 0%nat /\
   exit_status (outcome (Porcupine.main config ps g)) = Some 1%Z) /\
  (proceeds (Vosk.health vs) (Vosk.keyboard vs) = true ->
   Vosk.engine vs = Return tt ->
   Vosk.audio vs = Return vname ->
   let loop := Vosk.listen config (Vosk.ticks vs) g in
   outcome loop = Raise e ->
   Vosk.main config vs g =
     (Raise e, final loop,
      (Vosk_startup config (Vosk.health vs) ++ Vosk_banner config vname) ++
      trace loop ++
      [Log CleaningUp; Call stream_stop; Call stream_close;
       Call pa_terminate; Log ShutdownComplete]) /\
   count is_stopping (trace (Vosk.main config vs g)) = 0%nat /\
   exit_status (outcome (Vosk.main config vs g)) = Some 1%Z).
Proof.
  intro He.
  assert (Hstop : forall x, loop_event x = true -> is_stopping x = false).
  { intros [[]|[]]; try discriminate; reflexivity. }
  split; intros Hp E A loop Hl.
  - rewrite (Porcupine_main_listening config ps g porcupine pname Hp E A).
    cbv zeta. fold loop. rewrite Hl.
    destruct e as [x|x|]; try discriminate;
      (split; [reflexivity|]; split; [|reflexivity];
       unfold trace; cbn [snd]; rewrite !count_app;
       rewrite (count_outside_loop is_stopping (snd loop) Hstop
                  (Porcupine_session_loop_events config _ g));
       destruct (Porcupine.health ps) as [[|]|[y|y|]|]; reflexivity).
  - rewrite (Vosk_main_listening config vs g vname Hp E A).
    cbv zeta. fold loop. rewrite Hl.
    destruct e as [x|x|]; try discriminate;
      (split; [reflexivity|]; split; [|reflexivity];
       unfold trace; cbn [snd]; rewrite !count_app;
       rewrite (count_outside_loop is_stopping (snd loop) Hstop
                  (Vosk_session_loop_events config _ g));
       destruct (Vosk.health vs) as [[|]|[y|y|]|]; reflexivity).
Qed.

Lemma loop_error_releases_then_propagates_witness :
  let vs := {| Vosk.health := Return true;
               Vosk.keyboard := Return EmptyString;
               Vosk.engine := Return tt;
               Vosk.audio := Return "default"%string;
               Vosk.ticks :=
                 [Vosk.Frame false Vosk.Partial 100 (Response 200 "ok");
                  Vosk.Fault (Exception "[Errno -9988] Stream closed")] |} in
  is_Exception (Exception "[Errno -9988] Stream closed") = true /\
  outcome (Vosk.listen scenario_config (Vosk.ticks vs) initial) =
    Raise (Exception "[Errno -9988] Stream closed") /\
  outcome (Vosk.main scenario_config vs initial) =
    Raise (Exception "[Errno -9988] Stream closed") /\
  exit_status (outcome (Vosk.main scenario_config vs initial)) = Some 1%Z.
Proof.
  intro vs.
  pose (ps := {| Porcupine.health := Return true;
                 Porcupine.keyboard := Return EmptyString;
                 Porcupine.engine := Raise KeyboardInterrupt;
                 Porcupine.audio := Return "default"%string;
                 Porcupine.ticks := [] |}).
  destruct (proj2 (loop_error_releases_then_propagates scenario_config ps vs
                     initial
                     {| PyAudio.version := "3.0"; PyAudio.sample_rate := 16000;
                        PyAudio.frame_length := 512 |}
                     "default" "default"
                     (Exception "[Errno -9988] Stream closed") eq_refl)
              eq_refl eq_refl eq_refl eq_refl) as (Hm & _ & Hx).
  split; [reflexivity|]. split; [reflexivity|].
  rewrite Hm. split; [reflexivity|]. rewrite Hm in Hx. exact Hx.
Defined.

(* ================================================================== *)
(** * The prompt and the release of resources                          *)
(* ================================================================== *)

(** [main] when the health check is not passed, by the answer to the
    prompt. *)
Lemma Porcupine_main_prompt (config : Config) (s : Porcupine.session) (g : globals) :
  probed (Porcupine.health s) = true -> Porcupine.health s <> Return true ->
  Porcupine.main config s g =
  match Porcupine.keyboard s with
  | Return _ =>
      preceded_by (Porcupine_startup config (Porcupine.health s))
                  (Porcupine.initialize_and_listen config s g)
  | Raise KeyboardInterrupt =>
      (Return tt, g, Porcupine_startup config (Porcupine.health s) ++ [Log Exiting])
  | Raise e => (Raise e, g, Porcupine_startup config (Porcupine.health s))
  | Blocked => (Blocked, g, Porcupine_startup config (Porcupine.health s))
  end.
Proof.
  intros Hp Hn.
  destruct (Porcupine.keyboard s) as [line|e|] eqn:K.
  - apply Porcupine_main_proceeds. unfold proceeds, probed in *. rewrite K.
    destruct (Porcupine.health s) as [[|]|[x|x|]|]; auto.
  - unfold Porcupine.main, Porcupine.listing, Porcupine.test_whatsapp_service, Porcupine_startup,
      probed in *.
    rewrite K.
    destruct (Porcupine.health s) as [[|]|[x|x|]|]; try discriminate;
      try congruence; destruct e as [y|y|]; reflexivity.
  - unfold Porcupine.main, Porcupine.listing, Porcupine.test_whatsapp_service, Porcupine_startup,
      probed in *.
    rewrite K.
    destruct (Porcupine.health s) as [[|]|[x|x|]|]; try discriminate;
      try congruence; reflexivity.
Qed.

Lemma Vosk_main_prompt (config : Config) (s : Vosk.session) (g : globals) :
  probed (Vosk.health s) = true -> Vosk.health s <> Return true ->
  Vosk.main config s g =
  match Vosk.keyboard s with
  | Return _ =>
      preceded_by (Vosk_startup config (Vosk.health s))
                  (Vosk.initialize_and_listen config s g)
  | Raise KeyboardInterrupt =>
      (Return tt, g, Vosk_startup config (Vosk.health s) ++ [Log Exiting])
  | Raise e => (Raise e, g, Vosk_startup config (Vosk.health s))
  | Blocked => (Blocked, g, Vosk_startup config (Vosk.health s))
  end.
Proof.
  intros Hp Hn.
  destruct (Vosk.keyboard s) as [line|e|] eqn:K.
  - apply Vosk_main_proceeds. unfold proceeds, probed in *. rewrite K.
    destruct (Vosk.health s) as [[|]|[x|x|]|]; auto.
  - unfold Vosk.main, Vosk.listing, Vosk.test_whatsapp_service, Vosk_startup, probed in *.
    rewrite K.
    destruct (Vosk.health s) as [[|]|[x|x|]|]; try discriminate;
      try congruence; destruct e as [y|y|]; reflexivity.
  - unfold Vosk.main, Vosk.listing, Vosk.test_whatsapp_service, Vosk_startup, probed in *.
    rewrite K.
    destruct (Vosk.health s) as [[|]|[x|x|]|]; try discriminate;
      try congruence; reflexivity.
Qed.

(** From the initialisation of the engine on, [main] never reads the
    keyboard. *)
Lemma Porcupine_initialize_no_input
    (config : Config) (s : Porcupine.session) (g : globals) :
  count is_input (trace (Porcupine.initialize_and_listen config s g)) = 0%nat.
Proof.
  assert (Hin : forall x, loop_event x = true -> is_input x = false).
  { intros [[]|[]]; try discriminate; reflexivity. }
  pose proof (count_outside_loop is_input _ Hin
                (Porcupine_session_loop_events config (Porcupine.ticks s) g))
    as Hl.
  unfold Porcupine.initialize_and_listen, Porcupine.open_and_listen.
  destruct (Porcupine.engine s) as [p|[x|x|]|]; try reflexivity.
  destruct (Porcupine.audio s) as [name|[x|x|]|]; try reflexivity.
  cbv [bind try_except try_finally external log ret Porcupine.cleanup].
  destruct (Porcupine.listen config (Porcupine.ticks s) g)
    as [[[[]| [e|e|] |] g'] t];
    unfold trace in *; cbn [snd] in *;
    repeat (rewrite ?count_app; cbn [app]);
    unfold count in *; cbn [filter is_input List.length] in *;
    rewrite ?filter_app, ?length_app, ?Hl; reflexivity.
Qed.

Lemma Vosk_initialize_no_input
    (config : Config) (s : Vosk.session) (g : globals) :
  count is_input (trace (Vosk.initialize_and_listen config s g)) = 0%nat.
Proof.
  assert (Hin : forall x, loop_event x = true -> is_input x = false).
  { intros [[]|[]]; try discriminate; reflexivity. }
  pose proof (count_outside_loop is_input _ Hin
                (Vosk_session_loop_events config (Vosk.ticks s) g))
    as Hl.
  unfold Vosk.initialize_and_listen, Vosk.open_and_listen.
  destruct (Vosk.engine s) as [p|[x|x|]|]; try reflexivity.
  destruct (Vosk.audio s) as [name|[x|x|]|]; try reflexivity.
  cbv [bind try_except try_finally external log ret Vosk.cleanup].
  destruct (Vosk.listen config (Vosk.ticks s) g)
    as [[[[]| [e|e|] |] g'] t];
    unfold trace in *; cbn [snd] in *;
    repeat (rewrite ?count_app; cbn [app]);
    unfold count in *; cbn [filter is_input List.length] in *;
    rewrite ?filter_app, ?length_app, ?Hl; reflexivity.
Qed.

Lemma Porcupine_startup_inputs (config : Config) (health : result bool) :
  probed health = true ->
  count is_input (Porcupine_startup config health) =
  match health with Return true => 0%nat | _ => 1%nat end.
Proof. destruct health as [[|]|[x|x|]|]; try discriminate; reflexivity. Qed.

Lemma Vosk_startup_inputs (config : Config) (health : result bool) :
  probed health = true ->
  count is_input (Vosk_startup config health) =
  match health with Return true => 0%nat | _ => 1%nat end.
Proof. destruct health as [[|]|[x|x|]|]; try discriminate; reflexivity. Qed.

(** X7.  The operator is prompted exactly when the health check is not
    passed: [input()] is called once if the probe did not find the service
    ready and never if it did.  Ctrl-C at the prompt makes [main] log
    "Exiting" and return before the engine is created or any device
    opened; any other exception of [input()] (end of input when there is no
    terminal) is not handled and leaves [main]. *)
Theorem prompt_only_when_not_ready
    (config : Config) (ps : Porcupine.session) (vs : Vosk.session) (g : globals) :
  (Porcupine.health ps = Return true ->
   count is_input (trace (Porcupine.main config ps g)) = 0%nat) /\
  (Vosk.health vs = Return true ->
   count is_input (trace (Vosk.main config vs g)) = 0%nat) /\
  (probed (Porcupine.health ps) = true -> Porcupine.health ps <> Return true ->
   count is_input (trace (Porcupine.main config ps g)) = 1%nat /\
   (Porcupine.keyboard ps = Raise KeyboardInterrupt ->
    Porcupine.main config ps g =
      (Return tt, g,
       Porcupine_startup config (Porcupine.health ps) ++ [Log Exiting])) /\
   (forall e, is_Exception e = true -> Porcupine.keyboard ps = Raise e ->
    Porcupine.main config ps g =
      (Raise e, g, Porcupine_startup config (Porcupine.health ps)))) /\
  (probed (Vosk.health vs) = true -> Vosk.health vs <> Return true ->
   count is_input (trace (Vosk.main config vs g)) = 1%nat /\
   (Vosk.keyboard vs = Raise KeyboardInterrupt ->
    Vosk.main config vs g =
      (Return tt, g, Vosk_startup config (Vosk.health vs) ++ [Log Exiting])) /\
   (forall e, is_Exception e = true -> Vosk.keyboard vs = Raise e ->
    Vosk.main config vs g =
      (Raise e, g, Vosk_startup config (Vosk.health vs)))).
Proof.
  split; [|split; [|split]].
  - intro H.
    rewrite (Porcupine_main_proceeds config ps g)
      by (unfold proceeds; now rewrite H).
    unfold preceded_by, trace at 1. cbn [snd].
    rewrite count_app, Porcupine_initialize_no_input, H. reflexivity.
  - intro H.
    rewrite (Vosk_main_proceeds config vs g)
      by (unfold proceeds; now rewrite H).
    unfold preceded_by, trace at 1. cbn [snd].
    rewrite count_app, Vosk_initialize_no_input, H. reflexivity.
  - intros Hp Hn.
    pose proof (Porcupine_main_prompt config ps g Hp Hn) as M.
    pose proof (Porcupine_startup_inputs config _ Hp) as I.
    assert (I1 : count is_input
                   (Porcupine_startup config (Porcupine.health ps)) = 1%nat).
    { rewrite I. destruct (Porcupine.health ps) as [[|]|[x|x|]|];
        congruence. }
    split; [|split].
    + rewrite M. destruct (Porcupine.keyboard ps) as [line|[x|x|]|];
        unfold preceded_by, trace at 1; cbn [snd];
        rewrite ?count_app, ?Porcupine_initialize_no_input, I1; reflexivity.
    + intro K. now rewrite M, K.
    + intros e He K. rewrite M, K. destruct e; try discriminate; reflexivity.
  - intros Hp Hn.
    pose proof (Vosk_main_prompt config vs g Hp Hn) as M.
    pose proof (Vosk_startup_inputs config _ Hp) as I.
    assert (I1 : count is_input
                   (Vosk_startup config (Vosk.health vs)) = 1%nat).
    { rewrite I. destruct (Vosk.health vs) as [[|]|[x|x|]|]; congruence. }
    split; [|split].
    + rewrite M. destruct (Vosk.keyboard vs) as [line|[x|x|]|];
        unfold preceded_by, trace at 1; cbn [snd];
        rewrite ?count_app, ?Vosk_initialize_no_input, I1; reflexivity.
    + intro K. now rewrite M, K.
    + intros e He K. rewrite M, K. destruct e; try discriminate; reflexivity.
Qed.

Lemma prompt_only_when_not_ready_witness :
  let ps := {| Porcupine.health := Return false;
               Porcupine.keyboard := Raise KeyboardInterrupt;
               Porcupine.engine :=
                 Return {| PyAudio.version := "3.0"; PyAudio.sample_rate := 16000;
                           PyAudio.frame_length := 512 |};
               Porcupine.audio := Return "default"%string;
               Porcupine.ticks :=
                 [Porcupine.Frame false 0 100 (Response 200 "ok")] |} in
  let vs := {| Vosk.health := Return true;
               Vosk.keyboard := Raise (Exception "EOF when reading a line");
               Vosk.engine := Return tt;
               Vosk.audio := Return "default"%string;
               Vosk.ticks := [] |} in
  probed (Porcupine.health ps) = true /\
  Porcupine.main scenario_config ps initial =
    (Return tt, initial,
     [Call pa_terminate;
      Log CheckingService; Call (requests_get 3000); Log ServiceNotConnected;
      Log ScanQRCode; Log WarningNotReady; Log PressCtrlC; Call input;
      Log Exiting]) /\
  count is_input (trace (Vosk.main scenario_config vs initial)) = 0%nat.
Proof.
  intros ps vs.
  destruct (prompt_only_when_not_ready scenario_config ps vs initial)
    as (_ & Hv & Hp & _).
  split; [reflexivity|]. split.
  - assert (Hn : Porcupine.health ps <> Return true) by discriminate.
    exact (proj1 (proj2 (Hp eq_refl Hn)) eq_refl).
  - exact (Hv eq_refl).
Defined.

Lemma releases_app (t t' : list event) :
  releases (t ++ t') = plus4 (releases t) (releases t').
Proof. unfold releases, plus4. now rewrite !count_app. Qed.

Lemma releases_outside_loop (t : list event) :
  forallb loop_event t = true -> releases t = (0, 0, 0, 0)%nat.
Proof.
  intro H. unfold releases.
  rewrite !(fun c Hc => count_outside_loop (is_release c) t Hc H);
    try reflexivity;
    intros [[]|[]]; try discriminate; reflexivity.
Qed.

Lemma Porcupine_startup_releases (config : Config) (health : result bool) :
  releases (Porcupine_startup config health) = (0, 0, 1, 0)%nat.
Proof. destruct health as [[|]|[x|x|]|]; reflexivity. Qed.

Lemma Vosk_startup_releases (config : Config) (health : result bool) :
  releases (Vosk_startup config health) = (0, 0, 1, 0)%nat.
Proof. destruct health as [[|]|[x|x|]|]; reflexivity. Qed.

Lemma bind_external_head {A B} (c : call) (a : A) (k : A -> M B) (g : globals) :
  hd_error (trace (bind (external c (Return a)) k g)) = Some (Call c).
Proof.
  unfold bind, external, trace. now destruct (k a g) as [[r g'] t].
Qed.

(** X8.  [main] releases what it acquired, once.  PyAudio is instantiated
    twice in a run that gets to the audio stream: by the device listing,
    which terminates its instance before the health check, and by [main]
    itself.  When [main] ends after the audio stream was opened, by Ctrl-C
    or by an error, the stream has been stopped once and closed once,
    [pa.terminate()] called twice in all (once for each instance) and (in
    [wake_word_detector.py]) Porcupine deleted once.  When opening the
    stream fails with an [Exception], [pa.terminate()] has been called
    twice as well (and Porcupine deleted once) and the stream, which does
    not exist, is left alone.  Ctrl-C while the stream is being opened is
    not caught: the only release is the one of the device listing, and
    the instance of [main] (and Porcupine) is left as it is. *)
Theorem resources_released_once
    (config : Config) (ps : Porcupine.session) (vs : Vosk.session)
    (g : globals) (porcupine : PyAudio.engine) :
  (proceeds (Porcupine.health ps) (Porcupine.keyboard ps) = true ->
   Porcupine.engine ps = Return porcupine ->
   outcome (Porcupine.main config ps g) <> Blocked ->
   match Porcupine.audio ps with
   | Return _ =>
       releases (trace (Porcupine.main config ps g)) = (1, 1, 2, 1)%nat
   | Raise e =>
       releases (trace (Porcupine.main config ps g)) =
       if is_Exception e then (0, 0, 2, 1)%nat else (0, 0, 1, 0)%nat
   | Blocked => False
   end) /\
  (proceeds (Vosk.health vs) (Vosk.keyboard vs) = true ->
   Vosk.engine vs = Return tt ->
   outcome (Vosk.main config vs g) <> Blocked ->
   match Vosk.audio vs with
   | Return _ => releases (trace (Vosk.main config vs g)) = (1, 1, 2, 0)%nat
   | Raise e =>
       releases (trace (Vosk.main config vs g)) =
       if is_Exception e then (0, 0, 2, 0)%nat else (0, 0, 1, 0)%nat
   | Blocked => False
   end) /\
  hd_error (trace (Porcupine.main config ps g)) = Some (Call pa_terminate) /\
  hd_error (trace (Vosk.main config vs g)) = Some (Call pa_terminate).
Proof.
  split; [|split; [|split]]; [intros Hp E Hend|intros Hp E Hend| |].
  3:{ unfold Porcupine.main, Porcupine.listing.
      apply (bind_external_head pa_terminate tt). }
  3:{ unfold Vosk.main, Vosk.listing.
      apply (bind_external_head pa_terminate tt). }
  - destruct (Porcupine.audio ps) as [name|e|] eqn:A.
    + rewrite (Porcupine_main_listening config ps g porcupine name Hp E A)
        in *.
      cbv zeta in *.
      pose proof (releases_outside_loop _
                    (Porcupine_session_loop_events config
                       (Porcupine.ticks ps) g)) as Hl.
      pose proof (Porcupine_listen_ends config (Porcupine.ticks ps) g) as He.
      destruct (outcome (Porcupine.listen config (Porcupine.ticks ps) g))
        as [u|[x|x|]|]; try contradiction;
        try (exfalso; apply Hend; reflexivity);
        unfold trace at 1; cbn [snd];
        rewrite !releases_app, Hl, Porcupine_startup_releases; reflexivity.
    + rewrite (Porcupine_main_proceeds config ps g Hp) in *.
      unfold Porcupine.initialize_and_listen, Porcupine.open_and_listen in *.
      rewrite E, A in *.
      unfold preceded_by, trace at 1. cbn [snd].
      rewrite releases_app, Porcupine_startup_releases.
      destruct e as [x|x|]; reflexivity.
    + apply Hend.
      rewrite (Porcupine_main_proceeds config ps g Hp).
      unfold Porcupine.initialize_and_listen, Porcupine.open_and_listen.
      rewrite E, A. reflexivity.
  - destruct (Vosk.audio vs) as [name|e|] eqn:A.
    + rewrite (Vosk_main_listening config vs g name Hp E A) in *.
      cbv zeta in *.
      pose proof (releases_outside_loop _
                    (Vosk_session_loop_events config (Vosk.ticks vs) g)) as Hl.
      pose proof (Vosk_listen_ends config (Vosk.ticks vs) g) as He.
      destruct (outcome (Vosk.listen config (Vosk.ticks vs) g))
        as [u|[x|x|]|]; try contradiction;
        try (exfalso; apply Hend; reflexivity);
        unfold trace at 1; cbn [snd];
        rewrite !releases_app, Hl, Vosk_startup_releases; reflexivity.
    + rewrite (Vosk_main_proceeds config vs g Hp) in *.
      unfold Vosk.initialize_and_listen, Vosk.open_and_listen in *.
      rewrite E, A in *.
      unfold preceded_by, trace at 1. cbn [snd].
      rewrite releases_app, Vosk_startup_releases.
      destruct e as [x|x|]; reflexivity.
    + apply Hend.
      rewrite (Vosk_main_proceeds config vs g Hp).
      unfold Vosk.initialize_and_listen, Vosk.open_and_listen.
      rewrite E, A. reflexivity.
Qed.

Lemma resources_released_once_witness :
  let porcupine := {| PyAudio.version := "3.0"; PyAudio.sample_rate := 16000;
                      PyAudio.frame_length := 512 |} in
  let ps := {| Porcupine.health := Return true;
               Porcupine.keyboard := Return EmptyString;
               Porcupine.engine := Return porcupine;
               Porcupine.audio := Return "default"%string;
               Porcupine.ticks :=
                 [Porcupine.Frame false 0 100 (Response 200 "ok");
                  Porcupine.Fault (Exception "[Errno -9988] Stream closed")] |} in
  let vs := {| Vosk.health := Return true;
               Vosk.keyboard := Return EmptyString;
               Vosk.engine := Return tt;
               Vosk.audio := Raise (Exception "[Errno -9996] Invalid input device");
               Vosk.ticks := [] |} in
  outcome (Porcupine.main scenario_config ps initial) <> Blocked /\
  releases (trace (Porcupine.main scenario_config ps initial)) = (1, 1, 2, 1)%nat /\
  outcome (Vosk.main scenario_config vs initial) <> Blocked /\
  releases (trace (Vosk.main scenario_config vs initial)) = (0, 0, 2, 0)%nat.
Proof.
  intros porcupine ps vs.
  destruct (resources_released_once scenario_config ps vs initial porcupine)
    as (HP & HV & _).
  assert (Ep : outcome (Porcupine.main scenario_config ps initial) <> Blocked)
    by discriminate.
  assert (Ev : outcome (Vosk.main scenario_config vs initial) <> Blocked)
    by discriminate.
  split; [exact Ep|]. split; [exact (HP eq_refl eq_refl Ep)|].
  split; [exact Ev|]. exact (HV eq_refl eq_refl Ev).
Defined.

(* ================================================================== *)
(** * The health probe, and the two scripts side by side               *)
(* ================================================================== *)

(** X9.  [test_whatsapp_service] answers [True] exactly when the probe
    came back with a true [whatsappConnected]; a service that is not
    connected, a connection error and any other [Exception] (a response
    that is not JSON, a timeout) all give [False] without raising; only
    Ctrl-C gets through.  The probe makes one GET, to the configured port,
    and never touches the cooldown state. *)
Theorem health_probe_classified
    (config : Config) (health : result bool) (g : globals) :
  let p := Porcupine.test_whatsapp_service config health g in
  let v := Vosk.test_whatsapp_service config health g in
  (outcome p = Return true <-> health = Return true) /\
  (outcome v = Return true <-> health = Return true) /\
  (probed health = true ->
   exists b, outcome p = Return b /\ outcome v = Return b) /\
  (health = Raise KeyboardInterrupt ->
   outcome p = Raise KeyboardInterrupt /\ outcome v = Raise KeyboardInterrupt) /\
  final p = g /\ final v = g /\
  calls (trace p) = [requests_get (WHATSAPP_PORT config)] /\
  calls (trace v) = [requests_get (WHATSAPP_PORT config)].
Proof.
  cbv zeta.
  unfold Porcupine.test_whatsapp_service, Vosk.test_whatsapp_service.
  destruct health as [[|]|[x|x|]|]; cbn;
    repeat split; try discriminate; try congruence; eauto.
Qed.

Lemma health_probe_classified_witness :
  probed (Raise (Exception "Expecting value: line 1 column 1 (char 0)")) = true /\
  Porcupine.test_whatsapp_service scenario_config
    (Raise (Exception "Expecting value: line 1 column 1 (char 0)")) initial =
    (Return false, initial,
     [Call (requests_get 3000);
      Log (CouldNotCheck "Expecting value: line 1 column 1 (char 0)")]) /\
  exists b,
    outcome (Porcupine.test_whatsapp_service scenario_config
               (Raise (Exception "Expecting value: line 1 column 1 (char 0)"))
               initial) = Return b /\
    outcome (Vosk.test_whatsapp_service scenario_config
               (Raise (Exception "Expecting value: line 1 column 1 (char 0)"))
               initial) = Return b.
Proof.
  split; [reflexivity|]. split; [reflexivity|].
  exact (proj1 (proj2 (proj2
    (health_probe_classified scenario_config
       (Raise (Exception "Expecting value: line 1 column 1 (char 0)"))
       initial))) eq_refl).
Defined.

(** X10.  The two scripts differ in their log lines only: on the same
    clock reading, reply and state their [send_alert] return the same
    value, leave the same cooldown state and make the same calls to the
    outside world, and so do their [test_whatsapp_service]. *)
Theorem scripts_differ_in_log_lines_only
    (config : Config) (now : Q) (post : reply) (health : result bool)
    (g : globals) :
  outcome (Porcupine.send_alert config now post g) =
    outcome (Vosk.send_alert config now post g) /\
  final (Porcupine.send_alert config now post g) =
    final (Vosk.send_alert config now post g) /\
  calls (trace (Porcupine.send_alert config now post g)) =
    calls (trace (Vosk.send_alert config now post g)) /\
  outcome (Porcupine.test_whatsapp_service config health g) =
    outcome (Vosk.test_whatsapp_service config health g) /\
  final (Porcupine.test_whatsapp_service config health g) =
    final (Vosk.test_whatsapp_service config health g) /\
  calls (trace (Porcupine.test_whatsapp_service config health g)) =
    calls (trace (Vosk.test_whatsapp_service config health g)).
Proof.
  rewrite Porcupine_send_alert_eq, Vosk_send_alert_eq. cbv zeta.
  split; [|split; [|split]].
  4: { unfold Porcupine.test_whatsapp_service, Vosk.test_whatsapp_service.
       destruct health as [[|]|[x|x|]|]; repeat split. }
  all: destruct (Py.lt _ _); [reflexivity|];
    destruct (alertMessage config); [|reflexivity];
    destruct post as [status_code text | [e | e |]];
    try destruct (status_code =? 200)%Z; reflexivity.
Qed.

(* ================================================================== *)
(** * The skip line                                                    *)
(* ================================================================== *)

Lemma int_bounds (x : Q) :
  (0 <= x ->
   (0 <= Py.int x)%Z /\ inject_Z (Py.int x) <= x /\ x - 1 < inject_Z (Py.int x)) /\
  (x <= 0 -> (Py.int x <= 0)%Z /\ x <= inject_Z (Py.int x)).
Proof.
  destruct x as [n d]. unfold Py.int, Qle, Qlt, inject_Z. cbn.
  assert (Hd : (Z.pos d <> 0)%Z) by lia.
  pose proof (Z.quot_rem' n (Z.pos d)) as Hqr.
  split; intro H.
  - assert (Hn : (0 <= n)%Z) by lia.
    pose proof (Z.mul_quot_le n (Z.pos d) Hn Hd).
    pose proof (Z.quot_pos n (Z.pos d) Hn ltac:(lia)).
    pose proof (Z.rem_bound_pos n (Z.pos d) Hn ltac:(lia)).
    repeat split; try lia; nia.
  - assert (Hn : (n <= 0)%Z) by lia.
    pose proof (Z.mul_quot_ge n (Z.pos d) Hn Hd).
    split; nia.
Qed.

(** X11.  The number of seconds in the skip line "Cooldown active
    (..s / ..s)" is the elapsed time cut to whole seconds: unless the clock
    ran backwards it is not negative, not more than the time really
    elapsed and less than one second short of it; with a positive cooldown
    it is always below the cooldown shown next to it. *)
Theorem skip_line_shows_whole_seconds
    (config : Config) (now : Q) (post : reply) (g : globals) :
  now - last_detection_time g < cooldownSeconds config ->
  exists elapsed : Z,
    Porcupine.send_alert config now post g =
      (Return false, g, [Log (CooldownActive elapsed (cooldownSeconds config))]) /\
    Vosk.send_alert config now post g =
      (Return false, g, [Log (CooldownActive elapsed (cooldownSeconds config))]) /\
    (last_detection_time g <= now ->
     (0 <= elapsed)%Z /\
     inject_Z elapsed <= now - last_detection_time g /\
     now - last_detection_time g - 1 < inject_Z elapsed) /\
    (0 < cooldownSeconds config -> inject_Z elapsed < cooldownSeconds config).
Proof.
  intro H. exists (Py.int (now - last_detection_time g)).
  split; [now apply Porcupine_skip|]. split; [now apply Vosk_skip|].
  destruct (int_bounds (now - last_detection_time g)) as [Hpos Hneg].
  split.
  - intro Hle. apply Hpos. lra.
  - intro Hc.
    destruct (Qlt_le_dec (now - last_detection_time g) 0) as [Hn|Hp].
    + destruct Hneg as [Hz _]; [lra|].
      assert (inject_Z (Py.int (now - last_detection_time g)) <= 0)
        by (unfold Qle, inject_Z; cbn; lia).
      lra.
    + destruct (Hpos Hp) as (_ & Hle & _). lra.
Qed.

Lemma skip_line_shows_whole_seconds_witness :
  12.7 - last_detection_time {| last_detection_time := 2 |} <
    cooldownSeconds scenario_config /\
  Porcupine.send_alert scenario_config 12.7 (Response 200 "ok")
    {| last_detection_time := 2 |} =
    (Return false, {| last_detection_time := 2 |},
     [Log (CooldownActive 10 30)]).
Proof.
  assert (H : 12.7 - last_detection_time {| last_detection_time := 2 |} <
              cooldownSeconds scenario_config)
    by (unfold Qlt; simpl; lia).
  split; [exact H|].
  destruct (skip_line_shows_whole_seconds scenario_config 12.7
              (Response 200 "ok") {| last_detection_time := 2 |} H)
    as (elapsed & Hp & _).
  rewrite Hp. rewrite Porcupine_send_alert_eq in Hp.
  injection Hp as <-. reflexivity.
Defined.

(* ================================================================== *)
(** * A cooldown of zero                                               *)
(* ================================================================== *)

Lemma Porcupine_listen_cons
    (config : Config) (t : Porcupine.tick) (ticks : list Porcupine.tick)
    (g : globals) :
  Porcupine.listen config (t :: ticks) g =
  let turn := Porcupine.iteration config t g in
  match outcome turn with
  | Return _ =>
      preceded_by (trace turn) (Porcupine.listen config ticks (final turn))
  | Raise e => (Raise e, final turn, trace turn)
  | Blocked => (Blocked, final turn, trace turn)
  end.
Proof.
  cbn [Porcupine.listen]. unfold bind. cbv zeta.
  destruct (Porcupine.iteration config t g) as [[[u| e |] g1] t1];
    try reflexivity.
  unfold preceded_by, outcome, final, trace. cbn [fst snd].
  now destruct (Porcupine.listen config ticks g1) as [[r g2] t2].
Qed.

Lemma every_detection_posted
    (config : Config) (m : string) (ticks : list Porcupine.tick) :
  cooldownSeconds config <= 0 ->
  alertMessage config = Some m ->
  forall g : globals,
    StronglySorted Qle (last_detection_time g :: detection_clocks ticks) ->
    count is_post (trace (Porcupine.listen config ticks g)) =
      count is_detection (trace (Porcupine.listen config ticks g)) /\
    count is_skip_line (trace (Porcupine.listen config ticks g)) = 0%nat.
Proof.
  intros Hc Hm.
  induction ticks as [|t ticks IH]; intros g Hs; [split; reflexivity|].
  rewrite Porcupine_listen_cons. cbv zeta.
  destruct t as [ov k now post | e]; [|split; reflexivity].
  rewrite Porcupine_iteration_eq.
  cbn [detection_clocks flat_map] in Hs.
  destruct (k >=? 0)%Z.
  - cbn [app] in Hs.
    apply StronglySorted_inv in Hs as [Hrest Hall].
    inversion Hall as [|? ? Hnow Hall']; subst.
    fold (detection_clocks ticks) in *.
    assert (Hlt : Py.lt (now - last_detection_time g) (cooldownSeconds config)
                  = false) by (apply lt_false_iff; lra).
    cbv zeta. rewrite Porcupine_send_alert_eq. cbv zeta. rewrite Hlt, Hm.
    assert (Hsame : StronglySorted Qle
                      (last_detection_time g :: detection_clocks ticks)).
    { constructor; [now apply StronglySorted_inv in Hrest|exact Hall']. }
    destruct post as [status_code text | [x | x |]];
      try destruct (status_code =? 200)%Z;
      unfold outcome, final, trace, preceded_by, dropped;
      cbn [fst snd];
      try (split; reflexivity);
      match goal with
      | |- context [Porcupine.listen config ticks ?g1] =>
          destruct (IH g1) as [IHp IHs];
          [first [exact Hrest | exact Hsame]|];
          rewrite !count_app, IHp, IHs; split; reflexivity
      end.
  - cbn [app] in Hs.
    unfold outcome, final, trace, preceded_by. cbn [fst snd].
    destruct (IH g Hs) as [IHp IHs].
    rewrite !count_app, IHp, IHs. split; reflexivity.
Qed.

(** X12.  With [cooldownSeconds] 0 (or negative) the debouncing is off:
    in a session of [wake_word_detector.py] whose clock does not run
    backwards no detection is ever skipped and every detection is POSTed,
    as long as an alert message is configured. *)
Theorem zero_cooldown_posts_every_detection
    (config : Config) (m : string) (ticks : list Porcupine.tick) (g : globals) :
  cooldownSeconds config <= 0 ->
  alertMessage config = Some m ->
  StronglySorted Qle (last_detection_time g :: detection_clocks ticks) ->
  let t := trace (Porcupine.listen config ticks g) in
  count is_post t = count is_detection t /\ count is_skip_line t = 0%nat.
Proof.
  intros Hc Hm Hs. cbv zeta. now apply (every_detection_posted config m).
Qed.

Lemma zero_cooldown_posts_every_detection_witness :
  let ticks := [Porcupine.Frame false 0 100 (Response 200 "ok");
                Porcupine.Frame false (-1) 100 (Response 200 "ok");
                Porcupine.Frame false 0 100 (Response 500 "busy");
                Porcupine.Frame false 0 101 (Response 200 "ok")] in
  cooldownSeconds config_without_cooldown <= 0 /\
  StronglySorted Qle (last_detection_time initial :: detection_clocks ticks) /\
  count is_post (trace (Porcupine.listen config_without_cooldown ticks initial))
    = 3%nat /\
  count is_post (trace (Porcupine.listen config_without_cooldown ticks initial))
    = count is_detection
        (trace (Porcupine.listen config_without_cooldown ticks initial)).
Proof.
  intro ticks.
  assert (Hc : cooldownSeconds config_without_cooldown <= 0)
    by (unfold Qle; simpl; lia).
  assert (Hs : StronglySorted Qle
                 (last_detection_time initial :: detection_clocks ticks))
    by (repeat constructor; unfold Qle; simpl; lia).
  split; [exact Hc|]. split; [exact Hs|]. split; [reflexivity|].
  exact (proj1 (zero_cooldown_posts_every_detection config_without_cooldown
                  "Emergency! Help needed." ticks initial Hc eq_refl Hs)).
Defined.

(* ================================================================== *)
(** * Ctrl-C before the loop                                           *)
(* ================================================================== *)

(** X13.  Ctrl-C is handled at the prompt and in the loop only.  During
    the health probe, while the engine is created or loaded and while the
    audio stream is opened, no handler is in place: [KeyboardInterrupt]
    leaves [main] at that point and the script ends with a non-zero exit
    status. *)
Theorem interrupt_before_loop_is_not_handled
    (config : Config) (ps : Porcupine.session) (vs : Vosk.session)
    (g : globals) (porcupine : PyAudio.engine) :
  (Porcupine.health ps = Raise KeyboardInterrupt ->
   Porcupine.main config ps g =
     (Raise KeyboardInterrupt, g,
      [Call pa_terminate;
       Log CheckingService; Call (requests_get (WHATSAPP_PORT config))])) /\
  (Vosk.health vs = Raise KeyboardInterrupt ->
   Vosk.main config vs g =
     (Raise KeyboardInterrupt, g,
      [Call pa_terminate;
       Log CheckingService; Call (requests_get (WHATSAPP_PORT config))])) /\
  (proceeds (Porcupine.health ps) (Porcupine.keyboard ps) = true ->
   (Porcupine.engine ps = Raise KeyboardInterrupt \/
    Porcupine.engine ps = Return porcupine /\
    Porcupine.audio ps = Raise KeyboardInterrupt) ->
   outcome (Porcupine.main config ps g) = Raise KeyboardInterrupt /\
   final (Porcupine.main config ps g) = g /\
   count is_read (trace (Porcupine.main config ps g)) = 0%nat /\
   exit_status (outcome (Porcupine.main config ps g)) = Some 1%Z) /\
  (proceeds (Vosk.health vs) (Vosk.keyboard vs) = true ->
   (Vosk.engine vs = Raise KeyboardInterrupt \/
    Vosk.engine vs = Return tt /\ Vosk.audio vs = Raise KeyboardInterrupt) ->
   outcome (Vosk.main config vs g) = Raise KeyboardInterrupt /\
   final (Vosk.main config vs g) = g /\
   count is_read (trace (Vosk.main config vs g)) = 0%nat /\
   exit_status (outcome (Vosk.main config vs g)) = Some 1%Z).
Proof.
  split; [|split; [|split]].
  - intro H. unfold Porcupine.main, Porcupine.listing, Porcupine.test_whatsapp_service.
    now rewrite H.
  - intro H. unfold Vosk.main, Vosk.listing, Vosk.test_whatsapp_service. now rewrite H.
  - intros Hp H. rewrite (Porcupine_main_proceeds config ps g Hp).
    destruct (Porcupine_startup_counts config (Porcupine.health ps))
      as (Hr & _).
    unfold Porcupine.initialize_and_listen, Porcupine.open_and_listen.
    destruct H as [E | [E A]]; rewrite ?E, ?A;
      unfold preceded_by, outcome, final, trace; cbn [fst snd];
      rewrite count_app, Hr; repeat split.
  - intros Hp H. rewrite (Vosk_main_proceeds config vs g Hp).
    destruct (Vosk_startup_counts config (Vosk.health vs)) as (Hr & _).
    unfold Vosk.initialize_and_listen, Vosk.open_and_listen.
    destruct H as [E | [E A]]; rewrite ?E, ?A;
      unfold preceded_by, outcome, final, trace; cbn [fst snd];
      rewrite count_app, Hr; repeat split.
Qed.

Lemma interrupt_before_loop_is_not_handled_witness :
  let vs := {| Vosk.health := Return true;
               Vosk.keyboard := Return EmptyString;
               Vosk.engine := Raise KeyboardInterrupt;
               Vosk.audio := Return "default"%string;
               Vosk.ticks := [] |} in
  proceeds (Vosk.health vs) (Vosk.keyboard vs) = true /\
  Vosk.main scenario_config vs initial =
    (Raise KeyboardInterrupt, initial,
     [Call pa_terminate;
      Log CheckingService; Call (requests_get 3000); Log ServiceReady;
      Log InitializingEngine; Log FirstRunDownload; Call vosk_load]) /\
  exit_status (outcome (Vosk.main scenario_config vs initial)) = Some 1%Z.
Proof.
  intro vs.
  pose (ps := {| Porcupine.health := Raise KeyboardInterrupt;
                 Porcupine.keyboard := Return EmptyString;
                 Porcupine.engine := Raise KeyboardInterrupt;
                 Porcupine.audio := Return "default"%string;
                 Porcupine.ticks := [] |}).
  destruct (interrupt_before_loop_is_not_handled scenario_config ps vs initial
              {| PyAudio.version := "3.0"; PyAudio.sample_rate := 16000;
                 PyAudio.frame_length := 512 |})
    as (_ & _ & _ & Hv).
  split; [reflexivity|]. split; [reflexivity|].
  exact (proj2 (proj2 (proj2 (Hv eq_refl (or_introl eq_refl))))).
Defined.

(* ================================================================== *)
(** * Wake words: the edges of the configuration                       *)
(* ================================================================== *)

Lemma detected_words_nil_iff (config : Config) (text : string) :
  Vosk.detected_words config text = [] <->
  forall w, In w (configured_words config) ->
            ~ Substring (Py.lower w) text.
Proof.
  unfold Vosk.detected_words, Vosk.WAKE_WORDS.
  fold (configured_words config).
  rewrite filter_map_nil. split; intros H w Hw.
  - intro Hs. apply contains_iff in Hs. specialize (H w Hw). cbv beta in H.
    congruence.
  - specialize (H w Hw). destruct (Py.contains (Py.lower w) text) eqn:E; auto.
    apply contains_iff in E. contradiction.
Qed.

Lemma Vosk_turn_detections
    (config : Config) (overflowed : bool) (result : option string)
    (now : Q) (post : reply) (g : globals) :
  count is_detection
    (trace (Vosk.iteration config
              (Vosk.Frame overflowed (Vosk.Final result) now post) g)) =
  if Py.truthy
       (Py.lower (match result with Some x => x | None => EmptyString end))
  then
    match Vosk.detected_words config
            (Py.lower (match result with Some x => x | None => EmptyString end))
    with
    | [] => 0%nat
    | _ :: _ => 1%nat
    end
  else 0%nat.
Proof.
  rewrite Vosk_iteration_eq. cbv zeta.
  destruct (Py.truthy _); [|reflexivity].
  destruct (Vosk.detected_words config _); [reflexivity|].
  cbv zeta. unfold trace at 1. cbn [snd].
  destruct (Vosk_alert_counts config now post g) as [Hd _].
  unfold count in *. cbn [filter is_detection List.length]. now rewrite Hd.
Qed.

Lemma Vosk_no_words_no_detection
    (config : Config) (ticks : list Vosk.tick) (g : globals) :
  wakeWords config = Some [] ->
  count is_detection (trace (Vosk.listen config ticks g)) = 0%nat.
Proof.
  intro Hw.
  apply (Vosk_listen_invariant config
           (fun _ _ t => count is_detection t = 0%nat)).
  - reflexivity.
  - intros ? ? ? t1 t2 H1 H2. rewrite count_app. lia.
  - intros [ov [|result] now post | e] g0; cbv beta; try reflexivity;
      [now rewrite Vosk_iteration_eq|].
    rewrite Vosk_turn_detections.
    destruct (Py.truthy _); [|reflexivity].
    unfold Vosk.detected_words, Vosk.WAKE_WORDS. now rewrite Hw.
Qed.

(** X14.  With an empty list of wake words [wake_word_detector_vosk.py]
    listens and logs what it recognises, but nothing it hears is ever a
    detection: no alert is POSTed and the cooldown state never changes. *)
Theorem empty_wake_word_list_never_detects
    (config : Config) (ticks : list Vosk.tick) (g : globals) :
  wakeWords config = Some [] ->
  let run := Vosk.listen config ticks g in
  count is_detection (trace run) = 0%nat /\
  count is_post (trace run) = 0%nat /\
  final run = g.
Proof.
  intro Hw. cbv zeta.
  pose proof (Vosk_no_words_no_detection config ticks g Hw) as Hd.
  destruct (Vosk_session_accounted config ticks g)
    as (_ & B & _ & D & _ & _ & G & _).
  split; [exact Hd|]. split; [lia|]. apply G. lia.
Qed.

Lemma empty_wake_word_list_never_detects_witness :
  let ticks := [Vosk.Frame false (Vosk.Final (Some "please help me now"%string))
                  100 (Response 200 "ok")] in
  wakeWords config_without_words = Some [] /\
  Vosk.listen config_without_words ticks initial =
    (Blocked, initial,
     [Call stream_read; Log (Recognized "please help me now")]) /\
  count is_post (trace (Vosk.listen config_without_words ticks initial)) = 0%nat.
Proof.
  intro ticks. split; [reflexivity|]. split; [reflexivity|].
  exact (proj1 (proj2 (empty_wake_word_list_never_detects
                         config_without_words ticks initial eq_refl))).
Defined.

(** X15.  A blank entry among the wake words matches everything: with the
    empty string configured, every finalised result with a non-empty text
    is a detection (exactly one), whatever was said. *)
Theorem blank_wake_word_matches_everything
    (config : Config) (overflowed : bool) (result : option string)
    (now : Q) (post : reply) (g : globals) :
  In EmptyString (configured_words config) ->
  let text :=
    Py.lower (match result with Some x => x | None => EmptyString end) in
  text <> EmptyString ->
  count is_detection
    (trace (Vosk.iteration config
              (Vosk.Frame overflowed (Vosk.Final result) now post) g)) = 1%nat.
Proof.
  intros Hin text Ht.
  rewrite Vosk_turn_detections. cbv zeta. fold text.
  apply truthy_iff in Ht. rewrite Ht.
  destruct (Vosk.detected_words config text) eqn:D; [|reflexivity].
  exfalso.
  apply (proj1 (detected_words_nil_iff config text) D EmptyString Hin).
  now exists EmptyString, text.
Qed.

Lemma blank_wake_word_matches_everything_witness :
  In EmptyString (configured_words config_with_blank_word) /\
  Py.lower "good morning" <> EmptyString /\
  count is_detection
    (trace (Vosk.iteration config_with_blank_word
              (Vosk.Frame false (Vosk.Final (Some "good morning"%string))
                 100 (Response 200 "ok")) initial)) = 1%nat.
Proof.
  assert (Hin : In EmptyString (configured_words config_with_blank_word))
    by (cbn; auto).
  assert (Ht : Py.lower "good morning" <> EmptyString) by discriminate.
  split; [exact Hin|]. split; [exact Ht|].
  exact (blank_wake_word_matches_everything config_with_blank_word false
           (Some "good morning"%string) 100 (Response 200 "ok") initial Hin Ht).
Defined.

(** X16.  When the configuration has no [wakeWords] key the only wake word
    is "help": a finalised result is a detection exactly when "help" occurs
    in its lowercased text, and the word reported is "help". *)
Theorem default_wake_word_is_help
    (config : Config) (overflowed : bool) (result : option string)
    (now : Q) (post : reply) (g : globals) :
  wakeWords config = None ->
  let text :=
    Py.lower (match result with Some x => x | None => EmptyString end) in
  let run :=
    Vosk.iteration config (Vosk.Frame overflowed (Vosk.Final result) now post) g in
  Vosk.WAKE_WORDS config = ["help"%string] /\
  (count is_detection (trace run) = 1%nat <-> Substring "help" text) /\
  (count is_detection (trace run) = 0%nat <-> ~ Substring "help" text) /\
  (forall word, In (Log (WakeWordDetected word)) (trace run) ->
                word = Some "help"%string).
Proof.
  intros Hw text run. subst run.
  assert (HW : Vosk.WAKE_WORDS config = ["help"%string])
    by (unfold Vosk.WAKE_WORDS; now rewrite Hw).
  split; [exact HW|].
  assert (Hempty : Py.truthy text = false -> ~ Substring "help" text).
  { intros T (before & after & E). destruct text; [|discriminate].
    destruct before; discriminate. }
  assert (Hd : Vosk.detected_words config text =
               if Py.contains "help" text then ["help"%string] else []).
  { unfold Vosk.detected_words. rewrite HW. cbn [filter].
    now destruct (Py.contains "help" text). }
  rewrite Vosk_turn_detections. cbv zeta. fold text. rewrite Hd.
  pose proof (contains_iff "help" text) as Hc.
  split; [|split].
  - destruct (Py.truthy text) eqn:T.
    + destruct (Py.contains "help" text) eqn:C.
      * split; [intros _; now apply Hc | reflexivity].
      * split; [discriminate|]. intro Hs. apply Hc in Hs. discriminate.
    + split; [discriminate|]. intro Hs. now apply Hempty in Hs.
  - destruct (Py.truthy text) eqn:T.
    + destruct (Py.contains "help" text) eqn:C.
      * split; [discriminate|]. intro Hn. exfalso. apply Hn. now apply Hc.
      * split; [|reflexivity]. intros _ Hs. apply Hc in Hs. discriminate.
    + split; auto.
  - intro word. rewrite Vosk_iteration_eq. cbv zeta. fold text. rewrite Hd.
    destruct (Py.truthy text); [|cbn; intuition discriminate].
    destruct (Py.contains "help" text); [|cbn; intuition discriminate].
    cbv zeta. unfold trace at 1. cbn [snd In].
    intros [H|[H|[H|H]]]; try discriminate.
    + now injection H as <-.
    + now apply Vosk_alert_no_detection in H.
Qed.

Lemma default_wake_word_is_help_witness :
  wakeWords config_with_default_words = None /\
  Vosk.WAKE_WORDS config_with_default_words = ["help"%string] /\
  count is_detection
    (trace (Vosk.iteration config_with_default_words
              (Vosk.Frame false (Vosk.Final (Some "Somebody HELP"%string))
                 100 (Response 200 "ok")) initial)) = 1%nat.
Proof.
  split; [reflexivity|].
  destruct (default_wake_word_is_help config_with_default_words false
              (Some "Somebody HELP"%string) 100 (Response 200 "ok") initial
              eq_refl) as (HW & H1 & _).
  split; [exact HW|].
  apply H1. now exists "somebody "%string, EmptyString.
Defined.

(* ================================================================== *)
(** * What the recogniser heard                                        *)
(* ================================================================== *)

Lemma Vosk_listen_cons
    (config : Config) (t : Vosk.tick) (ticks : list Vosk.tick) (g : globals) :
  Vosk.listen config (t :: ticks) g =
  let turn := Vosk.iteration config t g in
  match outcome turn with
  | Return _ => preceded_by (trace turn) (Vosk.listen config ticks (final turn))
  | Raise e => (Raise e, final turn, trace turn)
  | Blocked => (Blocked, final turn, trace turn)
  end.
Proof.
  cbn [Vosk.listen]. unfold bind. cbv zeta.
  destruct (Vosk.iteration config t g) as [[[u| e |] g1] t1]; try reflexivity.
  unfold preceded_by, outcome, final, trace. cbn [fst snd].
  now destruct (Vosk.listen config ticks g1) as [[r g2] t2].
Qed.

Lemma recognized_lines_app (t t' : list event) :
  recognized_lines (t ++ t') = recognized_lines t ++ recognized_lines t'.
Proof. unfold recognized_lines. apply flat_map_app. Qed.

Lemma Vosk_alert_recognizes_nothing
    (config : Config) (now : Q) (post : reply) (g : globals) :
  recognized_lines (trace (Vosk.send_alert config now post g)) = [].
Proof.
  rewrite Vosk_send_alert_eq. cbv zeta.
  destruct (Py.lt _ _); [reflexivity|].
  destruct (alertMessage config); [|reflexivity].
  destruct post as [status_code text | [e | e |]];
    try destruct (status_code =? 200)%Z; reflexivity.
Qed.

Lemma Vosk_turn_recognized (config : Config) (t : Vosk.tick) (g : globals) :
  recognized_lines (trace (Vosk.iteration config t g)) = heard_texts [t].
Proof.
  destruct t as [ov heard now post | e]; [|reflexivity].
  rewrite Vosk_iteration_eq. cbn [heard_texts flat_map]. rewrite app_nil_r.
  destruct heard as [|result]; [reflexivity|]. cbv zeta.
  destruct (Py.truthy _); [|reflexivity].
  destruct (Vosk.detected_words config _); [reflexivity|].
  cbv zeta. unfold trace at 1. cbn [snd].
  change (recognized_lines (?a :: ?b :: ?c :: ?rest))
    with (recognized_lines ([a; b; c] ++ rest)).
  now rewrite recognized_lines_app, Vosk_alert_recognizes_nothing.
Qed.

(** X17.  [wake_word_detector_vosk.py] logs everything it recognises: in a
    session that no exception cuts short, the "Recognized" lines are
    exactly the finalised results with a non-empty text, lowercased and in
    the order they came, whether they hold a wake word or not; partial
    results and empty texts are not logged. *)
Theorem recognized_lines_are_what_was_heard
    (config : Config) (ticks : list Vosk.tick) (g : globals) :
  Forall (fun t => Vosk_raised t = None) ticks ->
  recognized_lines (trace (Vosk.listen config ticks g)) = heard_texts ticks.
Proof.
  revert g. induction ticks as [|t ticks IH]; intros g H; [reflexivity|].
  inversion H as [|? ? Ht Hrest]; subst.
  rewrite Vosk_listen_cons. cbv zeta.
  assert (Hu : Vosk_uninterrupted t = true).
  { destruct t as [ov heard now [s b|[x|x|]] | e]; try reflexivity;
      discriminate. }
  rewrite (Vosk_turn_returns config t g Hu).
  unfold preceded_by, trace at 1. cbn [snd].
  rewrite recognized_lines_app, Vosk_turn_recognized, IH by exact Hrest.
  unfold heard_texts. cbn [flat_map]. now rewrite app_nil_r.
Qed.

Lemma recognized_lines_are_what_was_heard_witness :
  let ticks :=
    [Vosk.Frame false Vosk.Partial 99 (Response 200 "ok");
     Vosk.Frame false (Vosk.Final (Some "Good Morning"%string)) 100
       (Response 200 "ok");
     Vosk.Frame false (Vosk.Final (Some EmptyString)) 101 (Response 200 "ok");
     Vosk.Frame false (Vosk.Final (Some "please help"%string)) 102
       (Response 500 "busy")] in
  Forall (fun t => Vosk_raised t = None) ticks /\
  recognized_lines (trace (Vosk.listen scenario_config ticks initial)) =
    ["good morning"%string; "please help"%string].
Proof.
  intro ticks.
  assert (H : Forall (fun t => Vosk_raised t = None) ticks)
    by (repeat constructor).
  split; [exact H|].
  exact (recognized_lines_are_what_was_heard scenario_config ticks initial H).
Defined.

(* ================================================================== *)
(** * The device listing                                               *)
(* ================================================================== *)

Lemma shown_devices_app (l l' : list Devices.line) :
  shown_devices (l ++ l') = shown_devices l ++ shown_devices l'.
Proof. unfold shown_devices. apply flat_map_app. Qed.

Lemma Porcupine_listing_from (rest : list Devices.info) :
  forall earlier : list Devices.info,
    shown_devices
      (flat_map
         (fun i =>
            match nth_error (earlier ++ rest) i with
            | Some info =>
                if (Devices.maxInputChannels info >? 0)%Z then
                  [Devices.Device i (Devices.name info);
                   Devices.SampleRate (Py.int (Devices.defaultSampleRate info));
                   Devices.Channels (Devices.maxInputChannels info);
                   Devices.Blank]
                else []
            | None => []
            end)
         (seq (List.length earlier) (List.length rest))) =
    input_devices_from (List.length earlier) rest.
Proof.
  induction rest as [|d rest IH]; intro earlier; [reflexivity|].
  cbn [List.length seq flat_map input_devices_from].
  rewrite shown_devices_app, nth_error_app2, Nat.sub_diag by lia.
  cbn [nth_error]. unfold is_input_device.
  specialize (IH (earlier ++ [d])).
  rewrite <- app_assoc, length_app in IH. cbn [app List.length] in IH.
  rewrite Nat.add_1_r in IH. rewrite IH.
  now destruct (Devices.maxInputChannels d >? 0)%Z.
Qed.

Lemma Vosk_listing_from (rest : list Devices.info) :
  forall earlier : list Devices.info,
    shown_devices
      (flat_map
         (fun i =>
            match nth_error (earlier ++ rest) i with
            | Some info =>
                if (Devices.maxInputChannels info >? 0)%Z then
                  [Devices.Device i (Devices.name info);
                   Devices.SampleRate (Py.int (Devices.defaultSampleRate info));
                   Devices.Blank]
                else []
            | None => []
            end)
         (seq (List.length earlier) (List.length rest))) =
    input_devices_from (List.length earlier) rest.
Proof.
  induction rest as [|d rest IH]; intro earlier; [reflexivity|].
  cbn [List.length seq flat_map input_devices_from].
  rewrite shown_devices_app, nth_error_app2, Nat.sub_diag by lia.
  cbn [nth_error]. unfold is_input_device.
  specialize (IH (earlier ++ [d])).
  rewrite <- app_assoc, length_app in IH. cbn [app List.length] in IH.
  rewrite Nat.add_1_r in IH. rewrite IH.
  now destruct (Devices.maxInputChannels d >? 0)%Z.
Qed.

Lemma input_devices_from_iff (table : list Devices.info) :
  forall (k i : nat) (n : string),
    In (i, n) (input_devices_from k table) <->
    exists d, (k <= i)%nat /\ nth_error table (i - k) = Some d /\
              Devices.name d = n /\ (0 < Devices.maxInputChannels d)%Z.
Proof.
  induction table as [|d table IH]; intros k i n.
  - split; [easy|]. intros (d & _ & H & _). now destruct (i - k)%nat.
  - cbn [input_devices_from]. rewrite in_app_iff, IH. unfold is_input_device.
    split.
    + intros [H | (d' & Hk & Hn & Hname & Hc)].
      * destruct (Devices.maxInputChannels d >? 0)%Z eqn:E; [|easy].
        destruct H as [[= <- <-]|[]]. exists d.
        rewrite Nat.sub_diag. repeat split; auto. lia.
      * exists d'. replace (i - k)%nat with (S (i - S k)) by lia.
        repeat split; auto. lia.
    + intros (d' & Hk & Hn & Hname & Hc).
      destruct (Nat.eq_dec i k) as [->|Hne].
      * left. rewrite Nat.sub_diag in Hn. injection Hn as <-.
        assert (E : (Devices.maxInputChannels d >? 0)%Z = true) by lia.
        rewrite E, Hname. now left.
      * right. exists d'. replace (i - k)%nat with (S (i - S k)) in Hn by lia.
        repeat split; auto. lia.
Qed.

(** X18.  [list_audio_devices] of either script lists exactly the entries
    of PyAudio's device table that have input channels, each under its own
    index in the table and under its own name, in the order of the table:
    an index read off the listing names the device listed.  A table
    without input devices gives the heading and the two rules only. *)
Theorem listing_shows_input_devices (table : list Devices.info) :
  shown_devices (Porcupine.list_audio_devices table) =
    input_devices_from 0 table /\
  shown_devices (Vosk.list_audio_devices table) =
    input_devices_from 0 table /\
  (forall (i : nat) (n : string),
      In (i, n) (shown_devices (Porcupine.list_audio_devices table)) <->
      exists d, nth_error table i = Some d /\ Devices.name d = n /\
                (0 < Devices.maxInputChannels d)%Z) /\
  (Forall (fun d => is_input_device d = false) table ->
   shown_devices (Porcupine.list_audio_devices table) = [] /\
   shown_devices (Vosk.list_audio_devices table) = []).
Proof.
  assert (P : shown_devices (Porcupine.list_audio_devices table) =
              input_devices_from 0 table).
  { unfold Porcupine.list_audio_devices, Devices.for_range.
    rewrite !shown_devices_app.
    pose proof (Porcupine_listing_from table []) as H.
    cbn [app List.length] in H. rewrite H. cbn. now rewrite app_nil_r. }
  assert (V : shown_devices (Vosk.list_audio_devices table) =
              input_devices_from 0 table).
  { unfold Vosk.list_audio_devices, Devices.for_range.
    rewrite !shown_devices_app.
    pose proof (Vosk_listing_from table []) as H.
    cbn [app List.length] in H. rewrite H. cbn. now rewrite app_nil_r. }
  split; [exact P|]. split; [exact V|]. split.
  - intros i n. rewrite P, input_devices_from_iff, Nat.sub_0_r.
    split; intros (d & H); exists d; intuition. lia.
  - intro H. rewrite P, V.
    assert (E : forall k, input_devices_from k table = []).
    { clear P V.
      induction H as [|d rest Hd Hrest IH]; intro k; [reflexivity|].
      cbn [input_devices_from]. now rewrite Hd, IH. }
    now rewrite E.
Qed.

Lemma listing_shows_input_devices_witness :
  shown_devices (Porcupine.list_audio_devices example_table) =
    [(1%nat, "USB Microphone"%string); (3%nat, "Webcam"%string)] /\
  Forall (fun d => is_input_device d = false) (firstn 1 example_table) /\
  Porcupine.list_audio_devices (firstn 1 example_table) =
    [Devices.Header; Devices.Dashes; Devices.Dashes] /\
  shown_devices (Vosk.list_audio_devices (firstn 1 example_table)) = [].
Proof.
  split; [exact (proj1 (listing_shows_input_devices example_table))|].
  assert (H : Forall (fun d => is_input_device d = false)
                (firstn 1 example_table))
    by (repeat constructor).
  split; [exact H|]. split; [reflexivity|].
  exact (proj2 (proj2 (proj2 (proj2
    (listing_shows_input_devices (firstn 1 example_table)))) H)).
Defined.

(* ================================================================== *)
(** * The alerts of a session                                          *)
(* ================================================================== *)

Lemma last_cons {A} (a d : A) (l : list A) : last (a :: l) d = last l a.
Proof.
  revert a d. induction l as [|b l IH]; intros a d; [reflexivity|].
  change (last (a :: b :: l) d) with (last (b :: l) d).
  now rewrite (IH b d), (IH b a).
Qed.

Lemma Porcupine_alert_sent_line
    (config : Config) (now : Q) (post : reply) (g : globals) :
  count is_sent_line (trace (Porcupine.send_alert config now post g)) =
  match outcome (Porcupine.send_alert config now post g) with
  | Return true => 1%nat
  | _ => 0%nat
  end.
Proof.
  rewrite Porcupine_send_alert_eq. cbv zeta.
  destruct (Py.lt _ _); [reflexivity|].
  destruct (alertMessage config); [|reflexivity].
  destruct post as [status_code text | [e | e |]];
    try destruct (status_code =? 200)%Z; reflexivity.
Qed.

Lemma Porcupine_session_sent (config : Config) (ticks : list Porcupine.tick) :
  forall g : globals,
    Forall (fun t => Porcupine_raised t = None) ticks ->
    count is_sent_line (trace (Porcupine.listen config ticks g)) =
      List.length (sent_times config (detections_of ticks) g) /\
    last_detection_time (final (Porcupine.listen config ticks g)) =
      last (sent_times config (detections_of ticks) g) (last_detection_time g).
Proof.
  induction ticks as [|t ticks IH]; intros g H; [split; reflexivity|].
  inversion H as [|? ? Ht Hrest]; subst.
  rewrite Porcupine_listen_cons. cbv zeta.
  assert (Hu : Porcupine_uninterrupted t = true).
  { destruct t as [ov k now [s b|[x|x|]] | e]; try reflexivity; discriminate. }
  rewrite (Porcupine_turn_returns config t g Hu).
  destruct t as [ov k now post | e]; [|discriminate].
  rewrite Porcupine_iteration_eq.
  cbn [detections_of flat_map]. fold (detections_of ticks).
  destruct (k >=? 0)%Z.
  - cbv zeta. cbn [app sent_times].
    pose proof (Porcupine_alert_sent_line config now post g) as S.
    pose proof (Porcupine_final config now post g) as F.
    destruct (IH (final (Porcupine.send_alert config now post g)) Hrest)
      as [IHc IHl].
    unfold preceded_by, outcome, final, trace in *. cbn [fst snd] in *.
    change (Call stream_read :: Log (WakeWordDetected None) ::
            snd (Porcupine.send_alert config now post g))
      with ([Call stream_read; Log (WakeWordDetected None)] ++
            snd (Porcupine.send_alert config now post g)).
    rewrite !count_app, S, IHc, IHl.
    destruct (fst (fst (Porcupine.send_alert config now post g)))
      as [[|]| |];
      rewrite F; cbn [List.length]; split; try reflexivity.
    now rewrite last_cons.
  - cbn [app]. destruct (IH g Hrest) as [IHc IHl].
    unfold preceded_by, outcome, final, trace in *. cbn [fst snd] in *.
    rewrite count_app, IHc, IHl. split; reflexivity.
Qed.

(** X19.  A session of [wake_word_detector.py] that no exception cuts
    short sends exactly the alerts that the alert path, run over the
    detections of the session, sends: as many "Alert sent" lines as there
    are such sends; the cooldown state at the end is the clock reading of
    the last of them; and each of them comes at least [cooldownSeconds]
    after the one before. *)
Theorem session_alerts_are_spaced
    (config : Config) (ticks : list Porcupine.tick) (g : globals) :
  Forall (fun t => Porcupine_raised t = None) ticks ->
  let loop := Porcupine.listen config ticks g in
  let sent := sent_times config (detections_of ticks) g in
  count is_sent_line (trace loop) = List.length sent /\
  last_detection_time (final loop) = last sent (last_detection_time g) /\
  spaced (cooldownSeconds config) (last_detection_time g) sent.
Proof.
  intros H loop sent. subst loop sent.
  destruct (Porcupine_session_sent config ticks g H) as [Hc Hl].
  split; [exact Hc|]. split; [exact Hl|]. apply sent_times_spaced.
Qed.

Lemma session_alerts_are_spaced_witness :
  let ticks := [Porcupine.Frame false 0 10 (Response 200 "ok");
                Porcupine.Frame false 0 31 (Response 200 "ok");
                Porcupine.Frame false (-1) 50 (Response 200 "ok");
                Porcupine.Frame false 0 60 (Response 200 "ok");
                Porcupine.Frame false 0 61 (Response 500 "busy");
                Porcupine.Frame false 0 62 (Response 200 "ok")] in
  Forall (fun t => Porcupine_raised t = None) ticks /\
  sent_times scenario_config (detections_of ticks) initial = [31; 62] /\
  count is_sent_line (trace (Porcupine.listen scenario_config ticks initial))
    = 2%nat /\
  last_detection_time (final (Porcupine.listen scenario_config ticks initial))
    = 62.
Proof.
  intro ticks.
  assert (H : Forall (fun t => Porcupine_raised t = None) ticks)
    by (repeat constructor).
  destruct (session_alerts_are_spaced scenario_config ticks initial H)
    as (Hc & Hl & _).
  split; [exact H|]. split; [reflexivity|]. split; [exact Hc|exact Hl].
Defined.

(* ================================================================== *)
(** * The microphone test                                              *)
(* ================================================================== *)

Lemma record_cons (duration start_time now : Q) (frame : result Q)
    (rest : list Microphone.tick) (m : Q) :
  Microphone.record duration start_time ((now, frame) :: rest) m =
  if Py.lt (now - start_time) duration then
    match frame with
    | Return v =>
        (fst (Microphone.record duration start_time rest (PyStr.max m v)),
         Microphone.Do Microphone.Read ::
         Microphone.Print
           (Microphone.Volume v (Z.to_nat (Z.min (Py.int (v / 100)) 50))
              (if Py.lt v 500 then Microphone.TooQuiet
               else if Py.lt v 2000 then Microphone.GoodLevel
               else Microphone.Loud)) ::
         snd (Microphone.record duration start_time rest (PyStr.max m v)))
    | Raise KeyboardInterrupt =>
        (Raise KeyboardInterrupt, [Microphone.Do Microphone.Read])
    | Raise (ConnectionError e) | Raise (Exception e) =>
        (Return m,
         [Microphone.Do Microphone.Read;
          Microphone.Print (Microphone.ReadError e)])
    | Blocked => (Blocked, [Microphone.Do Microphone.Read])
    end
  else (Return m, []).
Proof.
  cbn [Microphone.record].
  destruct (Py.lt (now - start_time) duration); [|reflexivity].
  destruct frame as [v|[e|e|]|]; try reflexivity.
  cbv [Microphone.turn Microphone.try_except Microphone.bind Microphone.call
       Microphone.print Microphone.ret app].
  now destruct (Microphone.record duration start_time rest (PyStr.max m v)).
Qed.

Lemma max_cases (a b : Q) :
  (PyStr.max a b = a /\ b <= a) \/ (PyStr.max a b = b /\ a < b).
Proof.
  unfold PyStr.max. destruct (Py.lt a b) eqn:L.
  - right. split; [reflexivity|]. now apply lt_true_iff.
  - left. split; [reflexivity|]. now apply lt_false_iff.
Qed.

(** The recording loop prints volume lines and read errors only, and
    makes no call but [stream.read]. *)
Lemma record_quiet (duration start_time : Q) (ticks : list Microphone.tick) :
  forall m,
    let t := snd (Microphone.record duration start_time ticks m) in
    maxima_shown t = [] /\ verdicts_shown t = [] /\ opened t = [] /\
    times Microphone.StopStream t = 0%nat /\
    times Microphone.CloseStream t = 0%nat /\
    times Microphone.Terminate t = 0%nat /\
    times Microphone.Input t = 0%nat /\
    times Microphone.DefaultInput t = 0%nat.
Proof.
  induction ticks as [|[now frame] rest IH]; intro m; cbv zeta.
  - cbn. repeat split; reflexivity.
  - rewrite record_cons.
    destruct (Py.lt _ _); [|cbn; repeat split; reflexivity].
    destruct frame as [v|[e|e|]|]; try (cbn; repeat split; reflexivity).
    exact (IH (PyStr.max m v)).
Qed.

(** The loop lets no [Exception] out: only Ctrl-C leaves it by raising. *)
Lemma record_raises (duration start_time : Q) (ticks : list Microphone.tick) :
  forall m e,
    fst (Microphone.record duration start_time ticks m) = Raise e ->
    e = KeyboardInterrupt.
Proof.
  induction ticks as [|[now frame] rest IH]; intros m e.
  - discriminate.
  - rewrite record_cons.
    destruct (Py.lt _ _); [|discriminate].
    destruct frame as [v|[e'|e'|]|]; try discriminate.
    + apply IH.
    + cbn. now intros [= <-].
Qed.

(** The maximum the loop returns: the starting value or one of the
    volumes shown, and no smaller than any of them. *)
Lemma record_maximum (duration start_time : Q) (ticks : list Microphone.tick) :
  forall m m',
    fst (Microphone.record duration start_time ticks m) = Return m' ->
    let t := snd (Microphone.record duration start_time ticks m) in
    (m' = m \/ In m' (volumes_shown t)) /\ m <= m' /\
    (forall x, In x (volumes_shown t) -> x <= m').
Proof.
  induction ticks as [|[now frame] rest IH]; intros m m'.
  - discriminate.
  - rewrite record_cons.
    destruct (Py.lt _ _).
    2:{ cbn. intros [= <-]. split; [now left|]. split; [apply Qle_refl|].
        intros x []. }
    destruct frame as [v|[e|e|]|]; try discriminate.
    + cbn [fst snd]. intro H. specialize (IH _ _ H). cbv zeta in IH.
      destruct IH as (I1 & I2 & I3).
      change (volumes_shown (?a :: ?b :: ?t)) with (v :: volumes_shown t).
      destruct (max_cases m v) as [[E L]|[E L]]; rewrite E in *.
      * split; [destruct I1 as [->|I1]; [now left|right; now right]|].
        split; [exact I2|].
        intros x [<-|Hx]; [now apply Qle_trans with m|now apply I3].
      * split; [destruct I1 as [->|I1]; right; [now left|now right]|].
        split; [apply Qle_trans with v; [now apply Qlt_le_weak|exact I2]|].
        intros x [<-|Hx]; [exact I2|now apply I3].
    + cbn. intros [= <-]. split; [now left|]. split; [apply Qle_refl|].
      intros x [].
    + cbn. intros [= <-]. split; [now left|]. split; [apply Qle_refl|].
      intros x [].
Qed.

Lemma report_returns (m : Q) : fst (Microphone.report m) = Return tt.
Proof.
  unfold Microphone.report.
  cbv [Microphone.bind Microphone.print app fst].
  destruct (Py.lt m 300); [reflexivity|]. now destruct (Py.lt m 1000).
Qed.

(** What the report shows: the maximum, and the verdict on it. *)
Lemma report_shows (m : Q) :
  let t := snd (Microphone.report m) in
  maxima_shown t = [m] /\
  verdicts_shown t =
    [if Py.lt m 300 then Microphone.VeryLow
     else if Py.lt m 1000 then Microphone.SomewhatLow
     else Microphone.VolumeGood] /\
  volumes_shown t = [] /\ read_errors t = [] /\ performed t = [].
Proof.
  unfold Microphone.report.
  cbv [Microphone.bind Microphone.print app fst].
  destruct (Py.lt m 300); [cbn; repeat split; reflexivity|].
  destruct (Py.lt m 1000); cbn; repeat split; reflexivity.
Qed.

(** The test, once [pa.open] has returned, in terms of its loop. *)
Lemma test_microphone_open (device_index : option Z) (duration start_time : Q)
    (ticks : list Microphone.tick) :
  Microphone.test_microphone device_index duration (Return tt) start_time ticks =
  match Microphone.record duration start_time ticks 0 with
  | (Return m, t) =>
      (Return tt,
       [Microphone.Print
          (Microphone.TestingMicrophone
             (match device_index with
              | Some i => if (i =? 0)%Z then None else Some i
              | None => None
              end));
        Microphone.Print Microphone.Rule;
        Microphone.Do (Microphone.Open device_index);
        Microphone.Print Microphone.Opened;
        Microphone.Print (Microphone.Recording duration);
        Microphone.Print Microphone.Speak] ++
       t ++ snd (Microphone.report m) ++
       [Microphone.Do Microphone.StopStream;
        Microphone.Do Microphone.CloseStream;
        Microphone.Do Microphone.Terminate;
        Microphone.Print Microphone.Rule])
  | (Raise KeyboardInterrupt, t) =>
      (Raise KeyboardInterrupt,
       [Microphone.Print
          (Microphone.TestingMicrophone
             (match device_index with
              | Some i => if (i =? 0)%Z then None else Some i
              | None => None
              end));
        Microphone.Print Microphone.Rule;
        Microphone.Do (Microphone.Open device_index);
        Microphone.Print Microphone.Opened;
        Microphone.Print (Microphone.Recording duration);
        Microphone.Print Microphone.Speak] ++
       t ++ [Microphone.Do Microphone.Terminate])
  | (Raise (ConnectionError e), t) | (Raise (Exception e), t) =>
      (Return tt,
       [Microphone.Print
          (Microphone.TestingMicrophone
             (match device_index with
              | Some i => if (i =? 0)%Z then None else Some i
              | None => None
              end));
        Microphone.Print Microphone.Rule;
        Microphone.Do (Microphone.Open device_index);
        Microphone.Print Microphone.Opened;
        Microphone.Print (Microphone.Recording duration);
        Microphone.Print Microphone.Speak] ++
       t ++
       [Microphone.Print (Microphone.OpenError e);
        Microphone.Print (Microphone.Troubleshooting 0);
        Microphone.Print (Microphone.Troubleshooting 1);
        Microphone.Print (Microphone.Troubleshooting 2);
        Microphone.Print (Microphone.Troubleshooting 3);
        Microphone.Do Microphone.Terminate;
        Microphone.Print Microphone.Rule])
  | (Blocked, t) =>
      (Blocked,
       [Microphone.Print
          (Microphone.TestingMicrophone
             (match device_index with
              | Some i => if (i =? 0)%Z then None else Some i
              | None => None
              end));
        Microphone.Print Microphone.Rule;
        Microphone.Do (Microphone.Open device_index);
        Microphone.Print Microphone.Opened;
        Microphone.Print (Microphone.Recording duration);
        Microphone.Print Microphone.Speak] ++ t)
  end.
Proof.
  unfold Microphone.test_microphone.
  destruct (Microphone.record duration start_time ticks 0) as [[m|[e|e|]|] t].
  - cbv [Microphone.bind Microphone.print Microphone.call Microphone.ret
         Microphone.try_except Microphone.try_finally snd].
    generalize (report_returns m).
    destruct (Microphone.report m) as [r tr]. cbn [fst]. intros ->.
    cbn [app]. rewrite <- ?app_assoc. cbn [app]. rewrite ?app_nil_r.
    reflexivity.
  - cbv [Microphone.bind Microphone.print Microphone.call Microphone.ret
         Microphone.try_except Microphone.try_finally snd].
    cbn [app]. rewrite <- ?app_assoc. cbn [app]. rewrite ?app_nil_r.
    reflexivity.
  - cbv [Microphone.bind Microphone.print Microphone.call Microphone.ret
         Microphone.try_except Microphone.try_finally snd].
    cbn [app]. rewrite <- ?app_assoc. cbn [app]. rewrite ?app_nil_r.
    reflexivity.
  - cbv [Microphone.bind Microphone.print Microphone.call Microphone.ret
         Microphone.try_except Microphone.try_finally snd].
    cbn [app]. rewrite <- ?app_assoc. cbn [app]. rewrite ?app_nil_r.
    reflexivity.
  - cbv [Microphone.bind Microphone.print Microphone.call Microphone.ret
         Microphone.try_except Microphone.try_finally snd].
    cbn [app]. rewrite <- ?app_assoc. cbn [app]. rewrite ?app_nil_r.
    reflexivity.
Qed.

Lemma printed_app (a b : list Microphone.event) :
  printed (a ++ b) = printed a ++ printed b.
Proof. apply flat_map_app. Qed.

Lemma performed_app (a b : list Microphone.event) :
  performed (a ++ b) = performed a ++ performed b.
Proof. apply flat_map_app. Qed.

Lemma volumes_shown_app (a b : list Microphone.event) :
  volumes_shown (a ++ b) = volumes_shown a ++ volumes_shown b.
Proof. unfold volumes_shown. now rewrite printed_app, flat_map_app. Qed.

Lemma maxima_shown_app (a b : list Microphone.event) :
  maxima_shown (a ++ b) = maxima_shown a ++ maxima_shown b.
Proof. unfold maxima_shown. now rewrite printed_app, flat_map_app. Qed.

Lemma verdicts_shown_app (a b : list Microphone.event) :
  verdicts_shown (a ++ b) = verdicts_shown a ++ verdicts_shown b.
Proof. unfold verdicts_shown. now rewrite printed_app, flat_map_app. Qed.

Lemma read_errors_app (a b : list Microphone.event) :
  read_errors (a ++ b) = read_errors a ++ read_errors b.
Proof. unfold read_errors. now rewrite printed_app, flat_map_app. Qed.

Lemma opened_app (a b : list Microphone.event) :
  opened (a ++ b) = opened a ++ opened b.
Proof. unfold opened. now rewrite performed_app, flat_map_app. Qed.

Lemma times_app (x : Microphone.action) (a b : list Microphone.event) :
  times x (a ++ b) = (times x a + times x b)%nat.
Proof. unfold times. now rewrite performed_app, filter_app, length_app. Qed.

Lemma times_report (x : Microphone.action) (m : Q) :
  times x (snd (Microphone.report m)) = 0%nat.
Proof.
  unfold times. now rewrite (proj2 (proj2 (proj2 (proj2 (report_shows m))))).
Qed.

Lemma opened_report (m : Q) : opened (snd (Microphone.report m)) = [].
Proof.
  unfold opened. now rewrite (proj2 (proj2 (proj2 (proj2 (report_shows m))))).
Qed.

(** X20. The verdict of the microphone test follows the loudest frame.
    When [test_microphone] opens the microphone and runs to its end, it
    shows one maximum and one verdict.  The maximum is 0 or the volume of
    one of the volume lines, and no volume line is above it.  The verdict
    is "very low" exactly when every volume shown is below 300, and
    "good" exactly when some volume shown is 1000 or more. *)
Theorem verdict_follows_loudest_frame
    (device_index : option Z) (duration start_time : Q)
    (ticks : list Microphone.tick) :
  let w :=
    Microphone.test_microphone device_index duration (Return tt)
      start_time ticks in
  fst w = Return tt ->
  exists m v,
    maxima_shown (snd w) = [m] /\ verdicts_shown (snd w) = [v] /\
    (m = 0 \/ In m (volumes_shown (snd w))) /\
    (forall x, In x (volumes_shown (snd w)) -> x <= m) /\
    0 <= m /\
    (v = Microphone.VeryLow <->
     forall x, In x (volumes_shown (snd w)) -> x < 300) /\
    (v = Microphone.VolumeGood <->
     exists x, In x (volumes_shown (snd w)) /\ 1000 <= x).
Proof.
  cbv zeta. rewrite test_microphone_open.
  pose proof (record_raises duration start_time ticks 0) as RR.
  pose proof (record_maximum duration start_time ticks 0) as RM.
  pose proof (record_quiet duration start_time ticks 0) as RQ.
  destruct (Microphone.record duration start_time ticks 0) as [[m|[e|e|]|] t];
    cbn [fst snd] in *;
    try (intros _; now specialize (RR _ eq_refl));
    try discriminate.
  intros _. specialize (RM m eq_refl). cbv zeta in *.
  destruct RM as (M1 & M2 & M3).
  destruct RQ as (Q1 & Q2 & _).
  destruct (report_shows m) as (R1 & R2 & R3 & _). cbv zeta in *.
  set (v := if Py.lt m 300 then Microphone.VeryLow
            else if Py.lt m 1000 then Microphone.SomewhatLow
            else Microphone.VolumeGood) in *.
  assert (V : volumes_shown
                ([Microphone.Print
                    (Microphone.TestingMicrophone
                       (match device_index with
                        | Some i => if (i =? 0)%Z then None else Some i
                        | None => None
                        end));
                  Microphone.Print Microphone.Rule;
                  Microphone.Do (Microphone.Open device_index);
                  Microphone.Print Microphone.Opened;
                  Microphone.Print (Microphone.Recording duration);
                  Microphone.Print Microphone.Speak] ++
                 t ++ snd (Microphone.report m) ++
                 [Microphone.Do Microphone.StopStream;
                  Microphone.Do Microphone.CloseStream;
                  Microphone.Do Microphone.Terminate;
                  Microphone.Print Microphone.Rule]) = volumes_shown t).
  { rewrite !volumes_shown_app, R3. cbn. now rewrite app_nil_r. }
  rewrite V.
  exists m, v.
  split; [rewrite !maxima_shown_app, Q1, R1; reflexivity|].
  split; [rewrite !verdicts_shown_app, Q2, R2; reflexivity|].
  split; [exact M1|]. split; [exact M3|]. split; [exact M2|].
  split.
  - split.
    + intros Hv x Hx. apply Qle_lt_trans with m; [now apply M3|].
      apply lt_true_iff. subst v.
      destruct (Py.lt m 300); [reflexivity|].
      destruct (Py.lt m 1000); discriminate.
    + intro H. subst v.
      destruct (Py.lt m 300) eqn:L; [reflexivity|].
      apply lt_false_iff in L. exfalso.
      destruct M1 as [->|M1].
      * revert L. unfold Qle. simpl. lia.
      * apply (Qlt_irrefl m). apply Qlt_le_trans with 300; [now apply H|exact L].
  - split.
    + intro Hv. subst v.
      destruct (Py.lt m 300); [discriminate|].
      destruct (Py.lt m 1000) eqn:L; [discriminate|].
      apply lt_false_iff in L.
      destruct M1 as [->|M1].
      * exfalso. revert L. unfold Qle. simpl. lia.
      * now exists m.
    + intros (x & Hx & Lx). subst v.
      assert (L : 1000 <= m) by (apply Qle_trans with x; [exact Lx|now apply M3]).
      destruct (Py.lt m 300) eqn:L1.
      * apply lt_true_iff in L1. exfalso. apply (Qlt_irrefl m).
        apply Qlt_le_trans with 300; [exact L1|].
        apply Qle_trans with 1000; [|exact L]. unfold Qle. simpl. lia.
      * destruct (Py.lt m 1000) eqn:L2; [|reflexivity].
        apply lt_true_iff in L2. exfalso. apply (Qlt_irrefl m).
        now apply Qlt_le_trans with 1000.
Qed.

Lemma verdict_follows_loudest_frame_witness :
  fst (Microphone.test_microphone (Some 1%Z) 5 (Return tt) 0
         example_recording) = Return tt /\
  exists m v,
    maxima_shown
      (snd (Microphone.test_microphone (Some 1%Z) 5 (Return tt) 0
              example_recording)) = [m] /\
    verdicts_shown
      (snd (Microphone.test_microphone (Some 1%Z) 5 (Return tt) 0
              example_recording)) = [v] /\
    v = Microphone.VolumeGood.
Proof.
  split; [reflexivity|].
  destruct (verdict_follows_loudest_frame (Some 1%Z) 5 0 example_recording
              eq_refl) as (m & v & Hm & Hv & _ & _ & _ & _ & G).
  exists m, v. split; [exact Hm|]. split; [exact Hv|].
  apply G. exists 1200. split; [right; left; reflexivity|].
  unfold Qle. simpl. lia.
Defined.

(** X21. [test_microphone] terminates PyAudio on every exit.  Whenever
    the test ends, by returning or by raising, it has asked [pa.open]
    once, for the device it was given, and called [pa.terminate] exactly
    once, as its last call.  No [Exception] leaves it: it raises only on
    Ctrl-C.  The stream is stopped and closed exactly when [pa.open]
    returned and the test ran to its end; after Ctrl-C during the
    recording neither [stop_stream] nor [close] is called. *)
Theorem pyaudio_terminated_on_every_exit
    (device_index : option Z) (duration : Q) (opening : result unit)
    (start_time : Q) (ticks : list Microphone.tick) :
  let w :=
    Microphone.test_microphone device_index duration opening
      start_time ticks in
  fst w <> Blocked ->
  times Microphone.Terminate (snd w) = 1%nat /\
  last (performed (snd w)) Microphone.Input = Microphone.Terminate /\
  opened (snd w) = [device_index] /\
  (forall e, fst w = Raise e -> e = KeyboardInterrupt) /\
  times Microphone.StopStream (snd w) = times Microphone.CloseStream (snd w) /\
  (times Microphone.CloseStream (snd w) <= 1)%nat /\
  (times Microphone.CloseStream (snd w) = 1%nat <->
   opening = Return tt /\ fst w = Return tt).
Proof.
  cbv zeta. destruct opening as [[]|e|].
  - rewrite test_microphone_open.
    pose proof (record_raises duration start_time ticks 0) as RR.
    pose proof (record_quiet duration start_time ticks 0) as RQ.
    destruct (Microphone.record duration start_time ticks 0)
      as [[m|[e|e|]|] t];
      cbn [fst snd] in *;
      try (intros _; now specialize (RR _ eq_refl)).
    + intros _. cbv zeta in RQ.
      destruct RQ as (_ & _ & Q3 & Q4 & Q5 & Q6 & _).
      rewrite !times_app, !opened_app, !times_report, opened_report, Q3, Q4,
        Q5, Q6.
      split; [reflexivity|].
      split.
      { rewrite !performed_app.
        change (performed
                  [Microphone.Do Microphone.StopStream;
                   Microphone.Do Microphone.CloseStream;
                   Microphone.Do Microphone.Terminate;
                   Microphone.Print Microphone.Rule])
          with ([Microphone.StopStream; Microphone.CloseStream] ++
                [Microphone.Terminate]).
        rewrite !app_assoc. apply last_last. }
      split; [reflexivity|].
      split; [discriminate|].
      split; [reflexivity|].
      split; [cbn; lia|].
      split; [now split|reflexivity].
    + intros _. cbv zeta in RQ.
      destruct RQ as (_ & _ & Q3 & Q4 & Q5 & Q6 & _).
      rewrite !times_app, !opened_app, Q3, Q4, Q5, Q6.
      split; [reflexivity|].
      split.
      { rewrite !performed_app.
        change (performed [Microphone.Do Microphone.Terminate])
          with [Microphone.Terminate].
        rewrite !app_assoc. apply last_last. }
      split; [reflexivity|].
      split; [now intros e [= <-]|].
      split; [reflexivity|].
      split; [cbn; lia|].
      split; [discriminate|intros [_ [=]]].
    + intros H. now contradiction H.
  - intros _. destruct e as [e|e|]; cbn.
    all: split; [reflexivity|].
    all: split; [reflexivity|].
    all: split; [reflexivity|].
    all: split; [try discriminate; now intros e' [= <-]|].
    all: split; [reflexivity|].
    all: split; [lia|].
    all: split; [discriminate|intros [[=] _]].
  - intros H. now contradiction H.
Qed.

Lemma pyaudio_terminated_on_every_exit_witness :
  fst (Microphone.test_microphone None 5 (Raise (Exception "no device")) 0 [])
    <> Blocked /\
  times Microphone.Terminate
    (snd (Microphone.test_microphone None 5 (Raise (Exception "no device")) 0
            [])) = 1%nat.
Proof.
  split; [discriminate|].
  apply (pyaudio_terminated_on_every_exit None 5
           (Raise (Exception "no device")) 0 []).
  discriminate.
Defined.

Lemma record_window (duration start_time : Q) (ticks : list Microphone.tick) :
  forall m,
    let t := snd (Microphone.record duration start_time ticks m) in
    volumes_shown t = leading_frames (window duration start_time ticks) /\
    (times Microphone.Read t <=
     List.length (window duration start_time ticks))%nat /\
    (List.length (volumes_shown t) <= times Microphone.Read t)%nat /\
    (times Microphone.Read t <= S (List.length (volumes_shown t)))%nat.
Proof.
  induction ticks as [|[now frame] rest IH]; intro m; cbv zeta.
  - cbn. repeat split; lia.
  - rewrite record_cons. cbn [window].
    change (Py.lt (now - start_time) duration)
      with (negb (Qle_bool duration (now - start_time))).
    destruct (Qle_bool duration (now - start_time)); cbn [negb].
    + cbn. repeat split; lia.
    + destruct frame as [v|[e|e|]|]; try (cbn; repeat split; lia).
      specialize (IH (PyStr.max m v)). cbv zeta in IH.
      destruct IH as (I1 & I2 & I3 & I4). cbn [snd leading_frames].
      change (volumes_shown (?a :: ?b :: ?t)) with (v :: volumes_shown t).
      change (times Microphone.Read (?a :: ?b :: ?t))
        with (S (times Microphone.Read t)).
      rewrite I1. cbn [List.length]. rewrite <- I1.
      repeat split; lia.
Qed.

(** X22. The microphone test reads frames only inside the recording
    window.  Once the microphone is open, the volume lines shown are, in
    order, the frames read from the start of the recording up to the
    first tick at which [duration] seconds have passed, or up to the
    first read that fails if that comes sooner; [stream.read] is never
    called more often than the window has ticks, and at most once more
    than there are volume lines.  If the duration has passed at the
    first test already (as with a duration of zero), no frame is read,
    and the test ends with the verdict "very low". *)
Theorem frames_read_only_in_window
    (device_index : option Z) (duration start_time : Q)
    (ticks : list Microphone.tick) :
  let w :=
    Microphone.test_microphone device_index duration (Return tt)
      start_time ticks in
  volumes_shown (snd w) = leading_frames (window duration start_time ticks) /\
  (times Microphone.Read (snd w) <=
   List.length (window duration start_time ticks))%nat /\
  (List.length (volumes_shown (snd w)) <= times Microphone.Read (snd w))%nat /\
  (times Microphone.Read (snd w) <=
   S (List.length (volumes_shown (snd w))))%nat /\
  (forall now frame rest,
     ticks = (now, frame) :: rest ->
     duration <= now - start_time ->
     fst w = Return tt /\
     times Microphone.Read (snd w) = 0%nat /\
     verdicts_shown (snd w) = [Microphone.VeryLow]).
Proof.
  cbv zeta.
  assert (V : forall t m,
             fst (Microphone.record duration start_time ticks 0) = Return m ->
             snd (Microphone.record duration start_time ticks 0) = t ->
             fst (Microphone.test_microphone device_index duration (Return tt)
                    start_time ticks) = Return tt /\
             verdicts_shown
               (snd (Microphone.test_microphone device_index duration
                       (Return tt) start_time ticks)) =
             verdicts_shown t ++
             [if Py.lt m 300 then Microphone.VeryLow
              else if Py.lt m 1000 then Microphone.SomewhatLow
              else Microphone.VolumeGood]).
  { intros t m E1 E2. rewrite test_microphone_open.
    destruct (Microphone.record duration start_time ticks 0) as [r t'].
    cbn [fst snd] in E1, E2. subst r t'. cbn [fst snd].
    split; [reflexivity|].
    rewrite !verdicts_shown_app.
    rewrite (proj1 (proj2 (report_shows m))). cbn. now rewrite ?app_nil_r. }
  assert (E : volumes_shown
                (snd (Microphone.test_microphone device_index duration
                        (Return tt) start_time ticks)) =
              volumes_shown
                (snd (Microphone.record duration start_time ticks 0)) /\
              times Microphone.Read
                (snd (Microphone.test_microphone device_index duration
                        (Return tt) start_time ticks)) =
              times Microphone.Read
                (snd (Microphone.record duration start_time ticks 0))).
  { rewrite test_microphone_open.
    destruct (Microphone.record duration start_time ticks 0)
      as [[m|[e|e|]|] t]; cbn [snd];
      rewrite ?volumes_shown_app, ?times_app, ?times_report,
        ?(proj1 (proj2 (proj2 (report_shows m))));
      cbn; rewrite ?app_nil_r; split; try reflexivity; lia. }
  destruct E as [E1 E2]. rewrite E1, E2.
  destruct (record_window duration start_time ticks 0) as (W1 & W2 & W3 & W4).
  split; [exact W1|]. split; [exact W2|]. split; [exact W3|].
  split; [exact W4|].
  intros now frame rest -> L.
  assert (R : Microphone.record duration start_time ((now, frame) :: rest) 0 =
              (Return 0, [])).
  { rewrite record_cons.
    now rewrite (proj2 (lt_false_iff (now - start_time) duration) L). }
  destruct (V [] 0) as [V1 V2]; [now rewrite R|now rewrite R|].
  split; [exact V1|]. split; [now rewrite R|]. rewrite V2. reflexivity.
Qed.

Lemma frames_read_only_in_window_witness :
  volumes_shown
    (snd (Microphone.test_microphone (Some 1%Z) 5 (Return tt) 0
            example_recording)) = [400; 1200] /\
  verdicts_shown
    (snd (Microphone.test_microphone None 0 (Return tt) 10
            [(10, Return 5000)])) = [Microphone.VeryLow].
Proof.
  split.
  - rewrite (proj1 (frames_read_only_in_window (Some 1%Z) 5 0
                      example_recording)).
    reflexivity.
  - apply (proj2 (proj2 (proj2 (proj2
             (frames_read_only_in_window None 0 10 [(10, Return 5000)]))))
             10 (Return 5000) []);
      [reflexivity|unfold Qle; simpl; lia].
Defined.

(** The loop up to a read that raises: every frame before it is shown,
    and nothing after it is looked at. *)
Lemma record_fault (duration start_time now : Q) (e : exn)
    (after : list Microphone.tick) :
  forall (before : list Microphone.tick) (m : Q),
    forallb is_frame before = true ->
    window duration start_time (before ++ [(now, Raise e)]) =
      before ++ [(now, Raise e)] ->
    let w :=
      Microphone.record duration start_time
        (before ++ (now, Raise e) :: after) m in
    (is_Exception e = true -> exists m', fst w = Return m') /\
    (is_Exception e = false -> fst w = Raise KeyboardInterrupt) /\
    read_errors (snd w) = (if is_Exception e then [str e] else []) /\
    times Microphone.Read (snd w) = S (List.length before) /\
    volumes_shown (snd w) = leading_frames before /\
    w = Microphone.record duration start_time (before ++ [(now, Raise e)]) m.
Proof.
  induction before as [|[n f] before IH]; intros m F W; cbv zeta.
  - cbn [app] in *. rewrite !record_cons.
    cbn [window] in W.
    change (Py.lt (now - start_time) duration)
      with (negb (Qle_bool duration (now - start_time))).
    destruct (Qle_bool duration (now - start_time)); [discriminate|].
    cbn [negb]. destruct e as [e|e|]; cbn.
    + split; [now exists m|]. repeat split; discriminate.
    + split; [now exists m|]. repeat split; discriminate.
    + split; [discriminate|]. repeat split.
  - cbn [app] in *. rewrite !record_cons.
    cbn [window] in W.
    change (Py.lt (n - start_time) duration)
      with (negb (Qle_bool duration (n - start_time))).
    destruct (Qle_bool duration (n - start_time)); [discriminate|].
    cbn [negb]. injection W as W.
    destruct f as [v| |]; cbn in F; try discriminate.
    specialize (IH (PyStr.max m v) F W). cbv zeta in IH.
    destruct IH as (I1 & I2 & I3 & I4 & I5 & I6).
    cbn [fst snd].
    split; [exact I1|]. split; [exact I2|].
    split; [exact I3|].
    split.
    { change (times Microphone.Read (?a :: ?b :: ?t))
        with (S (times Microphone.Read t)).
      now rewrite I4. }
    split.
    { change (volumes_shown (?a :: ?b :: ?t)) with (v :: volumes_shown t).
      now rewrite I5. }
    now rewrite I6.
Qed.

(** X23. A failed read ends the recording, not the microphone test.
    When [stream.read] raises an [Exception] inside the recording window,
    after frames that were read, the test shows the volume of each of
    those frames and the error, reads nothing more (what the microphone
    would have delivered afterwards makes no difference), and still
    reports a verdict, stops and closes the stream, terminates PyAudio
    and returns. *)
Theorem read_error_ends_recording_only
    (device_index : option Z) (duration start_time now : Q) (e : exn)
    (before after : list Microphone.tick) :
  is_Exception e = true ->
  forallb is_frame before = true ->
  window duration start_time (before ++ [(now, Raise e)]) =
    before ++ [(now, Raise e)] ->
  let w :=
    Microphone.test_microphone device_index duration (Return tt) start_time
      (before ++ (now, Raise e) :: after) in
  fst w = Return tt /\
  read_errors (snd w) = [str e] /\
  volumes_shown (snd w) = leading_frames before /\
  times Microphone.Read (snd w) = S (List.length before) /\
  (exists v, verdicts_shown (snd w) = [v]) /\
  times Microphone.StopStream (snd w) = 1%nat /\
  times Microphone.CloseStream (snd w) = 1%nat /\
  times Microphone.Terminate (snd w) = 1%nat /\
  w = Microphone.test_microphone device_index duration (Return tt) start_time
        (before ++ [(now, Raise e)]).
Proof.
  intros E F W. cbv zeta.
  destruct (record_fault duration start_time now e after before 0 F W)
    as (R1 & _ & R3 & R4 & R5 & R6).
  cbv zeta in *. destruct (R1 E) as [m Rm]. rewrite E in R3.
  rewrite !test_microphone_open. rewrite <- R6.
  pose proof (record_quiet duration start_time
                (before ++ (now, Raise e) :: after) 0) as RQ.
  cbv zeta in RQ.
  destruct (Microphone.record duration start_time
              (before ++ (now, Raise e) :: after) 0) as [r t].
  cbn [fst snd] in *. subst r.
  destruct RQ as (_ & Q2 & _ & Q4 & Q5 & Q6 & _).
  destruct (report_shows m) as (_ & S2 & S3 & S4 & _). cbv zeta in *.
  cbn [fst snd].
  rewrite !read_errors_app, !volumes_shown_app, !verdicts_shown_app,
    !times_app, !times_report, R3, R4, R5, S2, S3, S4, Q2, Q4, Q5, Q6.
  split; [reflexivity|].
  split; [reflexivity|].
  split; [cbn; now rewrite app_nil_r|].
  split; [cbn; lia|].
  split; [eexists; reflexivity|].
  repeat split; cbn; lia.
Qed.

Lemma read_error_ends_recording_only_witness :
  fst (Microphone.test_microphone None 5 (Return tt) 0
         [(1, Return 400); (2, Raise (Exception "device unplugged"));
          (3, Return 1200)]) = Return tt /\
  volumes_shown
    (snd (Microphone.test_microphone None 5 (Return tt) 0
            [(1, Return 400); (2, Raise (Exception "device unplugged"));
             (3, Return 1200)])) = [400].
Proof.
  pose proof (read_error_ends_recording_only None 5 0 2
                (Exception "device unplugged") [(1, Return 400)]
                [(3, Return 1200)] eq_refl eq_refl eq_refl) as H.
  split; [exact (proj1 H)|exact (proj1 (proj2 (proj2 H)))].
Defined.

Lemma entry_eq (table : list Devices.info) (default : result nat) (i : nat) :
  Microphone.entry table default i =
  match nth_error table i with
  | Some info =>
      if is_input_device info then
        match default with
        | Return d =>
            (Return tt,
             [Microphone.Print (Microphone.Device i (Devices.name info));
              Microphone.Print
                (Microphone.SampleRate
                   (Py.int (Devices.defaultSampleRate info)));
              Microphone.Print
                (Microphone.InputChannels (Devices.maxInputChannels info));
              Microphone.Do Microphone.DefaultInput] ++
             (if (i =? d)%nat
              then [Microphone.Print Microphone.DefaultDevice] else []))
        | Raise e =>
            (Raise e,
             [Microphone.Print (Microphone.Device i (Devices.name info));
              Microphone.Print
                (Microphone.SampleRate
                   (Py.int (Devices.defaultSampleRate info)));
              Microphone.Print
                (Microphone.InputChannels (Devices.maxInputChannels info));
              Microphone.Do Microphone.DefaultInput])
        | Blocked =>
            (Blocked,
             [Microphone.Print (Microphone.Device i (Devices.name info));
              Microphone.Print
                (Microphone.SampleRate
                   (Py.int (Devices.defaultSampleRate info)));
              Microphone.Print
                (Microphone.InputChannels (Devices.maxInputChannels info));
              Microphone.Do Microphone.DefaultInput])
        end
      else (Return tt, [])
  | None => (Return tt, [])
  end.
Proof.
  unfold Microphone.entry, is_input_device.
  destruct (nth_error table i) as [info|]; [|reflexivity].
  destruct (Devices.maxInputChannels info >? 0)%Z; [|reflexivity].
  destruct default as [d|e|]; try reflexivity.
  cbv [Microphone.bind Microphone.print Microphone.call Microphone.ret app].
  now destruct (i =? d)%nat.
Qed.

(** The default device of a table part, as the listing marks it. *)
Lemma listing_from (d : nat) (rest : list Devices.info) :
  forall (earlier : list Devices.info) (current : option nat),
    let w :=
      Microphone.for_each (seq (List.length earlier) (List.length rest))
        (Microphone.entry (earlier ++ rest) (Return d)) in
    fst w = Return tt /\
    listed (snd w) = input_devices_from (List.length earlier) rest /\
    marked_from current (printed (snd w)) =
      match nth_error rest (d - List.length earlier) with
      | Some info =>
          if (List.length earlier <=? d)%nat && is_input_device info
          then [d] else []
      | None => []
      end /\
    times Microphone.DefaultInput (snd w) =
      List.length (input_devices_from (List.length earlier) rest) /\
    times Microphone.Terminate (snd w) = 0%nat.
Proof.
  induction rest as [|x rest IH]; intros earlier current; cbv zeta.
  - cbn. split; [reflexivity|]. split; [reflexivity|].
    split; [now destruct (d - List.length earlier)%nat|]. now split.
  - cbn [List.length seq Microphone.for_each input_devices_from].
    specialize (IH (earlier ++ [x])).
    rewrite <- app_assoc, length_app in IH. cbn [app List.length] in IH.
    rewrite Nat.add_1_r in IH.
    rewrite entry_eq, nth_error_app2, Nat.sub_diag by lia.
    cbn [nth_error].
    destruct (is_input_device x) eqn:I.
    + specialize (IH (Some (List.length earlier))). cbv zeta in IH.
      destruct IH as (I1 & I2 & I3 & I4 & I5).
      destruct (Microphone.for_each _ _) as [r t]. cbn [fst snd] in *.
      subst r. cbv [Microphone.bind]. cbn [fst snd].
      split; [reflexivity|].
      destruct (Nat.eqb_spec (List.length earlier) d) as [E|E].
      * subst d. rewrite Nat.sub_diag in *. cbn [nth_error]. rewrite I.
        rewrite Nat.leb_refl. cbn [andb].
        replace (List.length earlier - S (List.length earlier))%nat
          with 0%nat in I3 by lia.
        replace (S (List.length earlier) <=? List.length earlier)%nat
          with false in I3 by (symmetry; apply Nat.leb_gt; lia).
        cbn [andb] in I3.
        assert (I3' : marked_from (Some (List.length earlier)) (printed t) = [])
          by (rewrite I3; now destruct (nth_error rest 0)).
        split; [cbn; now rewrite <- I2|].
        split; [cbn; fold (printed t); now rewrite I3'|].
        split; [cbn; cbn in I4; now rewrite <- I4|exact I5].
      * split; [cbn; now rewrite <- I2|].
        split.
        { cbn. fold (printed t). rewrite I3.
          destruct (Nat.leb_spec (List.length earlier) d) as [L|L].
          - replace (d - List.length earlier)%nat
              with (S (d - S (List.length earlier)))%nat by lia.
            cbn [nth_error].
            replace (S (List.length earlier) <=? d)%nat with true
              by (symmetry; apply Nat.leb_le; lia).
            reflexivity.
          - replace (S (List.length earlier) <=? d)%nat with false
              by (symmetry; apply Nat.leb_gt; lia).
            cbn [andb].
            destruct (nth_error rest _), (nth_error (x :: rest) _);
              reflexivity. }
        split; [cbn; cbn in I4; now rewrite <- I4|exact I5].
    + specialize (IH current). cbv zeta in IH.
      destruct IH as (I1 & I2 & I3 & I4 & I5).
      destruct (Microphone.for_each _ _) as [r t]. cbn [fst snd] in *.
      subst r. cbv [Microphone.bind]. cbn [fst snd app].
      split; [reflexivity|].
      split; [exact I2|].
      split; [|split; [exact I4|exact I5]].
      rewrite I3.
      destruct (Nat.eqb_spec (List.length earlier) d) as [E|E].
      * subst d. rewrite Nat.sub_diag. cbn [nth_error]. rewrite I.
        rewrite andb_false_r.
        replace (S (List.length earlier) <=? List.length earlier)%nat
          with false by (symmetry; apply Nat.leb_gt; lia).
        now destruct (nth_error rest _).
      * destruct (Nat.leb_spec (List.length earlier) d) as [L|L].
        -- replace (d - List.length earlier)%nat
             with (S (d - S (List.length earlier)))%nat by lia.
           cbn [nth_error].
           replace (S (List.length earlier) <=? d)%nat with true
             by (symmetry; apply Nat.leb_le; lia).
           reflexivity.
        -- replace (S (List.length earlier) <=? d)%nat with false
             by (symmetry; apply Nat.leb_gt; lia).
           cbn [andb].
           destruct (nth_error rest _), (nth_error (x :: rest) _);
             reflexivity.
Qed.

Lemma marked_from_rule (lines : list Microphone.line) :
  forall current,
    marked_from current (lines ++ [Microphone.Rule]) =
    marked_from current lines.
Proof.
  induction lines as [|l lines IH]; intro current; [reflexivity|].
  destruct l; cbn [app marked_from]; rewrite ?IH; reflexivity.
Qed.

(** The listing when the default device cannot be told: it stops at the
    first input device. *)
Lemma listing_from_failure (e : exn) (rest : list Devices.info) :
  forall earlier : list Devices.info,
    let w :=
      Microphone.for_each (seq (List.length earlier) (List.length rest))
        (Microphone.entry (earlier ++ rest) (Raise e)) in
    fst w =
      match input_devices_from (List.length earlier) rest with
      | [] => Return tt
      | _ :: _ => Raise e
      end /\
    listed (snd w) =
      firstn 1 (input_devices_from (List.length earlier) rest) /\
    times Microphone.DefaultInput (snd w) =
      List.length (firstn 1 (input_devices_from (List.length earlier) rest)) /\
    times Microphone.Terminate (snd w) = 0%nat.
Proof.
  induction rest as [|x rest IH]; intro earlier; cbv zeta.
  - cbn. repeat split.
  - cbn [List.length seq Microphone.for_each input_devices_from].
    specialize (IH (earlier ++ [x])).
    rewrite <- app_assoc, length_app in IH. cbn [app List.length] in IH.
    rewrite Nat.add_1_r in IH.
    rewrite entry_eq, nth_error_app2, Nat.sub_diag by lia.
    cbn [nth_error].
    destruct (is_input_device x) eqn:I.
    + cbn. repeat split.
    + cbv zeta in IH. destruct IH as (I1 & I2 & I3 & I4).
      destruct (Microphone.for_each _ _) as [r t]. cbn [fst snd] in *.
      cbv [Microphone.bind]. cbn [fst snd app].
      repeat split; assumption.
Qed.

(** X24. [list_devices] marks the default input device, and no other.
    Given the index of the default input device, the listing shows the
    devices that have input channels, each with its index in PyAudio's
    table, asks for the default device once per device shown, puts the
    default mark under the device with that index if it is one of those
    shown, and nowhere else, and terminates PyAudio once before it
    returns. *)
Theorem default_input_device_is_marked
    (table : list Devices.info) (d : nat) :
  let w := Microphone.list_devices table (Return d) in
  fst w = Return tt /\
  listed (snd w) = input_devices_from 0 table /\
  marked (snd w) =
    match nth_error table d with
    | Some info => if is_input_device info then [d] else []
    | None => []
    end /\
  times Microphone.DefaultInput (snd w) =
    List.length (input_devices_from 0 table) /\
  times Microphone.Terminate (snd w) = 1%nat.
Proof.
  cbv zeta. unfold Microphone.list_devices.
  pose proof (listing_from d table [] None) as L. cbv zeta in L.
  cbn [app List.length] in L. rewrite Nat.sub_0_r in L.
  destruct L as (L1 & L2 & L3 & L4 & L5).
  destruct (Microphone.for_each _ _) as [r t]. cbn [fst snd] in *. subst r.
  cbv [Microphone.bind Microphone.print Microphone.call]. cbn [fst snd app].
  split; [reflexivity|].
  split.
  { unfold listed in *. cbn. fold (printed t).
    rewrite printed_app, flat_map_app, L2. cbn. now rewrite app_nil_r. }
  split.
  { unfold marked. cbn. fold (printed t). rewrite printed_app.
    cbn. rewrite marked_from_rule. exact L3. }
  split.
  { change (times Microphone.DefaultInput (?a :: ?b :: ?u))
      with (times Microphone.DefaultInput u).
    rewrite times_app, L4. cbn. lia. }
  change (times Microphone.Terminate (?a :: ?b :: ?u))
    with (times Microphone.Terminate u).
  rewrite times_app, L5. reflexivity.
Qed.

(** X25. When the default input device cannot be told, [list_devices]
    fails at the first input device and leaves PyAudio unterminated.  If
    [pa.get_default_input_device_info()] raises and the table has a
    device with input channels, the listing shows the first such device
    only, the exception leaves [list_devices], and [pa.terminate] is not
    called.  If no device has input channels, the default device is
    never asked for, and the listing returns after terminating
    PyAudio. *)
Theorem listing_fails_without_default_device
    (table : list Devices.info) (e : exn) :
  let w := Microphone.list_devices table (Raise e) in
  (input_devices_from 0 table = [] ->
   fst w = Return tt /\
   listed (snd w) = [] /\
   times Microphone.DefaultInput (snd w) = 0%nat /\
   times Microphone.Terminate (snd w) = 1%nat) /\
  (input_devices_from 0 table <> [] ->
   fst w = Raise e /\
   listed (snd w) = firstn 1 (input_devices_from 0 table) /\
   times Microphone.DefaultInput (snd w) = 1%nat /\
   times Microphone.Terminate (snd w) = 0%nat).
Proof.
  cbv zeta. unfold Microphone.list_devices.
  pose proof (listing_from_failure e table []) as L. cbv zeta in L.
  cbn [app List.length] in L.
  destruct L as (L1 & L2 & L3 & L4).
  destruct (Microphone.for_each _ _) as [r t]. cbn [fst snd] in *.
  destruct (input_devices_from 0 table) as [|p l] eqn:D.
  - split; [intros _|intro H; now contradiction H].
    subst r.
    cbv [Microphone.bind Microphone.print Microphone.call]. cbn [fst snd app].
    split; [reflexivity|].
    split.
    { unfold listed in *. cbn. fold (printed t).
      rewrite printed_app, flat_map_app, L2. reflexivity. }
    split.
    { change (times Microphone.DefaultInput (?a :: ?b :: ?u))
        with (times Microphone.DefaultInput u).
      rewrite times_app, L3. reflexivity. }
    change (times Microphone.Terminate (?a :: ?b :: ?u))
      with (times Microphone.Terminate u).
    rewrite times_app, L4. reflexivity.
  - split; [discriminate|intros _].
    subst r.
    cbv [Microphone.bind Microphone.print Microphone.call]. cbn [fst snd app].
    split; [reflexivity|].
    split.
    { unfold listed in *. cbn. fold (printed t). exact L2. }
    split.
    { change (times Microphone.DefaultInput (?a :: ?b :: ?u))
        with (times Microphone.DefaultInput u).
      exact L3. }
    change (times Microphone.Terminate (?a :: ?b :: ?u))
      with (times Microphone.Terminate u).
    exact L4.
Qed.

Lemma listing_fails_without_default_device_witness :
  fst (Microphone.list_devices example_table
         (Raise (Exception "No Default Input Device Available"))) =
    Raise (Exception "No Default Input Device Available") /\
  fst (Microphone.list_devices (firstn 1 example_table)
         (Raise (Exception "No Default Input Device Available"))) =
    Return tt.
Proof.
  split.
  - apply (proj2 (listing_fails_without_default_device example_table
                    (Exception "No Default Input Device Available"))).
    discriminate.
  - apply (proj1 (listing_fails_without_default_device
                    (firstn 1 example_table)
                    (Exception "No Default Input Device Available"))).
    reflexivity.
Defined.

(** The listing opens nothing, reads nothing and asks nothing. *)
Lemma for_each_entry_quiet (table : list Devices.info) (default : result nat)
    (items : list nat) :
  let t := snd (Microphone.for_each items (Microphone.entry table default)) in
  opened t = [] /\
  times Microphone.Read t = 0%nat /\
  times Microphone.StopStream t = 0%nat /\
  times Microphone.CloseStream t = 0%nat /\
  times Microphone.Input t = 0%nat /\
  times Microphone.Terminate t = 0%nat.
Proof.
  cbv zeta. induction items as [|i items IH]; [cbn; repeat split|].
  cbn [Microphone.for_each]. rewrite entry_eq.
  destruct IH as (I1 & I2 & I3 & I4 & I5 & I6).
  destruct (Microphone.for_each items _) as [r t]. cbn [snd] in *.
  destruct (nth_error table i) as [info|];
    [destruct (is_input_device info);
     [destruct default as [d|e|]; [destruct (i =? d)%nat| |]|]|];
    cbv [Microphone.bind]; cbn [snd app];
    repeat split; assumption || reflexivity.
Qed.

Lemma list_devices_quiet (table : list Devices.info) (default : result nat) :
  let w := Microphone.list_devices table default in
  opened (snd w) = [] /\
  times Microphone.Read (snd w) = 0%nat /\
  times Microphone.StopStream (snd w) = 0%nat /\
  times Microphone.CloseStream (snd w) = 0%nat /\
  times Microphone.Input (snd w) = 0%nat /\
  (fst w = Return tt -> times Microphone.Terminate (snd w) = 1%nat).
Proof.
  cbv zeta. unfold Microphone.list_devices.
  destruct (for_each_entry_quiet table default (seq 0 (List.length table)))
    as (I1 & I2 & I3 & I4 & I5 & I6).
  destruct (Microphone.for_each _ _) as [[[]|e|] t]; cbn [snd] in *;
    cbv [Microphone.bind Microphone.print Microphone.call]; cbn [fst snd app].
  - change (opened (?a :: ?b :: ?u)) with (opened u).
    change (times ?x (?a :: ?b :: ?u)) with (times x u).
    rewrite opened_app, !times_app, I1, I2, I3, I4, I5, I6.
    repeat split.
  - repeat split; try assumption. discriminate.
  - repeat split; try assumption. discriminate.
Qed.

(** [main], once the listing has returned, in terms of the test. *)
Lemma main_eq (s : Microphone.session) (listing : list Microphone.event) :
  Microphone.list_devices (Microphone.table s) (Microphone.default s) =
    (Return tt, listing) ->
  Microphone.main s =
  match Microphone.keyboard s with
  | Return answer =>
      if String.eqb (Py.lower (PyStr.strip answer)) "q" then
        (Return tt,
         [Microphone.Print Microphone.Rule;
          Microphone.Print Microphone.Title;
          Microphone.Print Microphone.Rule] ++
         listing ++
         [Microphone.Print (Microphone.SelectAction 0);
          Microphone.Print (Microphone.SelectAction 1);
          Microphone.Print (Microphone.SelectAction 2);
          Microphone.Print (Microphone.SelectAction 3);
          Microphone.Do Microphone.Input;
          Microphone.Print Microphone.Exiting])
      else
        let w :=
          Microphone.test_microphone
            (if PyStr.isdigit (PyStr.strip answer)
             then Some (PyStr.int (PyStr.strip answer)) else None)
            5 (Microphone.opening s) (Microphone.start_time s)
            (Microphone.ticks s) in
        (match fst w with Return _ => Return tt | other => other end,
         [Microphone.Print Microphone.Rule;
          Microphone.Print Microphone.Title;
          Microphone.Print Microphone.Rule] ++
         listing ++
         [Microphone.Print (Microphone.SelectAction 0);
          Microphone.Print (Microphone.SelectAction 1);
          Microphone.Print (Microphone.SelectAction 2);
          Microphone.Print (Microphone.SelectAction 3);
          Microphone.Do Microphone.Input;
          Microphone.Print
            (if PyStr.isdigit (PyStr.strip answer)
             then Microphone.TestingDevice (PyStr.int (PyStr.strip answer))
             else Microphone.TestingDefault)] ++
         snd w ++
         match fst w with
         | Return _ => [Microphone.Print Microphone.TestComplete]
         | _ => []
         end)
  | Raise e =>
      (Raise e,
       [Microphone.Print Microphone.Rule;
        Microphone.Print Microphone.Title;
        Microphone.Print Microphone.Rule] ++
       listing ++
       [Microphone.Print (Microphone.SelectAction 0);
        Microphone.Print (Microphone.SelectAction 1);
        Microphone.Print (Microphone.SelectAction 2);
        Microphone.Print (Microphone.SelectAction 3);
        Microphone.Do Microphone.Input])
  | Blocked =>
      (Blocked,
       [Microphone.Print Microphone.Rule;
        Microphone.Print Microphone.Title;
        Microphone.Print Microphone.Rule] ++
       listing ++
       [Microphone.Print (Microphone.SelectAction 0);
        Microphone.Print (Microphone.SelectAction 1);
        Microphone.Print (Microphone.SelectAction 2);
        Microphone.Print (Microphone.SelectAction 3);
        Microphone.Do Microphone.Input])
  end.
Proof.
  intro L. unfold Microphone.main. rewrite L.
  destruct (Microphone.keyboard s) as [answer|e|].
  - cbv [Microphone.bind Microphone.print Microphone.call Microphone.ret].
    destruct (String.eqb _ "q").
    + cbn [app]. rewrite <- ?app_assoc. reflexivity.
    + cbv zeta.
      destruct (PyStr.isdigit (PyStr.strip answer));
        destruct (Microphone.test_microphone _ _ _ _ _) as [[[]|e|] t];
        cbn [fst snd app]; rewrite <- ?app_assoc; cbn [app];
        rewrite ?app_nil_r; reflexivity.
  - cbv [Microphone.bind Microphone.print Microphone.call Microphone.ret].
    cbn [app]. rewrite <- ?app_assoc. reflexivity.
  - cbv [Microphone.bind Microphone.print Microphone.call Microphone.ret].
    cbn [app]. rewrite <- ?app_assoc. reflexivity.
Qed.

Lemma labels_app (a b : list Microphone.event) :
  labels (a ++ b) = labels a ++ labels b.
Proof. unfold labels. now rewrite printed_app, flat_map_app. Qed.

Lemma int_from_nonneg (s : string) :
  forall acc, (0 <= acc)%Z -> PyStr.all_digits s = true ->
    (0 <= PyStr.int_from acc s)%Z.
Proof.
  induction s as [|c s IH]; intros acc A D; [exact A|].
  cbn [PyStr.all_digits PyStr.int_from] in *.
  apply andb_true_iff in D. destruct D as [D1 D2].
  apply IH; [|exact D2].
  unfold PyStr.is_digit in D1. apply andb_true_iff in D1.
  destruct D1 as [D1 _]. apply N.leb_le in D1. lia.
Qed.

Lemma record_labels (duration start_time : Q) (ticks : list Microphone.tick) :
  forall m, labels (snd (Microphone.record duration start_time ticks m)) = [].
Proof.
  induction ticks as [|[now frame] rest IH]; intro m; [reflexivity|].
  rewrite record_cons. destruct (Py.lt _ _); [|reflexivity].
  destruct frame as [v|[e|e|]|]; try reflexivity.
  cbn [snd]. exact (IH _).
Qed.

(** What [test_microphone] opens and announces, however it ends. *)
Lemma test_microphone_opens (device_index : option Z) (duration : Q)
    (opening : result unit) (start_time : Q) (ticks : list Microphone.tick) :
  let w :=
    Microphone.test_microphone device_index duration opening start_time
      ticks in
  opened (snd w) = [device_index] /\
  labels (snd w) =
    [match device_index with
     | Some i => if (i =? 0)%Z then None else Some i
     | None => None
     end] /\
  times Microphone.Input (snd w) = 0%nat.
Proof.
  cbv zeta. destruct opening as [[]|e|].
  - rewrite test_microphone_open.
    pose proof (record_quiet duration start_time ticks 0) as RQ.
    cbv zeta in RQ. destruct RQ as (_ & _ & Q3 & _ & _ & _ & Q7 & _).
    pose proof (record_labels duration start_time ticks 0) as QL.
    destruct (Microphone.record duration start_time ticks 0)
      as [[m|[e|e|]|] t]; cbn [snd] in *.
    all: rewrite ?opened_app, ?labels_app, ?times_app, ?opened_report,
           ?times_report, ?Q3, ?Q7, ?QL.
    all: try (assert (RL : labels (snd (Microphone.report m)) = [])
               by (unfold Microphone.report;
                   cbv [Microphone.bind Microphone.print app];
                   destruct (Py.lt m 300); [reflexivity|];
                   destruct (Py.lt m 1000); reflexivity);
              rewrite RL).
    all: repeat split.
  - destruct e as [e|e|]; cbn; repeat split.
  - cbn. repeat split.
Qed.

(** [main] by the answer, as the model reads it. *)
Lemma main_by_choice (s : Microphone.session) (answer : string) :
  Microphone.keyboard s = Return answer ->
  fst (Microphone.list_devices (Microphone.table s) (Microphone.default s)) =
    Return tt ->
  let choice := PyStr.strip answer in
  let t := snd (Microphone.main s) in
  (Py.lower choice = "q"%string ->
   fst (Microphone.main s) = Return tt /\
   opened t = [] /\
   times Microphone.Read t = 0%nat /\
   last (printed t) Microphone.Rule = Microphone.Exiting) /\
  (Py.lower choice <> "q"%string ->
   opened t =
     [if PyStr.isdigit choice then Some (PyStr.int choice) else None] /\
   labels t =
     [if PyStr.isdigit choice && negb (PyStr.int choice =? 0)%Z
      then Some (PyStr.int choice) else None]) /\
  (forall i, In (Some i) (opened t) -> (0 <= i)%Z).
Proof.
  intros K L. cbv zeta.
  destruct (list_devices_quiet (Microphone.table s) (Microphone.default s))
    as (Q1 & Q2 & _ & _ & _ & _).
  assert (QL : labels
                 (snd (Microphone.list_devices (Microphone.table s)
                         (Microphone.default s))) = []).
  { unfold Microphone.list_devices.
    assert (E : forall items,
               labels
                 (snd (Microphone.for_each items
                         (Microphone.entry (Microphone.table s)
                            (Microphone.default s)))) = []).
    { induction items as [|i items IH]; [reflexivity|].
      cbn [Microphone.for_each]. rewrite entry_eq.
      destruct (Microphone.for_each items _) as [r t]. cbn [snd] in *.
      destruct (nth_error (Microphone.table s) i) as [info|];
        [destruct (is_input_device info);
         [destruct (Microphone.default s) as [d|e|];
          [destruct (i =? d)%nat| |]|]|];
        cbv [Microphone.bind]; cbn [snd app]; assumption || reflexivity. }
    specialize (E (seq 0 (List.length (Microphone.table s)))).
    destruct (Microphone.for_each _ _) as [[[]|e|] t]; cbn [snd] in *;
      cbv [Microphone.bind Microphone.print Microphone.call];
      cbn [fst snd app]; try assumption.
    change (labels (?a :: ?b :: ?u)) with (labels u).
    rewrite labels_app, E. reflexivity. }
  destruct (Microphone.list_devices (Microphone.table s)
              (Microphone.default s)) as [r listing] eqn:LD.
  cbn [fst snd] in *. subst r.
  rewrite (main_eq s listing LD), K.
  destruct (String.eqb_spec (Py.lower (PyStr.strip answer)) "q") as [E|E].
  - cbn [fst snd].
    split; [intros _|split; [intro H; now contradiction H|]].
    + split; [reflexivity|].
      split; [now rewrite !opened_app, Q1|].
      split; [now rewrite !times_app, Q2|].
      rewrite !printed_app.
      change (printed
                [Microphone.Print (Microphone.SelectAction 0);
                 Microphone.Print (Microphone.SelectAction 1);
                 Microphone.Print (Microphone.SelectAction 2);
                 Microphone.Print (Microphone.SelectAction 3);
                 Microphone.Do Microphone.Input;
                 Microphone.Print Microphone.Exiting])
        with ([Microphone.SelectAction 0; Microphone.SelectAction 1;
               Microphone.SelectAction 2; Microphone.SelectAction 3] ++
              [Microphone.Exiting]).
      rewrite !app_assoc. apply last_last.
    + intros i. rewrite !opened_app, Q1. intros [].
  - cbv zeta. cbn [fst snd].
    set (dev := if PyStr.isdigit (PyStr.strip answer)
                then Some (PyStr.int (PyStr.strip answer)) else None).
    destruct (test_microphone_opens dev 5 (Microphone.opening s)
                (Microphone.start_time s) (Microphone.ticks s))
      as (T1 & T2 & _).
    cbv zeta in T1, T2.
    assert (O : opened
                  ([Microphone.Print Microphone.Rule;
                    Microphone.Print Microphone.Title;
                    Microphone.Print Microphone.Rule] ++
                   listing ++
                   [Microphone.Print (Microphone.SelectAction 0);
                    Microphone.Print (Microphone.SelectAction 1);
                    Microphone.Print (Microphone.SelectAction 2);
                    Microphone.Print (Microphone.SelectAction 3);
                    Microphone.Do Microphone.Input;
                    Microphone.Print
                      (if PyStr.isdigit (PyStr.strip answer)
                       then Microphone.TestingDevice
                              (PyStr.int (PyStr.strip answer))
                       else Microphone.TestingDefault)] ++
                   snd (Microphone.test_microphone dev 5
                          (Microphone.opening s) (Microphone.start_time s)
                          (Microphone.ticks s)) ++
                   match
                     fst (Microphone.test_microphone dev 5
                            (Microphone.opening s) (Microphone.start_time s)
                            (Microphone.ticks s))
                   with
                   | Return _ => [Microphone.Print Microphone.TestComplete]
                   | _ => []
                   end) = [dev]).
    { rewrite !opened_app, Q1, T1.
      destruct (fst (Microphone.test_microphone _ _ _ _ _)) as [[]|e|];
        destruct (PyStr.isdigit (PyStr.strip answer)); reflexivity. }
    rewrite O.
    split; [intro H; now contradiction E|split; [intros _|]].
    + split; [reflexivity|].
      rewrite !labels_app, QL, T2. subst dev.
      destruct (fst (Microphone.test_microphone _ _ _ _ _)) as [[]|e|];
        destruct (PyStr.isdigit (PyStr.strip answer)); cbn;
        try reflexivity;
        now destruct (PyStr.int (PyStr.strip answer) =? 0)%Z.
    + intros i [H|[]]. subst dev.
      destruct (PyStr.isdigit (PyStr.strip answer)) eqn:D; [|discriminate].
      injection H as <-. unfold PyStr.isdigit in D.
      apply andb_true_iff in D. destruct D as [_ D].
      now apply int_from_nonneg.
Qed.

Lemma lower_is_q (s : string) :
  Py.lower s = "q"%string <-> s = "q"%string \/ s = "Q"%string.
Proof.
  split.
  - destruct s as [|c [|d s]]; try discriminate.
    cbn [Py.lower]. intros [= H].
    apply (f_equal N_of_ascii) in H. rewrite lower_char_N in H.
    change (N_of_ascii "q") with 113%N in H.
    destruct ((65 <=? N_of_ascii c) && (N_of_ascii c <=? 90))%N.
    + right. f_equal. apply N_of_ascii_inj.
      change (N_of_ascii "Q") with 81%N. lia.
    + left. f_equal. apply N_of_ascii_inj. exact H.
  - intros [->| ->]; reflexivity.
Qed.

(** X26. The operator's answer selects the device that is tested.  The
    answer is a line of ASCII characters, of at most 4300 of them (so that
    [int] converts any number in it).  Once the listing is done and the
    operator has answered the prompt, with [choice] the answer stripped of
    surrounding white space: if [choice] is "q" or "Q", [main] returns
    without opening or reading anything, "Exiting..." being its last line;
    otherwise it asks [pa.open] once, for the device whose index is the
    number typed when [choice] is made of digits, and for the default
    device otherwise (also for "-1", which is not made of digits).  A
    negative index is never asked for.  The "Testing Microphone" line
    names the index only when it is not 0: device 0 is announced as
    "Default". *)
Theorem choice_selects_device (s : Microphone.session) (answer : string) :
  Microphone.keyboard s = Return answer ->
  Py.is_ascii answer = true ->
  (String.length answer <= 4300)%nat ->
  fst (Microphone.list_devices (Microphone.table s) (Microphone.default s)) =
    Return tt ->
  let choice := PyStr.strip answer in
  let t := snd (Microphone.main s) in
  (choice = "q"%string \/ choice = "Q"%string ->
   fst (Microphone.main s) = Return tt /\
   opened t = [] /\
   times Microphone.Read t = 0%nat /\
   last (printed t) Microphone.Rule = Microphone.Exiting) /\
  (choice <> "q"%string -> choice <> "Q"%string ->
   opened t =
     [if PyStr.isdigit choice then Some (PyStr.int choice) else None] /\
   labels t =
     [if PyStr.isdigit choice && negb (PyStr.int choice =? 0)%Z
      then Some (PyStr.int choice) else None]) /\
  (forall i, In (Some i) (opened t) -> (0 <= i)%Z).
Proof.
  intros K _ _ L. cbv zeta.
  destruct (main_by_choice s answer K L) as (H1 & H2 & H3).
  split; [|split; [|exact H3]].
  - intro Q. apply H1. now apply lower_is_q.
  - intros N1 N2. apply H2. rewrite lower_is_q. tauto.
Qed.

Lemma choice_selects_device_witness :
  (opened (snd (Microphone.main (session_answering " 12 "))) = [Some 12%Z] /\
   labels (snd (Microphone.main (session_answering " 12 "))) = [Some 12%Z]) /\
  (opened (snd (Microphone.main (session_answering "0"))) = [Some 0%Z] /\
   labels (snd (Microphone.main (session_answering "0"))) = [None]) /\
  (opened (snd (Microphone.main (session_answering "-1"))) = [None] /\
   labels (snd (Microphone.main (session_answering "-1"))) = [None]) /\
  (fst (Microphone.main (session_answering " Q ")) = Return tt /\
   opened (snd (Microphone.main (session_answering " Q "))) = []).
Proof.
  assert (B : forall n : nat, (n <= 4)%nat -> (n <= 4300)%nat) by (intros; lia).
  split; [|split; [|split]].
  - apply (proj1 (proj2 (choice_selects_device (session_answering " 12 ")
                           " 12 " eq_refl eq_refl
                           (B 4%nat (le_n 4)) eq_refl)));
      discriminate.
  - apply (proj1 (proj2 (choice_selects_device (session_answering "0")
                           "0" eq_refl eq_refl
                           (B 1%nat ltac:(lia)) eq_refl)));
      discriminate.
  - apply (proj1 (proj2 (choice_selects_device (session_answering "-1")
                           "-1" eq_refl eq_refl
                           (B 2%nat ltac:(lia)) eq_refl)));
      discriminate.
  - destruct (proj1 (choice_selects_device (session_answering " Q ")
                       " Q " eq_refl eq_refl
                       (B 3%nat ltac:(lia)) eq_refl)) as (H1 & H2 & _);
      [right; reflexivity|].
    split; [exact H1|exact H2].
Defined.

(** X27. Ctrl-C cancels the microphone test without a traceback, and
    during the recording it leaves the stream open.  The script never
    ends with [KeyboardInterrupt].  After the listing, Ctrl-C at the
    prompt ends the script normally with "Test cancelled by user" as its
    last line, nothing having been opened.  Ctrl-C while a frame of the
    recording window is being read does the same; by then PyAudio has
    been terminated twice (once by the listing, once by the [finally] of
    the test), but [stream.stop_stream] and [stream.close] are not
    called.  (The answer at the prompt is a line of ASCII characters, at
    most 4300 of them, other than "q" and "Q".) *)
Theorem ctrl_c_cancels_the_test (s : Microphone.session) :
  fst (Microphone.list_devices (Microphone.table s) (Microphone.default s)) =
    Return tt ->
  let w := Microphone.script s in
  fst w <> Raise KeyboardInterrupt /\
  (Microphone.keyboard s = Raise KeyboardInterrupt ->
   fst w = Return tt /\
   last (printed (snd w)) Microphone.Rule = Microphone.Cancelled /\
   opened (snd w) = [] /\
   times Microphone.Terminate (snd w) = 1%nat) /\
  (forall (answer : string) (before : list Microphone.tick) (now : Q)
          (after : list Microphone.tick),
     Microphone.keyboard s = Return answer ->
     Py.is_ascii answer = true ->
     (String.length answer <= 4300)%nat ->
     PyStr.strip answer <> "q"%string ->
     PyStr.strip answer <> "Q"%string ->
     Microphone.opening s = Return tt ->
     Microphone.ticks s = before ++ (now, Raise KeyboardInterrupt) :: after ->
     forallb is_frame before = true ->
     window 5 (Microphone.start_time s)
       (before ++ [(now, Raise KeyboardInterrupt)]) =
       before ++ [(now, Raise KeyboardInterrupt)] ->
     fst w = Return tt /\
     last (printed (snd w)) Microphone.Rule = Microphone.Cancelled /\
     times Microphone.Read (snd w) = S (List.length before) /\
     times Microphone.Terminate (snd w) = 2%nat /\
     times Microphone.StopStream (snd w) = 0%nat /\
     times Microphone.CloseStream (snd w) = 0%nat).
Proof.
  intro L. cbv zeta.
  split.
  { unfold Microphone.script, Microphone.try_except.
    destruct (Microphone.main s) as [[u|[e|e|]|] t]; cbn; discriminate. }
  destruct (list_devices_quiet (Microphone.table s) (Microphone.default s))
    as (Q1 & Q2 & Q3 & Q4 & _ & Q6).
  cbv zeta in Q6. specialize (Q6 L).
  destruct (Microphone.list_devices (Microphone.table s)
              (Microphone.default s)) as [r listing] eqn:LD.
  cbn [fst snd] in *. subst r.
  unfold Microphone.script. rewrite (main_eq s listing LD).
  split.
  - intros ->. cbv [Microphone.try_except Microphone.print]. cbn [fst snd].
    split; [reflexivity|].
    split.
    { rewrite !printed_app.
      change (printed [Microphone.Print Microphone.Cancelled])
        with [Microphone.Cancelled].
      apply last_last. }
    split; [now rewrite !opened_app, Q1|].
    now rewrite !times_app, Q6.
  - intros answer before now after K _ _ E1 E2 O T F W. rewrite K.
    destruct (String.eqb_spec (Py.lower (PyStr.strip answer)) "q")
      as [E'|_];
      [apply lower_is_q in E'; destruct E' as [E'|E']; now contradiction|].
    cbv zeta. rewrite O, T, test_microphone_open.
    destruct (record_fault 5 (Microphone.start_time s) now KeyboardInterrupt
                after before 0 F W) as (_ & R2 & _ & R4 & _ & _).
    cbv zeta in R2, R4. specialize (R2 eq_refl).
    pose proof (record_quiet 5 (Microphone.start_time s)
                  (before ++ (now, Raise KeyboardInterrupt) :: after) 0) as RQ.
    cbv zeta in RQ. destruct RQ as (_ & _ & _ & RQ4 & RQ5 & RQ6 & _).
    destruct (Microphone.record 5 (Microphone.start_time s)
                (before ++ (now, Raise KeyboardInterrupt) :: after) 0)
      as [r t].
    cbn [fst snd] in *. subst r.
    cbv [Microphone.try_except Microphone.print]. cbn [fst snd].
    split; [reflexivity|].
    split.
    { rewrite !printed_app.
      change (printed [Microphone.Print Microphone.Cancelled])
        with [Microphone.Cancelled].
      apply last_last. }
    rewrite !times_app, Q2, Q3, Q4, Q6, R4, RQ4, RQ5, RQ6.
    destruct (PyStr.isdigit (PyStr.strip answer)); cbn; repeat split; lia.
Qed.

Lemma ctrl_c_cancels_the_test_witness :
  fst (Microphone.script interrupted_session) = Return tt /\
  times Microphone.Terminate (snd (Microphone.script interrupted_session)) =
    2%nat /\
  times Microphone.CloseStream (snd (Microphone.script interrupted_session)) =
    0%nat.
Proof.
  pose proof (proj2 (proj2 (ctrl_c_cancels_the_test interrupted_session
                              eq_refl))
                EmptyString [(1, Return 400)] 2 [(3, Return 1200)]
                eq_refl eq_refl) as H.
  cbv zeta in H.
  destruct H as (H1 & _ & _ & H4 & _ & H6);
    [cbn; lia|discriminate|discriminate|reflexivity|reflexivity|reflexivity|
     reflexivity|].
  split; [exact H1|]. split; [exact H4|exact H6].
Defined.

(** The bar and the status of a volume line. *)
Lemma volume_line (v : Q) :
  let bar := Z.to_nat (Z.min (Py.int (v / 100)) 50) in
  let status :=
    if Py.lt v 500 then Microphone.TooQuiet
    else if Py.lt v 2000 then Microphone.GoodLevel
    else Microphone.Loud in
  (bar <= 50)%nat /\
  (v < 100 -> bar = 0%nat) /\
  (0 <= v -> inject_Z (Z.of_nat bar) * 100 <= v) /\
  (0 <= v -> (bar < 50)%nat -> v < inject_Z (Z.of_nat bar + 1) * 100) /\
  (status = Microphone.TooQuiet <-> v < 500) /\
  (status = Microphone.GoodLevel <-> 500 <= v /\ v < 2000) /\
  (status = Microphone.Loud <-> 2000 <= v).
Proof.
  cbv zeta.
  destruct (int_bounds (v / 100)) as [P N].
  set (k := Py.int (v / 100)) in *.
  split; [lia|].
  split.
  { intro L. destruct (Qlt_le_dec v 0) as [V|V].
    - destruct N as [N _]; [|lia].
      apply Qle_shift_div_r; [reflexivity|]. apply Qlt_le_weak.
      now rewrite Qmult_0_l.
    - destruct P as (P1 & P2 & _).
      { apply Qle_shift_div_l; [reflexivity|]. now rewrite Qmult_0_l. }
      assert (K : inject_Z k < inject_Z 1).
      { apply Qle_lt_trans with (v / 100); [exact P2|].
        apply Qlt_shift_div_r; [reflexivity|]. exact L. }
      rewrite <- Zlt_Qlt in K. lia. }
  split.
  { intro V. destruct P as (P1 & P2 & _).
    { apply Qle_shift_div_l; [reflexivity|]. now rewrite Qmult_0_l. }
    apply Qle_trans with (inject_Z k * 100).
    - apply Qmult_le_compat_r; [|discriminate].
      rewrite <- Zle_Qle. lia.
    - apply (Qmult_le_r _ _ (/ 100)); [reflexivity|].
      rewrite <- Qmult_assoc, Qmult_inv_r, Qmult_1_r by discriminate.
      exact P2. }
  split.
  { intros V B. destruct P as (P1 & _ & P3).
    { apply Qle_shift_div_l; [reflexivity|]. now rewrite Qmult_0_l. }
    replace (Z.of_nat (Z.to_nat (Z.min k 50)) + 1)%Z with (k + 1)%Z by lia.
    apply (Qmult_lt_r _ _ (/ 100)); [reflexivity|].
    rewrite <- Qmult_assoc, Qmult_inv_r, Qmult_1_r by discriminate.
    rewrite inject_Z_plus.
    apply Qplus_lt_l with (z := - (1)). 
    rewrite <- Qplus_assoc, Qplus_opp_r, Qplus_0_r. exact P3. }
  destruct (Py.lt v 500) eqn:A.
  - apply lt_true_iff in A.
    split; [now split|].
    split; (split; [discriminate|]).
    + intros [H _]. exfalso. apply (Qlt_irrefl v).
      now apply Qlt_le_trans with 500.
    + intro H. exfalso. apply (Qlt_irrefl v).
      apply Qlt_le_trans with 500; [exact A|].
      apply Qle_trans with 2000; [discriminate|exact H].
  - apply lt_false_iff in A.
    destruct (Py.lt v 2000) eqn:B.
    + apply lt_true_iff in B.
      split.
      { split; [discriminate|]. intro H. exfalso. apply (Qlt_irrefl v).
        now apply Qlt_le_trans with 500. }
      split; [now split|].
      split; [discriminate|]. intro H. exfalso. apply (Qlt_irrefl v).
      now apply Qlt_le_trans with 2000.
    + apply lt_false_iff in B.
      split.
      { split; [discriminate|]. intro H. exfalso. apply (Qlt_irrefl v).
        now apply Qlt_le_trans with 500. }
      split; [|now split].
      split; [discriminate|]. intros [_ H]. exfalso. apply (Qlt_irrefl v).
      now apply Qlt_le_trans with 2000.
Qed.

Lemma record_lines (duration start_time : Q) (ticks : list Microphone.tick) :
  forall m v bar st,
    In (Microphone.Volume v bar st)
      (printed (snd (Microphone.record duration start_time ticks m))) ->
    bar = Z.to_nat (Z.min (Py.int (v / 100)) 50) /\
    st = (if Py.lt v 500 then Microphone.TooQuiet
          else if Py.lt v 2000 then Microphone.GoodLevel
          else Microphone.Loud).
Proof.
  induction ticks as [|[now frame] rest IH]; intros m v bar st.
  - intros [].
  - rewrite record_cons. destruct (Py.lt (now - start_time) duration);
      [|intros []].
    destruct frame as [x|[e|e|]|]; cbn [snd].
    + change (printed (?a :: Microphone.Print ?l :: ?t)) with (l :: printed t).
      intros [[= <- <- <-]|H]; [now split|exact (IH _ _ _ _ H)].
    + cbn. intros [[=]|[]].
    + cbn. intros [[=]|[]].
    + intros [].
    + intros [].
Qed.

Lemma report_lines (m v : Q) (bar : nat) (st : Microphone.status) :
  ~ In (Microphone.Volume v bar st) (printed (snd (Microphone.report m))).
Proof.
  unfold Microphone.report. cbv [Microphone.bind Microphone.print app].
  destruct (Py.lt m 300); [|destruct (Py.lt m 1000)]; cbn;
    intuition discriminate.
Qed.

(** X28. Every volume line of the microphone test is consistent with its
    volume.  The bar has the whole hundreds of the volume as its length,
    capped at 50 blocks; it is empty when the volume is below 100 (or
    negative).  The status is "too quiet" below 500, "good level" from
    500 and below 2000, and "loud" from 2000 on. *)
Theorem volume_line_matches_volume
    (device_index : option Z) (duration : Q) (opening : result unit)
    (start_time : Q) (ticks : list Microphone.tick)
    (v : Q) (bar : nat) (st : Microphone.status) :
  In (Microphone.Volume v bar st)
    (printed
       (snd (Microphone.test_microphone device_index duration opening
               start_time ticks))) ->
  (bar <= 50)%nat /\
  (v < 100 -> bar = 0%nat) /\
  (0 <= v -> inject_Z (Z.of_nat bar) * 100 <= v) /\
  (0 <= v -> (bar < 50)%nat -> v < inject_Z (Z.of_nat bar + 1) * 100) /\
  (st = Microphone.TooQuiet <-> v < 500) /\
  (st = Microphone.GoodLevel <-> 500 <= v /\ v < 2000) /\
  (st = Microphone.Loud <-> 2000 <= v).
Proof.
  intro H.
  assert (R : In (Microphone.Volume v bar st)
                (printed
                   (snd (Microphone.record duration start_time ticks 0)))).
  { destruct opening as [[]|e|].
    - rewrite test_microphone_open in H.
      destruct (Microphone.record duration start_time ticks 0)
        as [[m|[e|e|]|] t]; cbn [snd] in *;
        rewrite ?printed_app, ?in_app_iff in H;
        destruct H as [H|H]; try (cbn in H; intuition discriminate);
        try exact H.
      destruct H as [H|[H|H]]; [exact H| |cbn in H; intuition discriminate].
      now apply report_lines in H.
    - destruct e as [e|e|]; cbn in H; intuition discriminate.
    - cbn in H. intuition discriminate. }
  apply record_lines in R. destruct R as [-> ->].
  exact (volume_line v).
Qed.

Lemma volume_line_matches_volume_witness :
  In (Microphone.Volume 1200 12 Microphone.GoodLevel)
    (printed
       (snd (Microphone.test_microphone (Some 1%Z) 5 (Return tt) 0
               example_recording))) /\
  (12 <= 50)%nat.
Proof.
  assert (H : In (Microphone.Volume 1200 12 Microphone.GoodLevel)
                (printed
                   (snd (Microphone.test_microphone (Some 1%Z) 5 (Return tt) 0
                           example_recording)))).
  { cbn. do 6 right. left. reflexivity. }
  split; [exact H|].
  exact (proj1 (volume_line_matches_volume (Some 1%Z) 5 (Return tt) 0
                  example_recording 1200 12 Microphone.GoodLevel H)).
Defined.
